(** * FAIA model_training: the train and export scripts

    A shallow embedding of
      flutter_ai_assistant/lib/model_training/train_model.py
      flutter_ai_assistant/lib/model_training/export_tflite.py
    The two scripts are straight-line pipelines over a file system and a
    machine-learning framework.  The pure preprocessing helpers they call
    (Keras' Tokenizer and pad_sequences, scikit-learn's LabelEncoder, the
    EarlyStopping callback) are written out as functions following the
    behaviour of those libraries; the numerical engine (training, graph
    conversion, the interpreter) is a record of oracles that may return a
    value or raise. *)

From Stdlib Require Import ZArith List String Ascii Lia Permutation PrimFloat.
From stdpp Require Import gmap strings list sorting.

Local Open Scope string_scope.
Local Open Scope list_scope.
Local Open Scope Z_scope.

(** ** Python containers *)

(** [dict(pairs)]: later bindings of a key overwrite earlier ones. *)
Definition dict_of_list {V} (kvs : list (string * V)) : gmap string V :=
  fold_left (fun m kv => <[fst kv := snd kv]> m) kvs ∅.

(** [l[i]] for a Python list: a negative index counts from the end, an
    index out of range raises (here [None]). *)
Definition py_index {A} (l : list A) (i : Z) : option A :=
  if i <? 0
  then (if Z.of_nat (length l) + i <? 0 then None
        else l !! Z.to_nat (Z.of_nat (length l) + i))
  else l !! Z.to_nat i.

(** [enumerate(l)] *)
Definition enumerate {A} (l : list A) : list (Z * A) :=
  combine (map Z.of_nat (seq 0 (length l))) l.

(** ** Text preprocessing (keras.preprocessing.text) *)

Module Text.

(** Default [filters] of [text_to_word_sequence]:
    the punctuation characters, tab and newline.  The apostrophe is not
    among them. *)
Definition filters : list ascii :=
  [ "!"; "034"; "#"; "$"; "%"; "&"; "("; ")"; "*"; "+"; ","; "-"; "."; "/";
    ":"; ";"; "<"; "="; ">"; "?"; "@"; "["; "\"; "]"; "^"; "_"; "`"; "{";
    "|"; "}"; "~"; "009"; "010" ]%char.

Definition split_char : ascii := " "%char.

Definition is_filter (c : ascii) : bool :=
  existsb (Ascii.eqb c) filters.

(** [str.lower] on the ASCII range. *)
Definition lower_char (c : ascii) : ascii :=
  let n := N_of_ascii c in
  if ((65 <=? n) && (n <=? 90))%N then ascii_of_N (n + 32) else c.

Fixpoint lower (s : string) : string :=
  match s with
  | EmptyString => EmptyString
  | String c s' => String (lower_char c) (lower s')
  end.

(** [input_text.translate(translate_map)]: every filter character becomes
    the split character. *)
Fixpoint translate (s : string) : string :=
  match s with
  | EmptyString => EmptyString
  | String c s' =>
      String (if is_filter c then split_char else c) (translate s')
  end.

(** [str.split(" ")] with an explicit separator: one field per separator,
    empty fields included.  [cur] is the field being read, reversed. *)
Fixpoint split_go (cur : list ascii) (s : string) : list string :=
  match s with
  | EmptyString => [string_of_list_ascii (rev cur)]
  | String c s' =>
      if Ascii.eqb c split_char
      then string_of_list_ascii (rev cur) :: split_go [] s'
      else split_go (c :: cur) s'
  end.

Definition split (s : string) : list string := split_go [] s.

Definition nonempty (s : string) : bool :=
  match s with EmptyString => false | _ => true end.

(** [text_to_word_sequence(text)] with lower=True, split=" ". *)
Definition text_to_word_sequence (input_text : string) : list string :=
  filter (fun w => nonempty w = true) (split (translate (lower input_text))).

End Text.

(** ** The tokenizer (keras.preprocessing.text.Tokenizer) *)

Module Tokenizer.

(** The fields of the tokenizer the scripts depend on.  [word_counts] is an
    ordered dictionary: an association list in first-seen order. *)
Record t := mk {
  num_words : option Z;
  oov_token : option string;
  document_count : Z;
  word_counts : list (string * Z);
  word_index : gmap string Z
}.

Definition new (num_words : option Z) (oov_token : option string) : t :=
  mk num_words oov_token 0 [] ∅.

(** [word_counts[w] += 1], or [word_counts[w] = 1] for a new word, which
    goes to the end. *)
Fixpoint count_word (w : string) (wc : list (string * Z)) : list (string * Z) :=
  match wc with
  | [] => [(w, 1)]
  | (w', n) :: wc' =>
      if String.eqb w w' then (w', n + 1) :: wc' else (w', n) :: count_word w wc'
  end.

Definition count_text (wc : list (string * Z)) (text : string) : list (string * Z) :=
  fold_left (fun acc w => count_word w acc) (Text.text_to_word_sequence text) wc.

(** [wcounts.sort(key=lambda x: x[1], reverse=True)]: a stable sort by
    decreasing count; entries of equal count keep their first-seen order. *)
Fixpoint insert_desc (x : string * Z) (l : list (string * Z)) : list (string * Z) :=
  match l with
  | [] => [x]
  | y :: l' => if (snd y <=? snd x)%Z then x :: y :: l' else y :: insert_desc x l'
  end.

Definition sort_desc (l : list (string * Z)) : list (string * Z) :=
  fold_right insert_desc [] l.

(** [range(1, n + 1)] *)
Definition range1 (n : nat) : list Z := map Z.of_nat (seq 1 n).

Definition sorted_voc (tok : t) (wcounts : list (string * Z)) : list string :=
  match oov_token tok with
  | None => []
  | Some oov => [oov]
  end ++ map fst wcounts.

Definition fit_on_texts (tok : t) (texts : list string) : t :=
  let wc := fold_left count_text texts (word_counts tok) in
  let wcounts := sort_desc wc in
  let voc := sorted_voc tok wcounts in
  mk (num_words tok) (oov_token tok)
     (document_count tok + Z.of_nat (length texts))
     wc
     (dict_of_list (combine voc (range1 (length voc)))).

(** One word of [texts_to_sequences]: the id, the out-of-vocabulary id, or
    nothing. *)
Definition word_to_ids (tok : t) (w : string) : list Z :=
  let oov_token_index :=
    match oov_token tok with
    | Some oov => word_index tok !! oov
    | None => None
    end in
  match word_index tok !! w with
  | Some i =>
      match num_words tok with
      | Some nw =>
          if (negb (nw =? 0) && (nw <=? i))%Z
          then match oov_token_index with Some o => [o] | None => [] end
          else [i]
      | None => [i]
      end
  | None =>
      match oov_token tok with
      | Some _ => match oov_token_index with Some o => [o] | None => [] end
      | None => []
      end
  end.

Definition text_to_sequence (tok : t) (text : string) : list Z :=
  flat_map (word_to_ids tok) (Text.text_to_word_sequence text).

Definition texts_to_sequences (tok : t) (texts : list string) : list (list Z) :=
  map (text_to_sequence tok) texts.

(** [len(tokenizer.word_index)] *)
Definition len_word_index (tok : t) : Z := Z.of_nat (size (word_index tok)).

End Tokenizer.

(** ** Arrays and padding (numpy, keras.preprocessing.sequence) *)

Inductive dtype := int32 | float32 | int8.

(** A two-dimensional array: its element type and its rows.  Token ids are
    small integers, exactly representable in every element type used. *)
Record ndarray := mk_ndarray {
  nd_dtype : dtype;
  nd_rows : list (list Z)
}.

Definition astype (d : dtype) (a : ndarray) : ndarray :=
  mk_ndarray d (nd_rows a).

(** [a[i:i+1]] *)
Definition slice1 (a : ndarray) (i : nat) : ndarray :=
  mk_ndarray (nd_dtype a) (firstn 1 (skipn i (nd_rows a))).

Inductive side := pre | post.

(** One row of [pad_sequences]: the row starts as [maxlen] copies of the
    value 0; an empty sequence leaves it so, otherwise the truncated
    sequence is copied to its front (post) or its back (pre). *)
Definition pad_row (maxlen : nat) (padding truncating : side) (s : list Z) : list Z :=
  let trunc :=
    match truncating with
    | pre => skipn (length s - maxlen)%nat s
    | post => firstn maxlen s
    end in
  let fill := repeat 0 (maxlen - length trunc)%nat in
  match padding with
  | post => trunc ++ fill
  | pre => fill ++ trunc
  end.

Definition pad_sequences (sequences : list (list Z)) (maxlen : Z)
    (padding truncating : side) : ndarray :=
  mk_ndarray int32 (map (pad_row (Z.to_nat maxlen) padding truncating) sequences).

(** ** Label encoding (sklearn.preprocessing.LabelEncoder, to_categorical) *)

Module LabelEncoder.

(** The fitted encoder: [classes_]. *)
Record t := mk { classes_ : list string }.

(** [sorted(set(values))] *)
Definition unique (values : list string) : list string :=
  merge_sort String.le (remove_dups values).

(** [{val: i for i, val in enumerate(uniques)}] *)
Definition table (uniques : list string) : gmap string Z :=
  dict_of_list (map (fun iv => (snd iv, fst iv)) (enumerate uniques)).

(** [[table[v] for v in values]]; a label missing from the table raises
    (here [None]). *)
Definition map_to_integer (values uniques : list string) : option (list Z) :=
  mapM (fun v => table uniques !! v) values.

Definition fit (values : list string) : t := mk (unique values).

(** [label_encoder.transform([v])[0]] *)
Definition encode (le : t) (v : string) : option Z :=
  table (classes_ le) !! v.

Definition transform (le : t) (values : list string) : option (list Z) :=
  map_to_integer values (classes_ le).

Definition fit_transform (values : list string) : t * option (list Z) :=
  let le := fit values in (le, transform le values).

End LabelEncoder.

(** [tf.keras.utils.to_categorical(y, num_classes)]: one row per label,
    with a 1 in the column of the label. *)
Definition one_hot (num_classes : nat) (y : Z) : list Z :=
  map (fun j => if Z.of_nat j =? y then 1 else 0) (seq 0 num_classes).

Definition to_categorical (y : list Z) (num_classes : nat) : list (list Z) :=
  map (one_hot num_classes) y.

(** ** Exceptions, files and the state of the world *)

(** Python exceptions: the subclasses of [Exception], which a clause
    [except Exception] catches, and the others ([KeyboardInterrupt],
    [SystemExit]), which it lets through. *)
Inductive exn :=
| Exception (type_name msg : string)
| BaseException (type_name : string).

Definition is_Exception (e : exn) : bool :=
  match e with Exception _ _ => true | BaseException _ => false end.

Inductive res (A : Type) :=
| Ok (a : A)
| Raise (e : exn).
Arguments Ok {A} a.
Arguments Raise {A} e.

Definition bytes := list Byte.byte.

#[warnings="-register-all"]
Inductive json :=
| JNull
| JInt (z : Z)
| JFloat (x : float)
| JStr (s : string)
| JList (l : list json)
| JObj (fields : list (string * json)).

(** The layers [create_model] stacks. *)
Inductive layer :=
| Input (shape : list Z)
| Embedding (input_dim output_dim input_length : Z)
| GlobalAveragePooling1D
| Dense (units : Z) (activation : string)
| Dropout (rate : float).

(** The learned parameters are the framework's own. *)
Definition weights := list float.

Record keras_model := mk_model {
  km_layers : list layer;
  km_optimizer : string;
  km_learning_rate : float;
  km_loss : string;
  km_metrics : list string;
  km_weights : weights
}.

(** What a file holds.  A text or binary serialisation is identified with
    the value it encodes: reading back what was written yields the value. *)
Inductive file :=
| FEmpty
| FBytes (b : bytes)
| FTokenizer (t : Tokenizer.t)
| FJson (j : json)
| FModel (m : keras_model)
| FWeights (w : weights).

(** A fragment of a printed line. *)
Inductive frag :=
| PStr (s : string)
| PInt (z : Z)
| PFloat (x : float)
| PRatio (num den : Z)
| PJson (j : json)
| PExn (e : exn).

Inductive converter_kind := ConvFloat32 | ConvInt8 | ConvDynamic.

Inductive event :=
| EvPrint (line : list frag)
| EvMakedirs (path : string)
| EvOpenWrite (path : string)
| EvWrite (path : string) (f : file)
| EvRead (path : string)
| EvLoadModel (path : string)
| EvModelSave (path : string)
| EvFitBegin
| EvEpoch (epoch : Z)
| EvFitEnd
| EvEvaluate
| EvConvert (k : converter_kind)
| EvInterpreter (path : string)
| EvSetTensor (path : string) (index : Z) (value : ndarray)
| EvInvoke (path : string).

Record world := mk_world {
  files : gmap string file;
  dirs : gset string;
  trace : list event
}.

(** Computations: a result or an exception, and the world afterwards. *)
Definition M (A : Type) : Type := world -> res A * world.

Definition ret {A} (a : A) : M A := fun w => (Ok a, w).

Definition raise {A} (e : exn) : M A := fun w => (Raise e, w).

Definition bind {A B} (m : M A) (k : A -> M B) : M B :=
  fun w =>
    match m w with
    | (Ok a, w') => k a w'
    | (Raise e, w') => (Raise e, w')
    end.

(** [try: body except Exception as e: handler e] *)
Definition try_except {A} (body : M A) (handler : exn -> M A) : M A :=
  fun w =>
    match body w with
    | (Ok a, w') => (Ok a, w')
    | (Raise e, w') => if is_Exception e then handler e w' else (Raise e, w')
    end.

Notation "x <- m ;; k" := (bind m (fun x => k))
  (at level 100, m at next level, right associativity).
Notation "m ;;; k" := (bind m (fun _ => k))
  (at level 100, right associativity).

Definition lift {A} (r : res A) : M A := fun w => (r, w).

Definition emit (e : event) : M unit :=
  fun w => (Ok tt, mk_world (files w) (dirs w) (trace w ++ [e])).

Definition print (line : list frag) : M unit := emit (EvPrint line).

Fixpoint for_each {A} (l : list A) (body : A -> M unit) : M unit :=
  match l with
  | [] => ret tt
  | x :: l' => body x ;;; for_each l' body
  end.

(** [os.path.dirname]: the part before the last slash. *)
Fixpoint dirname_go (s : string) : option string :=
  match s with
  | EmptyString => None
  | String c s' =>
      match dirname_go s' with
      | Some d => Some (String c d)
      | None => if Ascii.eqb c "/"%char then Some EmptyString else None
      end
  end.

Definition dirname (path : string) : string :=
  match dirname_go path with Some d => d | None => EmptyString end.

(** [os.makedirs(path, exist_ok=True)] *)
Definition makedirs (path : string) : M unit :=
  emit (EvMakedirs path) ;;;
  fun w =>
    match files w !! path with
    | Some _ => (Raise (Exception "FileExistsError" path), w)
    | None => (Ok tt, mk_world (files w) ({[path]} ∪ dirs w) (trace w))
    end.

Definition dir_exists (w : world) (d : string) : bool :=
  if decide (d = EmptyString) then true else bool_decide (d ∈ dirs w).

(** [open(path, 'w')]: the file is created, or emptied, at once. *)
Definition open_write (path : string) : M unit :=
  emit (EvOpenWrite path) ;;;
  fun w =>
    if dir_exists w (dirname path)
    then (Ok tt, mk_world (<[path := FEmpty]> (files w)) (dirs w) (trace w))
    else (Raise (Exception "FileNotFoundError" path), w).

Definition write (path : string) (f : file) : M unit :=
  emit (EvWrite path f) ;;;
  fun w => (Ok tt, mk_world (<[path := f]> (files w)) (dirs w) (trace w)).

(** [with open(path, 'w') as f: f.write(content)] *)
Definition write_file (path : string) (f : file) : M unit :=
  open_write path ;;; write path f.

(** [with open(path, 'r') as f: f.read()] *)
Definition read_file (path : string) : M file :=
  emit (EvRead path) ;;;
  fun w =>
    match files w !! path with
    | Some f => (Ok f, w)
    | None => (Raise (Exception "FileNotFoundError" path), w)
    end.

(** ** The training engine and its callbacks (tensorflow.keras) *)

(** The keys of the per-epoch [logs] dictionary when validation data is
    given: 'loss', 'accuracy', 'val_loss', 'val_accuracy'. *)
Inductive metric := m_loss | m_accuracy | m_val_loss | m_val_accuracy.

Record epoch_logs := mk_logs {
  log_loss : float;
  log_accuracy : float;
  log_val_loss : float;
  log_val_accuracy : float
}.

(** [logs.get(monitor)] *)
Definition get_log (m : metric) (l : epoch_logs) : float :=
  match m with
  | m_loss => log_loss l
  | m_accuracy => log_accuracy l
  | m_val_loss => log_val_loss l
  | m_val_accuracy => log_val_accuracy l
  end.

(** The comparison a callback picks in mode 'auto': [np.greater] for an
    accuracy, [np.less] otherwise. *)
Definition monitor_op (m : metric) (current best : float) : bool :=
  match m with
  | m_accuracy | m_val_accuracy => PrimFloat.ltb best current
  | m_loss | m_val_loss => PrimFloat.ltb current best
  end.

(** The worst value, which any finite first value improves on. *)
Definition monitor_init (m : metric) : float :=
  match m with
  | m_accuracy | m_val_accuracy => neg_infinity
  | m_loss | m_val_loss => infinity
  end.

Inductive callback :=
| EarlyStopping (monitor : metric) (patience : Z) (restore_best_weights : bool)
| ModelCheckpoint (filepath : string) (monitor : metric)
    (save_best_only save_weights_only : bool)
| ReduceLROnPlateau (monitor : metric) (factor : float) (patience : Z)
    (min_lr : float).

Record es_state := mk_es {
  es_wait : Z;
  es_best : float;
  es_best_weights : option weights;
  es_best_epoch : Z;
  es_stopped_epoch : Z
}.

(** The mutable state of a callback object. *)
Inductive cb_state :=
| ESState (s : es_state)
| MCState (best : float)
| RLState.

(** [on_train_begin] (and [__init__]) *)
Definition cb_init (cb : callback) : cb_state :=
  match cb with
  | EarlyStopping m _ _ => ESState (mk_es 0 (monitor_init m) None 0 0)
  | ModelCheckpoint _ m _ _ => MCState (monitor_init m)
  | ReduceLROnPlateau _ _ _ _ => RLState
  end.

Definition set_weights (m : keras_model) (w : weights) : keras_model :=
  mk_model (km_layers m) (km_optimizer m) (km_learning_rate m) (km_loss m)
    (km_metrics m) w.

(** [EarlyStopping.on_epoch_end], with min_delta 0 and no baseline.  The
    result is the new state, whether training is to stop, and the weights
    the model holds afterwards. *)
Definition es_on_epoch_end (m : metric) (patience : Z) (restore_best_weights : bool)
    (s : es_state) (epoch : Z) (logs : epoch_logs) (model_weights : weights)
    : es_state * bool * weights :=
  let current := get_log m logs in
  let best_weights0 :=
    match es_best_weights s with
    | None => if restore_best_weights then Some model_weights else None
    | Some bw => Some bw
    end in
  let wait1 := es_wait s + 1 in
  let improved := monitor_op m current (es_best s) in
  let best := if improved then current else es_best s in
  let best_epoch := if improved then epoch else es_best_epoch s in
  let best_weights :=
    if improved && restore_best_weights then Some model_weights else best_weights0 in
  let wait := if improved then 0 else wait1 in
  if (patience <=? wait) && (0 <? epoch)
  then
    let w :=
      match best_weights with
      | Some bw => if restore_best_weights then bw else model_weights
      | None => model_weights
      end in
    (mk_es wait best best_weights best_epoch epoch, true, w)
  else (mk_es wait best best_weights best_epoch (es_stopped_epoch s), false, model_weights).

(** [model.save(filepath)] or [model.save_weights(filepath)] *)
Definition model_save (filepath : string) (save_weights_only : bool)
    (model : keras_model) : M unit :=
  emit (EvModelSave filepath) ;;;
  write_file filepath
    (if save_weights_only then FWeights (km_weights model) else FModel model).

(** [on_epoch_end] of one callback.  [ReduceLROnPlateau] only rescales the
    optimizer's learning rate, which belongs to the engine: the engine
    receives the callback list and accounts for it. *)
Definition cb_on_epoch_end (cb : callback) (st : cb_state) (epoch : Z)
    (logs : epoch_logs) (model : keras_model) (stop : bool)
    : M (cb_state * keras_model * bool) :=
  match cb, st with
  | EarlyStopping m patience restore, ESState s =>
      let '(s', stop', w) := es_on_epoch_end m patience restore s epoch logs (km_weights model) in
      ret (ESState s', set_weights model w, stop || stop')
  | ModelCheckpoint filepath m save_best_only save_weights_only, MCState best =>
      let current := get_log m logs in
      if save_best_only
      then
        if monitor_op m current best
        then model_save filepath save_weights_only model ;;;
             ret (MCState current, model, stop)
        else ret (st, model, stop)
      else model_save filepath save_weights_only model ;;; ret (st, model, stop)
  | _, _ => ret (st, model, stop)
  end.

(** The callbacks run in list order, each seeing the model as the previous
    one left it. *)
Fixpoint callbacks_on_epoch_end (cbs : list callback) (sts : list cb_state)
    (epoch : Z) (logs : epoch_logs) (model : keras_model) (stop : bool)
    : M (list cb_state * keras_model * bool) :=
  match cbs, sts with
  | cb :: cbs', st :: sts' =>
      r <- cb_on_epoch_end cb st epoch logs model stop ;;
      let '(st', model', stop') := r in
      r' <- callbacks_on_epoch_end cbs' sts' epoch logs model' stop' ;;
      let '(sts'', model'', stop'') := r' in
      ret (st' :: sts'', model'', stop'')
  | _, _ => ret ([], model, stop)
  end.

Record fit_data := mk_fit_data {
  fd_X_train : ndarray;
  fd_y_train : list (list Z);
  fd_X_val : ndarray;
  fd_y_val : list (list Z);
  fd_batch_size : Z
}.

(** The numerical engine, as oracles. *)
Record engine := mk_engine {
  (* the initial, random parameters of a new model *)
  init_weights : list layer -> weights;
  (* train_test_split(X, y, test_size, random_state) *)
  train_test_split :
    ndarray -> list (list Z) -> float -> Z ->
    res (ndarray * ndarray * list (list Z) * list (list Z));
  (* one epoch of training and validation: the new parameters and the logs *)
  train_epoch :
    keras_model -> list callback -> fit_data -> Z -> list epoch_logs ->
    res (weights * epoch_logs);
  (* model.evaluate(X_val, y_val): loss and accuracy *)
  evaluate : keras_model -> ndarray -> list (list Z) -> res (float * float)
}.

(** [model.fit]: at most [remaining] more epochs, from [epoch] on; the loop
    ends early once a callback has set [stop_training]. *)
Fixpoint fit_loop (eng : engine) (cbs : list callback) (d : fit_data)
    (remaining : nat) (epoch : Z) (model : keras_model) (sts : list cb_state)
    (history : list epoch_logs) : M (keras_model * list epoch_logs) :=
  match remaining with
  | O => ret (model, history)
  | S n =>
      emit (EvEpoch epoch) ;;;
      step <- lift (train_epoch eng model cbs d epoch history) ;;
      let '(w, logs) := step in
      r <- callbacks_on_epoch_end cbs sts epoch logs (set_weights model w) false ;;
      let '(sts', model', stop) := r in
      if stop : bool then ret (model', history ++ [logs])
      else fit_loop eng cbs d n (epoch + 1) model' sts' (history ++ [logs])
  end.

Definition fit (eng : engine) (model : keras_model) (d : fit_data) (epochs : Z)
    (cbs : list callback) : M (keras_model * list epoch_logs) :=
  emit EvFitBegin ;;;
  r <- fit_loop eng cbs d (Z.to_nat epochs) 0 model (map cb_init cbs) [] ;;
  emit EvFitEnd ;;;
  ret r.

(** ** train_model.py *)

Module Train.

Record config := mk_config {
  max_vocab_size : Z;
  max_sequence_length : Z;
  embedding_dim : Z;
  hidden_units : Z;
  dropout_rate : float;
  batch_size : Z;
  epochs : Z;
  learning_rate : float;
  validation_split : float;
  model_save_path : string;
  tokenizer_save_path : string;
  label_encoder_save_path : string
}.

#[warnings="-inexact-float"]
Definition CONFIG : config := {|
  max_vocab_size := 10000;
  max_sequence_length := 32;
  embedding_dim := 128;
  hidden_units := 64;
  dropout_rate := 0.3;
  batch_size := 32;
  epochs := 100;
  learning_rate := 0.001;
  validation_split := 0.2;
  model_save_path := "models/intent_classifier.h5";
  tokenizer_save_path := "models/tokenizer.json";
  label_encoder_save_path := "models/label_encoder.json"
|}.

(** A table with the columns 'text' and 'intent'. *)
Record DataFrame := mk_df {
  df_text : list string;
  df_intent : list string
}.

Definition load_data : DataFrame := {|
  df_text := [
      "What's the weather like?"; "How's the weather today?";
      "Is it going to rain?"; "What's the temperature?";
      "Will it be sunny tomorrow?"; "Check the weather forecast";
      "Is it cold outside?"; "What's the weather forecast for this week?";
      "What time is it?"; "Tell me the current time"; "What's the time now?";
      "Show me the clock"; "What time is it in New York?";
      "Current time please"; "Hello"; "Hi there"; "Good morning";
      "Good evening"; "Hey"; "How are you?"; "Nice to meet you"; "Greetings";
      "Play some music"; "Play my favorite song"; "Turn on the radio";
      "Play rock music"; "Start the music player"; "I want to listen to music";
      "Play something upbeat"; "What's on my calendar?"; "Show me my schedule";
      "Do I have any meetings today?"; "What's my next appointment?";
      "Check my calendar"; "Schedule a meeting"; "What's in the news?";
      "Show me the latest news"; "Tell me about current events";
      "What's happening in the world?"; "Read me the news";
      "Any breaking news?"; "Help me"; "What can you do?"; "Tell me a joke";
      "How do I use this app?"; "What are your features?"; "Show me the menu"
  ];
  df_intent := [
      "weather"; "weather"; "weather"; "weather"; "weather"; "weather";
      "weather"; "weather"; "time"; "time"; "time"; "time"; "time"; "time";
      "greeting"; "greeting"; "greeting"; "greeting"; "greeting"; "greeting";
      "greeting"; "greeting"; "music"; "music"; "music"; "music"; "music";
      "music"; "music"; "calendar"; "calendar"; "calendar"; "calendar";
      "calendar"; "calendar"; "news"; "news"; "news"; "news"; "news"; "news";
      "help"; "help"; "help"; "help"; "help"; "help"
  ]
|}.

(** [preprocess_data(df)]; a label missing from the encoder's table would
    raise [KeyError]. *)
Definition preprocess_data (df : DataFrame)
    : res (ndarray * list (list Z) * Tokenizer.t * LabelEncoder.t) :=
  let tokenizer := Tokenizer.new (Some (max_vocab_size CONFIG)) (Some "<OOV>") in
  let tokenizer := Tokenizer.fit_on_texts tokenizer (df_text df) in
  let sequences := Tokenizer.texts_to_sequences tokenizer (df_text df) in
  let X := pad_sequences sequences (max_sequence_length CONFIG) post post in
  let '(label_encoder, y) := LabelEncoder.fit_transform (df_intent df) in
  match y with
  | None => Raise (Exception "KeyError" "")
  | Some y =>
      let y := to_categorical y (length (LabelEncoder.classes_ label_encoder)) in
      Ok (X, y, tokenizer, label_encoder)
  end.

Definition create_model (eng : engine) (vocab_size num_classes : Z) : keras_model :=
  let layers :=
    [ Input [max_sequence_length CONFIG];
      Embedding vocab_size (embedding_dim CONFIG) (max_sequence_length CONFIG);
      GlobalAveragePooling1D;
      Dense (hidden_units CONFIG) "relu";
      Dropout (dropout_rate CONFIG);
      Dense (hidden_units CONFIG / 2) "relu";
      Dropout (dropout_rate CONFIG);
      Dense num_classes "softmax" ] in
  mk_model layers "Adam" (learning_rate CONFIG) "categorical_crossentropy"
    ["accuracy"] (init_weights eng layers).

#[warnings="-inexact-float"]
Definition callbacks : list callback :=
  [ EarlyStopping m_val_loss 10 true;
    ModelCheckpoint (model_save_path CONFIG) m_val_accuracy true false;
    ReduceLROnPlateau m_val_loss 0.5 5 1e-6 ].

(** [min(len(tokenizer.word_index) + 1, CONFIG['max_vocab_size'])]: the
    input size of the embedding. *)
Definition vocab_size (tokenizer : Tokenizer.t) : Z :=
  Z.min (Tokenizer.len_word_index tokenizer + 1) (max_vocab_size CONFIG).

(** [model.summary()] prints the layers. *)
Definition summary (model : keras_model) : M unit :=
  print [PStr "Model: "; PInt (Z.of_nat (length (km_layers model)))].

Definition len_rows (a : ndarray) : Z := Z.of_nat (length (nd_rows a)).

Definition history_json (history : list epoch_logs) : json :=
  JObj [ ("loss", JList (map (fun l => JFloat (log_loss l)) history));
         ("accuracy", JList (map (fun l => JFloat (log_accuracy l)) history));
         ("val_loss", JList (map (fun l => JFloat (log_val_loss l)) history));
         ("val_accuracy", JList (map (fun l => JFloat (log_val_accuracy l)) history)) ].

Definition label_encoder_json (le : LabelEncoder.t) : json :=
  JObj [ ("classes", JList (map JStr (LabelEncoder.classes_ le))) ].

Definition train_model (eng : engine) : M unit :=
  makedirs "models" ;;;
  print [PStr "Loading data..."] ;;;
  let df := load_data in
  print [PStr "Loaded "; PInt (Z.of_nat (length (df_text df))); PStr " samples with ";
         PInt (Z.of_nat (length (remove_dups (df_intent df)))); PStr " unique intents"] ;;;
  print [PStr "Preprocessing data..."] ;;;
  pre <- lift (preprocess_data df) ;;
  let '(X, y, tokenizer, label_encoder) := pre in
  parts <- lift (train_test_split eng X y (validation_split CONFIG) 42) ;;
  let '(X_train, X_val, y_train, y_val) := parts in
  print [PStr "Training samples: "; PInt (len_rows X_train)] ;;;
  print [PStr "Validation samples: "; PInt (len_rows X_val)] ;;;
  print [PStr "Creating model..."] ;;;
  let vocab_size := vocab_size tokenizer in
  let num_classes := Z.of_nat (length (LabelEncoder.classes_ label_encoder)) in
  let model := create_model eng vocab_size num_classes in
  summary model ;;;
  print [PStr "Training model..."] ;;;
  fitted <- fit eng model (mk_fit_data X_train y_train X_val y_val (batch_size CONFIG))
              (epochs CONFIG) callbacks ;;
  let '(model, history) := fitted in
  print [PStr "Saving tokenizer..."] ;;;
  write_file (tokenizer_save_path CONFIG) (FTokenizer tokenizer) ;;;
  print [PStr "Saving label encoder..."] ;;;
  write_file (label_encoder_save_path CONFIG) (FJson (label_encoder_json label_encoder)) ;;;
  print [PStr "Evaluating model..."] ;;;
  emit EvEvaluate ;;;
  ev <- lift (evaluate eng model X_val y_val) ;;
  let '(val_loss, val_accuracy) := ev in
  print [PStr "Validation Loss: "; PFloat val_loss] ;;;
  print [PStr "Validation Accuracy: "; PFloat val_accuracy] ;;;
  write_file "models/training_history.json" (FJson (history_json history)) ;;;
  print [PStr "Training completed successfully!"] ;;;
  print [PStr "Model saved to: "; PStr (model_save_path CONFIG)] ;;;
  print [PStr "Tokenizer saved to: "; PStr (tokenizer_save_path CONFIG)] ;;;
  print [PStr "Label encoder saved to: "; PStr (label_encoder_save_path CONFIG)].

End Train.

(** ** The converter and the interpreter (tf.lite) *)

Inductive optimize := OPTIMIZE_DEFAULT.

Inductive ops_set := TFLITE_BUILTINS | TFLITE_BUILTINS_INT8.

(** A [TFLiteConverter] with the attributes the script sets.  The
    representative dataset is given by what its generator yields. *)
Record converter := mk_converter {
  conv_model : keras_model;
  optimizations : list optimize;
  representative_dataset : option (list (list ndarray));
  supported_ops : list ops_set;
  inference_input_type : dtype;
  inference_output_type : dtype
}.

(** [tf.lite.TFLiteConverter.from_keras_model(model)] *)
Definition from_keras_model (model : keras_model) : converter :=
  mk_converter model [] None [TFLITE_BUILTINS] float32 float32.

Record tensor_details := mk_details {
  td_index : Z;
  td_dtype : dtype
}.

(** The conversion and interpreter engine, as oracles.  The interpreter is
    identified by the artifact it loaded; what it computes depends on the
    input tensor last set. *)
Record tflite := mk_tflite {
  convert : converter -> res bytes;
  allocate_tensors : file -> res unit;
  get_input_details : file -> list tensor_details;
  get_output_details : file -> list tensor_details;
  set_tensor : file -> Z -> ndarray -> res unit;
  invoke : file -> Z -> ndarray -> res unit;
  get_tensor : file -> Z -> ndarray -> Z -> res (list (list float))
}.

Definition is_nan (x : float) : bool := negb (PrimFloat.eqb x x).

(** [np.argmax] and [np.max] of a non-empty vector: the first largest
    entry, a NaN counting as largest. *)
Fixpoint argmax_go (best_i : Z) (best : float) (i : Z) (l : list float) : Z * float :=
  match l with
  | [] => (best_i, best)
  | x :: l' =>
      if negb (is_nan best) && (is_nan x || PrimFloat.ltb best x)
      then argmax_go i x (i + 1) l'
      else argmax_go best_i best (i + 1) l'
  end.

Definition argmax_max (output : list float) : res (Z * float) :=
  match output with
  | [] => Raise (Exception "ValueError" "attempt to get argmax of an empty sequence")
  | x :: l => Ok (argmax_go 0 x 1 l)
  end.

Definition index_or_raise {A} (l : list A) (i : Z) : res A :=
  match py_index l i with
  | Some a => Ok a
  | None => Raise (Exception "IndexError" "list index out of range")
  end.

(** ** export_tflite.py *)

Module Exporter.

Record config := mk_config {
  model_path : string;
  tokenizer_path : string;
  label_encoder_path : string;
  tflite_model_path : string;
  tflite_quantized_path : string;
  model_metadata_path : string;
  max_sequence_length : Z;
  representative_dataset_size : Z
}.

Definition CONFIG : config := {|
  model_path := "models/intent_classifier.h5";
  tokenizer_path := "models/tokenizer.json";
  label_encoder_path := "models/label_encoder.json";
  tflite_model_path := "assets/model.tflite";
  tflite_quantized_path := "assets/model_quantized.tflite";
  model_metadata_path := "assets/model_metadata.json";
  max_sequence_length := 32;
  representative_dataset_size := 100
|}.

(** [load_model(path)] *)
Definition load_model (path : string) : M keras_model :=
  emit (EvLoadModel path) ;;;
  fun w =>
    match files w !! path with
    | Some (FModel m) => (Ok m, w)
    | Some _ => (Raise (Exception "OSError" path), w)
    | None => (Raise (Exception "OSError" path), w)
    end.

(** [tokenizer_from_json(text)] *)
Definition tokenizer_from_json (f : file) : res Tokenizer.t :=
  match f with
  | FTokenizer t => Ok t
  | _ => Raise (Exception "ValueError" "tokenizer")
  end.

(** [json.load(f)] *)
Definition json_load (f : file) : res json :=
  match f with
  | FJson j => Ok j
  | _ => Raise (Exception "JSONDecodeError" "")
  end.

(** [data[key]] on a decoded JSON value; in an object with a repeated key
    the last binding counts. *)
Definition json_get (j : json) (key : string) : res json :=
  match j with
  | JObj fields =>
      match dict_of_list fields !! key with
      | Some v => Ok v
      | None => Raise (Exception "KeyError" key)
      end
  | _ => Raise (Exception "TypeError" key)
  end.

(** The class list as a Python list; the files [train_model] writes hold a
    list, anything else is rejected where the list is first measured. *)
Definition json_list (j : json) : res (list json) :=
  match j with
  | JList l => Ok l
  | _ => Raise (Exception "TypeError" "class_names")
  end.

Definition load_tokenizer_and_labels : M (Tokenizer.t * json) :=
  tokenizer_json <- read_file (tokenizer_path CONFIG) ;;
  tokenizer <- lift (tokenizer_from_json tokenizer_json) ;;
  label_file <- read_file (label_encoder_path CONFIG) ;;
  label_encoder_data <- lift (json_load label_file) ;;
  classes <- lift (json_get label_encoder_data "classes") ;;
  ret (tokenizer, classes).

Definition sample_texts : list string := [
      "What's the weather like?"; "What time is it?"; "Hello there";
      "Play some music"; "Show me my calendar"; "What's in the news?";
      "Help me with this"; "Good morning"; "Is it going to rain?";
      "Play my favorite song"; "What's on my schedule?"; "Tell me a joke";
      "How's the weather today?"; "What's the current time?"; "Hi there";
      "Turn on the radio"; "Check my appointments";
      "What's happening in the world?"; "What can you do?"; "Good evening"
  ].

(** What the generator [representative_dataset] yields. *)
Definition create_representative_dataset (tokenizer : Tokenizer.t)
    : list (list ndarray) :=
  let sequences := Tokenizer.texts_to_sequences tokenizer sample_texts in
  let padded_sequences :=
    pad_sequences sequences (max_sequence_length CONFIG) post post in
  let n := Z.min (Z.of_nat (length (nd_rows padded_sequences)))
             (representative_dataset_size CONFIG) in
  map (fun i => [astype float32 (slice1 padded_sequences i)])
      (seq 0 (Z.to_nat n)).

Definition test_texts : list string := [
      "What's the weather like?"; "What time is it?"; "Hello there";
      "Play some music"
  ].

(** The body of the loop of [test_inference], for one text. *)
Definition infer_text (tfl : tflite) (model_path : string) (artifact : file)
    (input_details output_details : list tensor_details)
    (tokenizer : Tokenizer.t) (class_names : list json) (text : string) : M unit :=
  let sequence := Tokenizer.texts_to_sequences tokenizer [text] in
  let padded := pad_sequences sequence (max_sequence_length CONFIG) post post in
  input0 <- lift (index_or_raise input_details 0) ;;
  let value := astype float32 padded in
  emit (EvSetTensor model_path (td_index input0) value) ;;;
  lift (set_tensor tfl artifact (td_index input0) value) ;;;
  emit (EvInvoke model_path) ;;;
  lift (invoke tfl artifact (td_index input0) value) ;;;
  output0 <- lift (index_or_raise output_details 0) ;;
  rows <- lift (get_tensor tfl artifact (td_index input0) value (td_index output0)) ;;
  output <- lift (index_or_raise rows 0) ;;
  am <- lift (argmax_max output) ;;
  predicted_class <- lift (index_or_raise class_names (fst am)) ;;
  let confidence := snd am in
  print [PStr "  '"; PStr text; PStr "' -> "; PJson predicted_class;
         PStr " (confidence: "; PFloat confidence; PStr ")"].

(** [test_inference(model_path, tokenizer, class_names)] *)
Definition test_inference (tfl : tflite) (model_path : string)
    (tokenizer : Tokenizer.t) (class_names : list json) : M unit :=
  emit (EvInterpreter model_path) ;;;
  artifact <- (fun w =>
    match files w !! model_path with
    | Some f => (Ok f, w)
    | None => (Raise (Exception "ValueError" model_path), w)
    end) ;;
  lift (allocate_tensors tfl artifact) ;;;
  let input_details := get_input_details tfl artifact in
  let output_details := get_output_details tfl artifact in
  print [PStr "Testing "; PStr model_path; PStr ":"] ;;;
  for_each test_texts
    (infer_text tfl model_path artifact input_details output_details
       tokenizer class_names).

Definition json_opt_int (o : option Z) : json :=
  match o with Some z => JInt z | None => JNull end.

Definition json_opt_str (o : option string) : json :=
  match o with Some s => JStr s | None => JNull end.

(** [tokenizer.get_config()] *)
Definition get_config (tok : Tokenizer.t) : json :=
  JObj [ ("num_words", json_opt_int (Tokenizer.num_words tok));
         ("oov_token", json_opt_str (Tokenizer.oov_token tok));
         ("document_count", JInt (Tokenizer.document_count tok));
         ("word_counts",
          JObj (map (fun kv => (fst kv, JInt (snd kv))) (Tokenizer.word_counts tok)));
         ("word_index",
          JObj (map (fun kv => (fst kv, JInt (snd kv)))
                  (map_to_list (Tokenizer.word_index tok)))) ].

Definition metadata (tokenizer : Tokenizer.t) (class_names : list json) : json :=
  JObj [ ("model_name", JStr "Intent Classification Model");
         ("model_version", JStr "1.0.0");
         ("input_shape", JList [JInt 1; JInt (max_sequence_length CONFIG)]);
         ("output_shape", JList [JInt 1; JInt (Z.of_nat (length class_names))]);
         ("class_names", JList class_names);
         ("max_sequence_length", JInt (max_sequence_length CONFIG));
         ("vocab_size", JInt (Tokenizer.len_word_index tokenizer + 1));
         ("preprocessing",
          JObj [ ("tokenizer_config", get_config tokenizer);
                 ("padding", JStr "post");
                 ("truncating", JStr "post") ]) ].

Definition len_bytes (b : bytes) : Z := Z.of_nat (length b).

(** The converter of the full-precision artifact. *)
Definition converter_float32 (model : keras_model) : converter :=
  from_keras_model model.

(** The converter of the integer-only quantized artifact. *)
Definition converter_quantized (model : keras_model) (tokenizer : Tokenizer.t)
    : converter :=
  let c := from_keras_model model in
  mk_converter (conv_model c) [OPTIMIZE_DEFAULT]
    (Some (create_representative_dataset tokenizer))
    [TFLITE_BUILTINS_INT8] int8 int8.

(** The converter of the fallback, dynamic-range artifact. *)
Definition converter_dynamic (model : keras_model) : converter :=
  let c := from_keras_model model in
  mk_converter (conv_model c) [OPTIMIZE_DEFAULT] (representative_dataset c)
    (supported_ops c) (inference_input_type c) (inference_output_type c).

(** The body of the [try]. *)
Definition quantize_int8 (tfl : tflite) (model : keras_model)
    (tokenizer : Tokenizer.t) (tflite_model : bytes) : M unit :=
  emit (EvConvert ConvInt8) ;;;
  tflite_quantized_model <- lift (convert tfl (converter_quantized model tokenizer)) ;;
  write_file (tflite_quantized_path CONFIG) (FBytes tflite_quantized_model) ;;;
  print [PStr "Quantized model saved to: "; PStr (tflite_quantized_path CONFIG)] ;;;
  print [PStr "Quantized model size: "; PRatio (len_bytes tflite_quantized_model) 1024;
         PStr " KB"] ;;;
  (if len_bytes tflite_quantized_model =? 0
   then raise (Exception "ZeroDivisionError" "division by zero")
   else ret tt) ;;;
  print [PStr "Compression ratio: ";
         PRatio (len_bytes tflite_model) (len_bytes tflite_quantized_model); PStr "x"].

(** The body of the [except Exception as e]. *)
Definition quantize_dynamic (tfl : tflite) (model : keras_model) (e : exn) : M unit :=
  print [PStr "Quantization failed: "; PExn e] ;;;
  print [PStr "Using dynamic range quantization instead..."] ;;;
  emit (EvConvert ConvDynamic) ;;;
  tflite_quantized_model <- lift (convert tfl (converter_dynamic model)) ;;
  write_file (tflite_quantized_path CONFIG) (FBytes tflite_quantized_model) ;;;
  print [PStr "Dynamic quantized model saved to: "; PStr (tflite_quantized_path CONFIG)] ;;;
  print [PStr "Dynamic quantized model size: ";
         PRatio (len_bytes tflite_quantized_model) 1024; PStr " KB"].

Definition export_tflite_model (tfl : tflite) : M unit :=
  makedirs "assets" ;;;
  print [PStr "Loading trained model..."] ;;;
  model <- load_model (model_path CONFIG) ;;
  loaded <- load_tokenizer_and_labels ;;
  let '(tokenizer, classes) := loaded in
  print [PStr "Converting to TensorFlow Lite (float32)..."] ;;;
  emit (EvConvert ConvFloat32) ;;;
  tflite_model <- lift (convert tfl (converter_float32 model)) ;;
  write_file (tflite_model_path CONFIG) (FBytes tflite_model) ;;;
  print [PStr "Float32 model saved to: "; PStr (tflite_model_path CONFIG)] ;;;
  print [PStr "Float32 model size: "; PRatio (len_bytes tflite_model) 1024; PStr " KB"] ;;;
  print [PStr "Converting to TensorFlow Lite (quantized)..."] ;;;
  try_except (quantize_int8 tfl model tokenizer tflite_model)
             (quantize_dynamic tfl model) ;;;
  class_names <- lift (json_list classes) ;;
  write_file (model_metadata_path CONFIG) (FJson (metadata tokenizer class_names)) ;;;
  print [PStr "Model metadata saved to: "; PStr (model_metadata_path CONFIG)] ;;;
  print [PStr "Testing models..."] ;;;
  test_inference tfl (tflite_model_path CONFIG) tokenizer class_names ;;;
  test_inference tfl (tflite_quantized_path CONFIG) tokenizer class_names ;;;
  print [PStr "Export completed successfully!"].

End Exporter.

(** ** Vocabulary of the properties *)

Definition chars (s : string) : list ascii := list_ascii_of_string s.

(** All the words of a corpus, in reading order. *)
Definition corpus_words (texts : list string) : list string :=
  flat_map Text.text_to_word_sequence texts.

(** The tokenizer [preprocess_data] builds and fits. *)
Definition fitted (texts : list string) : Tokenizer.t :=
  Tokenizer.fit_on_texts
    (Tokenizer.new (Some (Train.max_vocab_size Train.CONFIG)) (Some "<OOV>")) texts.

(** The vocabulary list of the fitted tokenizer: the out-of-vocabulary
    token, then the words by decreasing count. *)
Definition fitted_voc (texts : list string) : list string :=
  "<OOV>" :: map fst (Tokenizer.sort_desc (Tokenizer.word_counts (fitted texts))).




(** The world with more events in its trace. *)
Definition with_trace (w : world) (evs : list event) : world :=
  mk_world (files w) (dirs w) (trace w ++ evs).

(** [m] changes no file outside [S], removes no directory, and adds to the
    trace only events that satisfy [E]. *)
Definition confined {A} (S : string -> Prop) (E : event -> Prop) (m : M A) : Prop :=
  forall w,
    (forall p, ~ S p -> files (snd (m w)) !! p = files w !! p) /\
    dirs w ⊆ dirs (snd (m w)) /\
    exists evs, trace (snd (m w)) = trace w ++ evs /\ Forall E evs.

Definition is_ok {A} (r : res A) : bool :=
  match r with Ok _ => true | Raise _ => false end.

Definition res_bind {A B} (r : res A) (k : A -> res B) : res B :=
  match r with Ok a => k a | Raise e => Raise e end.

(** What the interpreter oracles answer for one text of the validator. *)
Definition infer (tfl : tflite) (artifact : file) (tokenizer : Tokenizer.t)
    (class_names : list json) (text : string) : res (json * float) :=
  let value :=
    astype float32
      (pad_sequences (Tokenizer.texts_to_sequences tokenizer [text])
         (Exporter.max_sequence_length Exporter.CONFIG) post post) in
  res_bind (index_or_raise (get_input_details tfl artifact) 0) (fun input0 =>
  res_bind (set_tensor tfl artifact (td_index input0) value) (fun _ =>
  res_bind (invoke tfl artifact (td_index input0) value) (fun _ =>
  res_bind (index_or_raise (get_output_details tfl artifact) 0) (fun output0 =>
  res_bind (get_tensor tfl artifact (td_index input0) value (td_index output0))
    (fun rows =>
  res_bind (index_or_raise rows 0) (fun output =>
  res_bind (argmax_max output) (fun am =>
  res_bind (index_or_raise class_names (fst am)) (fun predicted_class =>
  Ok (predicted_class, snd am))))))))).

(** The interpreter accepts the artifact and answers every test text. *)
Definition interpreter_ok (tfl : tflite) (artifact : file) (tokenizer : Tokenizer.t)
    (class_names : list json) : bool :=
  is_ok (allocate_tensors tfl artifact) &&
  forallb (fun text => is_ok (infer tfl artifact tokenizer class_names text))
    Exporter.test_texts.

(** The input tensor of a [set_tensor] event is a float32 array. *)
Definition set_tensor_float32 (ev : event) : Prop :=
  match ev with
  | EvSetTensor _ _ value => nd_dtype value = float32
  | _ => True
  end.

(** The events that create or change a file. *)
Definition is_write (ev : event) : bool :=
  match ev with
  | EvOpenWrite _ | EvWrite _ _ | EvModelSave _ => true
  | _ => false
  end.

(** *** Concrete engines and worlds *)

(** An engine that trains without fault: every epoch yields validation
    loss 1, so that after the first epoch no epoch improves on it. *)
Definition steady_engine : engine := {|
  init_weights := fun _ => [];
  train_test_split := fun X y _ _ => Ok (X, X, y, y);
  train_epoch := fun _ _ _ _ _ => Ok ([], mk_logs 1 0 1 0);
  evaluate := fun _ _ _ => Ok (1%float, 0%float)
|}.


Definition empty_world : world := mk_world ∅ ∅ [].

(** An interpreter that accepts every artifact and input and answers with
    one certain class, around a given converter. *)
Definition answering (conv : converter -> res bytes) : tflite := {|
  convert := conv;
  allocate_tensors := fun _ => Ok tt;
  get_input_details := fun _ => [mk_details 0 float32];
  get_output_details := fun _ => [mk_details 1 float32];
  set_tensor := fun _ _ _ => Ok tt;
  invoke := fun _ _ _ => Ok tt;
  get_tensor := fun _ _ _ _ => Ok [[1%float]]
|}.

(** A converter that always succeeds. *)
Definition convert_all (c : converter) : res bytes :=
  match inference_input_type c with
  | int8 => Ok [Byte.x01]
  | _ => Ok [Byte.x01; Byte.x02; Byte.x03; Byte.x04]
  end.

(** A converter whose integer-only quantization fails. *)
Definition convert_int8_fails (c : converter) : res bytes :=
  match inference_input_type c, optimizations c with
  | int8, _ => Raise (Exception "ConverterError" "Quantization not yet supported")
  | _, [] => Ok [Byte.x01; Byte.x02; Byte.x03; Byte.x04]
  | _, _ => Ok [Byte.x01; Byte.x02]
  end.

(** A converter that only produces the full-precision artifact. *)
Definition convert_only_float (c : converter) : res bytes :=
  match optimizations c with
  | [] => Ok [Byte.x01; Byte.x02; Byte.x03; Byte.x04]
  | _ => Raise (Exception "ConverterError" "Quantization not yet supported")
  end.

Definition tiny_tokenizer : Tokenizer.t := fitted ["Hello there"].

Definition tiny_model : keras_model := Train.create_model steady_engine 4 1.

(** The files a training run leaves for the exporter, in small. *)
Definition trained_world : world :=
  mk_world
    (<[Exporter.model_path Exporter.CONFIG := FModel tiny_model]>
       (<[Exporter.tokenizer_path Exporter.CONFIG := FTokenizer tiny_tokenizer]>
          (<[Exporter.label_encoder_path Exporter.CONFIG :=
               FJson (JObj [("classes", JList [JStr "greeting"])])]> ∅)))
    {["models"]} [].

(** The same without the trained model, and with the metadata of an
    earlier export. *)
Definition untrained_world : world :=
  mk_world
    (<[Exporter.model_metadata_path Exporter.CONFIG := FJson (JObj [])]> ∅)
    {["assets"]} [].

(** *** The phases of an export run *)

(** What an export run has traced once the full-precision artifact is on
    disk. *)
Definition export_prefix_events (tflite_model : bytes) : list event :=
  [ EvMakedirs "assets";
    EvPrint [PStr "Loading trained model..."];
    EvLoadModel (Exporter.model_path Exporter.CONFIG);
    EvRead (Exporter.tokenizer_path Exporter.CONFIG);
    EvRead (Exporter.label_encoder_path Exporter.CONFIG);
    EvPrint [PStr "Converting to TensorFlow Lite (float32)..."];
    EvConvert ConvFloat32;
    EvOpenWrite (Exporter.tflite_model_path Exporter.CONFIG);
    EvWrite (Exporter.tflite_model_path Exporter.CONFIG) (FBytes tflite_model) ].

(** The world at that point. *)
Definition export_prefix_world (w : world) (tflite_model : bytes) : world :=
  mk_world
    (<[Exporter.tflite_model_path Exporter.CONFIG := FBytes tflite_model]> (files w))
    ({["assets"]} ∪ dirs w)
    (trace w ++ export_prefix_events tflite_model).

(** The end of [export_tflite_model]: the metadata and the validation. *)
Definition export_finish (tfl : tflite) (tokenizer : Tokenizer.t) (classes : json)
    : M unit :=
  class_names <- lift (Exporter.json_list classes) ;;
  write_file (Exporter.model_metadata_path Exporter.CONFIG)
    (FJson (Exporter.metadata tokenizer class_names)) ;;;
  print [PStr "Model metadata saved to: ";
         PStr (Exporter.model_metadata_path Exporter.CONFIG)] ;;;
  print [PStr "Testing models..."] ;;;
  Exporter.test_inference tfl (Exporter.tflite_model_path Exporter.CONFIG)
    tokenizer class_names ;;;
  Exporter.test_inference tfl (Exporter.tflite_quantized_path Exporter.CONFIG)
    tokenizer class_names ;;;
  print [PStr "Export completed successfully!"].

(** The rest of [export_tflite_model] from that point on. *)
Definition export_rest (tfl : tflite) (model : keras_model) (tokenizer : Tokenizer.t)
    (classes : json) (tflite_model : bytes) : M unit :=
  print [PStr "Float32 model saved to: ";
         PStr (Exporter.tflite_model_path Exporter.CONFIG)] ;;;
  print [PStr "Float32 model size: "; PRatio (Exporter.len_bytes tflite_model) 1024;
         PStr " KB"] ;;;
  print [PStr "Converting to TensorFlow Lite (quantized)..."] ;;;
  try_except (Exporter.quantize_int8 tfl model tokenizer tflite_model)
             (Exporter.quantize_dynamic tfl model) ;;;
  export_finish tfl tokenizer classes.

(** The events of a conversion to a quantized artifact. *)
Definition is_quantized_convert (ev : event) : bool :=
  match ev with
  | EvConvert ConvInt8 | EvConvert ConvDynamic => true
  | _ => false
  end.

(** *** Persisting the vocabulary and the label encoder *)

(** The events that open or write the tokenizer file or the label-encoder
    file. *)
Definition is_persist (ev : event) : bool :=
  match ev with
  | EvOpenWrite p | EvWrite p _ =>
      String.eqb p (Train.tokenizer_save_path Train.CONFIG) ||
      String.eqb p (Train.label_encoder_save_path Train.CONFIG)
  | _ => false
  end.

(** An event that is neither the return of [model.fit] nor a write of one
    of the two files. *)
Definition before_fit_end (ev : event) : Prop :=
  ev <> EvFitEnd /\ is_persist ev = false.

(** The files the [ModelCheckpoint] callbacks of a list save to. *)
Definition checkpoint_paths (cbs : list callback) : list string :=
  flat_map (fun cb =>
              match cb with
              | ModelCheckpoint filepath _ _ _ => [filepath]
              | _ => []
              end) cbs.

(** The events of the training loop with the callbacks [cbs]. *)
Definition loop_event (cbs : list callback) (ev : event) : Prop :=
  match ev with
  | EvEpoch _ => True
  | EvModelSave p | EvOpenWrite p | EvWrite p _ => p ∈ checkpoint_paths cbs
  | _ => False
  end.

(** A run in two phases: up to the return of [model.fit] it neither opens
    nor writes the tokenizer file or the label-encoder file, and if it
    ends before that return the two files are as they were. *)
Definition persists_after_fit {A} (m : M A) : Prop :=
  forall w, exists evs,
    trace (snd (m w)) = trace w ++ evs /\
    ((Forall before_fit_end evs /\
      files (snd (m w)) !! Train.tokenizer_save_path Train.CONFIG
        = files w !! Train.tokenizer_save_path Train.CONFIG /\
      files (snd (m w)) !! Train.label_encoder_save_path Train.CONFIG
        = files w !! Train.label_encoder_save_path Train.CONFIG) \/
     (exists pre post, evs = pre ++ EvFitEnd :: post /\ Forall before_fit_end pre)).

(** What [train_model] does once [model.fit] has returned. *)
Definition train_finish (eng : engine) (X_val : ndarray) (y_val : list (list Z))
    (tokenizer : Tokenizer.t) (label_encoder : LabelEncoder.t)
    (fitted : keras_model * list epoch_logs) : M unit :=
  let '(model, history) := fitted in
  print [PStr "Saving tokenizer..."] ;;;
  write_file (Train.tokenizer_save_path Train.CONFIG) (FTokenizer tokenizer) ;;;
  print [PStr "Saving label encoder..."] ;;;
  write_file (Train.label_encoder_save_path Train.CONFIG)
    (FJson (Train.label_encoder_json label_encoder)) ;;;
  print [PStr "Evaluating model..."] ;;;
  emit EvEvaluate ;;;
  ev <- lift (evaluate eng model X_val y_val) ;;
  let '(val_loss, val_accuracy) := ev in
  print [PStr "Validation Loss: "; PFloat val_loss] ;;;
  print [PStr "Validation Accuracy: "; PFloat val_accuracy] ;;;
  write_file "models/training_history.json" (FJson (Train.history_json history)) ;;;
  print [PStr "Training completed successfully!"] ;;;
  print [PStr "Model saved to: "; PStr (Train.model_save_path Train.CONFIG)] ;;;
  print [PStr "Tokenizer saved to: "; PStr (Train.tokenizer_save_path Train.CONFIG)] ;;;
  print [PStr "Label encoder saved to: ";
         PStr (Train.label_encoder_save_path Train.CONFIG)].

(** What [train_model] does from the split of the data on. *)
Definition train_from_split (eng : engine) (X : ndarray) (y : list (list Z))
    (tokenizer : Tokenizer.t) (label_encoder : LabelEncoder.t) : M unit :=
  parts <- lift (train_test_split eng X y (Train.validation_split Train.CONFIG) 42) ;;
  let '(X_train, X_val, y_train, y_val) := parts in
  print [PStr "Training samples: "; PInt (Train.len_rows X_train)] ;;;
  print [PStr "Validation samples: "; PInt (Train.len_rows X_val)] ;;;
  print [PStr "Creating model..."] ;;;
  let vocab_size := Train.vocab_size tokenizer in
  let num_classes := Z.of_nat (length (LabelEncoder.classes_ label_encoder)) in
  let model := Train.create_model eng vocab_size num_classes in
  Train.summary model ;;;
  print [PStr "Training model..."] ;;;
  fitted <- fit eng model
              (mk_fit_data X_train y_train X_val y_val (Train.batch_size Train.CONFIG))
              (Train.epochs Train.CONFIG) Train.callbacks ;;
  train_finish eng X_val y_val tokenizer label_encoder fitted.

(** Whenever [m] returns normally, the file at [p] holds [f]. *)
Definition writes_last {A} (p : string) (f : file) (m : M A) : Prop :=
  forall w r w', m w = (Ok r, w') -> files w' !! p = Some f.

(** *** Early stopping *)

(** The best validation loss of the epochs given, as the callback tracks
    it: a loss replaces the best one when it is strictly less. *)
Definition best_loss (losses : list float) : float :=
  fold_left (fun best v => if PrimFloat.ltb v best then v else best) losses infinity.

(** Epoch [e] did not improve on the epochs before it. *)
Definition stale_at (losses : list float) (e : nat) : bool :=
  match losses !! e with
  | Some v => negb (PrimFloat.ltb v (best_loss (take e losses)))
  | None => false
  end.

(** The [n] consecutive epochs that end with epoch [e] all failed to
    improve. *)
Definition stale_window (n : nat) (losses : list float) (e : nat) : bool :=
  (n <=? S e)%nat && forallb (stale_at losses) (seq (S e - n) n).

(** The number of epochs without improvement at the end of the run. *)
Definition trailing (losses : list float) : nat :=
  fold_left (fun t e => if stale_at losses e then S t else O)
    (seq 0 (length losses)) O.

(** The epoch of the best loss: the last epoch that improved, epoch 0 if
    none did. *)
Definition best_epoch (losses : list float) : nat :=
  fold_left (fun b e => if stale_at losses e then b else e)
    (seq 0 (length losses)) O.

(** The model at the start of epoch [e], when [ws] lists the weights each
    earlier epoch ended with. *)
Definition model_at (model : keras_model) (ws : list weights) (e : nat) : keras_model :=
  match e with
  | O => model
  | S e' =>
      match ws !! e' with
      | Some w => set_weights model w
      | None => model
      end
  end.

(** Epoch [e] of a run of [model.fit] with the trainer's callbacks: the
    engine, started on the model the epoch before left, gave the weights
    [ws !! e] and the logs [history !! e]. *)
Definition epoch_of (eng : engine) (model : keras_model) (d : fit_data)
    (ws : list weights) (history : list epoch_logs) (e : nat) : Prop :=
  exists w logs,
    ws !! e = Some w /\ history !! e = Some logs /\
    train_epoch eng (model_at model ws e) Train.callbacks d (Z.of_nat e)
      (take e history) = Ok (w, logs).

(** The state of the [EarlyStopping] callback between two epochs, when the
    epochs so far gave the weights [ws] and the validation losses
    [losses]. *)
Definition es_inv (ws : list weights) (losses : list float) (s : es_state) : Prop :=
  es_best s = best_loss losses /\
  es_wait s = Z.of_nat (trailing losses) /\
  (trailing losses < 10)%nat /\
  es_best_weights s = ws !! best_epoch losses.

(** A data set of no samples. *)
Definition no_data : fit_data :=
  mk_fit_data (mk_ndarray int32 []) [] (mk_ndarray int32 []) [] 32.

(** *** Counting words *)

(** How often the word [w] occurs in the corpus. *)
Definition occurrences (texts : list string) (w : string) : Z :=
  Z.of_nat (count_occ String.string_dec (corpus_words texts) w).

(** [word_counts.get(w, 0)] on the ordered dictionary. *)
Fixpoint count_of (wc : list (string * Z)) (w : string) : Z :=
  match wc with
  | [] => 0
  | (w', n) :: wc' => if String.eqb w w' then n else count_of wc' w
  end.

(** A list of counted words in the order [fit_on_texts] gives it: by
    decreasing count. *)
Definition by_decreasing_count (x y : string * Z) : Prop := snd y <= snd x.

(** *** What the scripts may touch *)

(** The files an export run writes. *)
Definition export_paths (p : string) : Prop :=
  p = Exporter.tflite_model_path Exporter.CONFIG \/
  p = Exporter.tflite_quantized_path Exporter.CONFIG \/
  p = Exporter.model_metadata_path Exporter.CONFIG.

(** The events of an export run: it creates the directory assets, reads
    the three training artifacts, writes its own three files and runs the
    interpreter on the two artifacts; it never trains or saves a model. *)
Definition export_event (ev : event) : Prop :=
  match ev with
  | EvMakedirs p => p = "assets"
  | EvOpenWrite p | EvWrite p _ => export_paths p
  | EvRead p =>
      p = Exporter.tokenizer_path Exporter.CONFIG \/
      p = Exporter.label_encoder_path Exporter.CONFIG
  | EvLoadModel p => p = Exporter.model_path Exporter.CONFIG
  | EvInterpreter p | EvSetTensor p _ _ | EvInvoke p =>
      p = Exporter.tflite_model_path Exporter.CONFIG \/
      p = Exporter.tflite_quantized_path Exporter.CONFIG
  | EvModelSave _ | EvFitBegin | EvEpoch _ | EvFitEnd | EvEvaluate => False
  | EvPrint _ | EvConvert _ => True
  end.

(** The files a training run writes. *)
Definition train_paths (p : string) : Prop :=
  p = Train.model_save_path Train.CONFIG \/
  p = Train.tokenizer_save_path Train.CONFIG \/
  p = Train.label_encoder_save_path Train.CONFIG \/
  p = "models/training_history.json".

(** The events of a training run: it creates the directory models, trains,
    and writes its own four files; it reads no file and runs neither the
    converter nor the interpreter. *)
Definition train_event (ev : event) : Prop :=
  match ev with
  | EvMakedirs p => p = "models"
  | EvOpenWrite p | EvWrite p _ => train_paths p
  | EvModelSave p => p = Train.model_save_path Train.CONFIG
  | EvRead _ | EvLoadModel _ | EvConvert _ | EvInterpreter _
  | EvSetTensor _ _ _ | EvInvoke _ => False
  | EvPrint _ | EvFitBegin | EvEpoch _ | EvFitEnd | EvEvaluate => True
  end.

(** *** More engines and worlds *)

(** A converter interrupted from the keyboard during the integer-only
    quantization. *)
Definition convert_interrupted (c : converter) : res bytes :=
  match inference_input_type c with
  | int8 => Raise (BaseException "KeyboardInterrupt")
  | _ => Ok [Byte.x01; Byte.x02; Byte.x03; Byte.x04]
  end.

(** A converter whose integer-only quantization gives an empty artifact. *)
Definition convert_int8_empty (c : converter) : res bytes :=
  match inference_input_type c, optimizations c with
  | int8, _ => Ok []
  | _, [] => Ok [Byte.x01; Byte.x02; Byte.x03; Byte.x04]
  | _, _ => Ok [Byte.x01; Byte.x02]
  end.


(** The training artifacts with a label-encoder file that lacks the key
    'classes'. *)
Definition mislabelled_world : world :=
  mk_world
    (<[Exporter.model_path Exporter.CONFIG := FModel tiny_model]>
       (<[Exporter.tokenizer_path Exporter.CONFIG := FTokenizer tiny_tokenizer]>
          (<[Exporter.label_encoder_path Exporter.CONFIG :=
               FJson (JObj [("labels", JList [JStr "greeting"])])]> ∅)))
    {["models"]} [].


(** An engine that cannot split the data. *)
Definition unsplittable_engine : engine := {|
  init_weights := fun _ => [];
  train_test_split := fun _ _ _ _ => Raise (Exception "ValueError" "test_size");
  train_epoch := fun _ _ _ _ _ => Ok ([], mk_logs 1 0 1 0);
  evaluate := fun _ _ _ => Ok (1%float, 0%float)
|}.

(** An engine that trains but cannot evaluate. *)
Definition unevaluating_engine : engine := {|
  init_weights := fun _ => [];
  train_test_split := fun X y _ _ => Ok (X, X, y, y);
  train_epoch := fun _ _ _ _ _ => Ok ([], mk_logs 1 0 1 0);
  evaluate := fun _ _ _ => Raise (Exception "InvalidArgumentError" "evaluate")
|}.

(** *** The checkpoint *)

(** The best validation accuracy of the epochs given, as [ModelCheckpoint]
    tracks it: an accuracy replaces the best one when it is strictly
    greater. *)
Definition best_accuracy (accs : list float) : float :=
  fold_left (fun best v => if PrimFloat.ltb best v then v else best) accs neg_infinity.

(** Epoch [e] sets a record: its accuracy is strictly greater than the best
    of the epochs before it. *)
Definition record_at (accs : list float) (e : nat) : bool :=
  match accs !! e with
  | Some v => PrimFloat.ltb (best_accuracy (take e accs)) v
  | None => false
  end.

(** The last epoch that set a record, if any did. *)
Definition last_record (accs : list float) : option nat :=
  fold_left (fun r e => if record_at accs e then Some e else r)
    (seq 0 (length accs)) None.

(** The checkpoint file after a run of [model.fit] from [model] that
    produced the weights [ws] and the accuracies [accs] and returned
    [model']: the model as the last record epoch left it, which for the
    final epoch is the model returned; the file as it was [before] when no
    epoch set a record. *)
Definition checkpoint (model : keras_model) (before : option file) (ws : list weights)
    (accs : list float) (model' : keras_model) : option file :=
  match last_record accs with
  | None => before
  | Some e =>
      Some (FModel (if (S e =? length accs)%nat then model'
                    else model_at model ws (S e)))
  end.

(** * Properties *)

(** ** Dictionaries *)

Section Dict.
Context {V : Type}.
Implicit Types kvs : list (string * V).

Lemma dict_of_list_list_to_map kvs :
  dict_of_list kvs = list_to_map (rev kvs).
Proof.
  unfold dict_of_list.
  induction kvs as [|[k v] l IH] using rev_ind; [done|].
  rewrite fold_left_app, rev_app_distr. simpl. by rewrite IH.
Qed.

Lemma NoDup_keys_rev kvs :
  NoDup (map fst kvs) -> NoDup (fst <$> rev kvs).
Proof.
  intros H. change (NoDup (map fst (rev kvs))).
  rewrite map_rev. by apply NoDup_ListNoDup, NoDup_rev, NoDup_ListNoDup.
Qed.

Lemma dict_of_list_lookup kvs k v :
  NoDup (map fst kvs) -> (k, v) ∈ kvs -> dict_of_list kvs !! k = Some v.
Proof.
  intros Hnd Hin. rewrite dict_of_list_list_to_map.
  apply elem_of_list_to_map; [by apply NoDup_keys_rev|].
  apply list_elem_of_In, in_rev. rewrite rev_involutive.
  by apply list_elem_of_In.
Qed.

Lemma dict_of_list_lookup_Some kvs k v :
  dict_of_list kvs !! k = Some v -> (k, v) ∈ kvs.
Proof.
  rewrite dict_of_list_list_to_map. intros H.
  apply elem_of_list_to_map_2 in H.
  apply list_elem_of_In. apply in_rev. by apply list_elem_of_In.
Qed.

Lemma dict_of_list_size kvs :
  NoDup (map fst kvs) -> size (dict_of_list kvs) = length kvs.
Proof.
  intros Hnd. rewrite dict_of_list_list_to_map, map_size_list_to_map.
  - by rewrite length_rev.
  - by apply NoDup_keys_rev.
Qed.

End Dict.

(** ** Padding *)


Lemma pad_row_post maxlen s :
  pad_row maxlen post post s = firstn maxlen s ++ repeat 0 (maxlen - length s)%nat.
Proof.
  unfold pad_row. f_equal. f_equal. rewrite length_firstn. lia.
Qed.

Lemma pad_row_post_long maxlen s :
  (maxlen <= length s)%nat -> pad_row maxlen post post s = firstn maxlen s.
Proof.
  intros H. rewrite pad_row_post.
  replace (maxlen - length s)%nat with 0%nat by lia. simpl. apply app_nil_r.
Qed.

Lemma pad_row_post_short maxlen s :
  (length s <= maxlen)%nat ->
  pad_row maxlen post post s = s ++ repeat 0 (maxlen - length s)%nat.
Proof.
  intros H. rewrite pad_row_post. by rewrite firstn_all2.
Qed.


(** ** The label encoder *)

Lemma unique_elem_of values x :
  x ∈ LabelEncoder.unique values <-> x ∈ values.
Proof.
  unfold LabelEncoder.unique.
  rewrite merge_sort_Permutation. apply elem_of_remove_dups.
Qed.

Lemma unique_NoDup values : NoDup (LabelEncoder.unique values).
Proof.
  unfold LabelEncoder.unique.
  rewrite merge_sort_Permutation. apply NoDup_remove_dups.
Qed.

Lemma unique_Sorted values : Sorted String.le (LabelEncoder.unique values).
Proof. apply Sorted_merge_sort; apply _. Qed.

Lemma combine_seq_snd {A} (l : list A) k :
  map snd (combine (map Z.of_nat (seq k (length l))) l) = l.
Proof.
  revert k. induction l as [|x l IH]; intros k; simpl; [done|].
  by rewrite IH.
Qed.

Lemma combine_seq_lookup {A} (l : list A) k n x :
  l !! n = Some x ->
  (Z.of_nat (k + n), x) ∈ combine (map Z.of_nat (seq k (length l))) l.
Proof.
  revert k n. induction l as [|y l IH]; intros k n H; [done|].
  destruct n as [|n]; simpl in *.
  - injection H as ->. rewrite Nat.add_0_r. apply list_elem_of_here.
  - apply list_elem_of_further.
    replace (k + S n)%nat with (S k + n)%nat by lia. by apply IH.
Qed.

Lemma table_lookup uniques n v :
  NoDup uniques -> uniques !! n = Some v ->
  LabelEncoder.table uniques !! v = Some (Z.of_nat n).
Proof.
  intros Hnd Hn. unfold LabelEncoder.table, enumerate.
  apply dict_of_list_lookup.
  - rewrite map_map. simpl. by rewrite combine_seq_snd.
  - apply list_elem_of_In, in_map_iff.
    exists (Z.of_nat n, v). split; [done|].
    apply list_elem_of_In. by apply (combine_seq_lookup uniques 0 n v).
Qed.

Lemma py_index_of_nat {A} (l : list A) n : py_index l (Z.of_nat n) = l !! n.
Proof.
  unfold py_index. destruct (Z.ltb_spec (Z.of_nat n) 0); [lia|].
  by rewrite Nat2Z.id.
Qed.

(** Every label seen at fitting has a code, and the code is its position in
    the class list. *)
Lemma encode_fit values v :
  v ∈ values ->
  exists n, LabelEncoder.encode (LabelEncoder.fit values) v = Some (Z.of_nat n)
         /\ LabelEncoder.classes_ (LabelEncoder.fit values) !! n = Some v.
Proof.
  intros Hin. apply unique_elem_of, list_elem_of_lookup in Hin as [n Hn].
  exists n. split; [|done].
  unfold LabelEncoder.encode, LabelEncoder.fit. simpl.
  apply table_lookup; [apply unique_NoDup|done].
Qed.

Lemma fit_transform_total values :
  exists y, snd (LabelEncoder.fit_transform values) = Some y
         /\ length y = length values.
Proof.
  unfold LabelEncoder.fit_transform, LabelEncoder.transform,
    LabelEncoder.map_to_integer. simpl.
  assert (is_Some (mapM (fun v => LabelEncoder.table (LabelEncoder.unique values) !! v)
                     values)) as [y Hy].
  { apply mapM_is_Some_2, Forall_forall. intros v Hv.
    destruct (encode_fit values v Hv) as (n & Hn & _). simpl. eauto. }
  exists y. split; [done|].
  apply mapM_Some_1 in Hy. symmetry. by eapply Forall2_length.
Qed.

(** ** Preprocessing *)

Lemma preprocess_data_Ok df :
  exists y,
    snd (LabelEncoder.fit_transform (Train.df_intent df)) = Some y /\
    Train.preprocess_data df =
      Ok (pad_sequences
            (Tokenizer.texts_to_sequences
               (Tokenizer.fit_on_texts
                  (Tokenizer.new (Some (Train.max_vocab_size Train.CONFIG)) (Some "<OOV>"))
                  (Train.df_text df))
               (Train.df_text df))
            (Train.max_sequence_length Train.CONFIG) post post,
          to_categorical y
            (length (LabelEncoder.classes_ (LabelEncoder.fit (Train.df_intent df)))),
          Tokenizer.fit_on_texts
            (Tokenizer.new (Some (Train.max_vocab_size Train.CONFIG)) (Some "<OOV>"))
            (Train.df_text df),
          LabelEncoder.fit (Train.df_intent df)).
Proof.
  destruct (fit_transform_total (Train.df_intent df)) as (y & Hy & _).
  exists y. split; [done|].
  unfold Train.preprocess_data.
  unfold LabelEncoder.fit_transform in *. simpl in Hy. by rewrite Hy.
Qed.


(** C5: every intent label L of the training set has a code, and the
    persisted classes list, indexed with that code, gives L back; this is
    so for the encoder's own list and for the list the exporter reads from
    the label-encoder file. *)
Theorem label_round_trip (df : Train.DataFrame) (L : string) :
  L ∈ Train.df_intent df ->
  exists X y tokenizer label_encoder i class_names,
    Train.preprocess_data df = Ok (X, y, tokenizer, label_encoder) /\
    LabelEncoder.encode label_encoder L = Some i /\
    py_index (LabelEncoder.classes_ label_encoder) i = Some L /\
    Exporter.json_get (Train.label_encoder_json label_encoder) "classes"
      = Ok (JList class_names) /\
    py_index class_names i = Some (JStr L).
Proof.
  intros HL.
  destruct (preprocess_data_Ok df) as (y & _ & Hpre).
  destruct (encode_fit _ _ HL) as (n & Henc & Hn).
  eexists _, _, _, _, (Z.of_nat n), _.
  split; [exact Hpre|]. split; [exact Henc|].
  split; [by rewrite py_index_of_nat|].
  split; [reflexivity|].
  rewrite py_index_of_nat.
  change (map JStr ?l !! n) with ((JStr <$> l) !! n).
  by rewrite list_lookup_fmap, Hn.
Qed.

(** ** Words *)

Lemma translate_no_filter s :
  Forall (fun c => Text.is_filter c = false) (chars (Text.translate s)).
Proof.
  induction s as [|c s IH]; simpl; constructor; [|exact IH].
  destruct (Text.is_filter c) eqn:E; [reflexivity|exact E].
Qed.

Lemma split_go_chars cur s p c :
  p ∈ Text.split_go cur s -> c ∈ chars p -> c ∈ cur \/ c ∈ chars s.
Proof.
  revert cur. induction s as [|c0 s IH]; intros cur Hp Hc; simpl in Hp.
  - apply list_elem_of_singleton in Hp. subst p.
    unfold chars in Hc. rewrite list_ascii_of_string_of_list_ascii in Hc.
    left. apply list_elem_of_In, in_rev. by apply list_elem_of_In.
  - destruct (Ascii.eqb c0 Text.split_char).
    + apply elem_of_cons in Hp as [->|Hp].
      * unfold chars in Hc. rewrite list_ascii_of_string_of_list_ascii in Hc.
        left. apply list_elem_of_In, in_rev. by apply list_elem_of_In.
      * destruct (IH [] Hp Hc) as [H|H]; [by apply elem_of_nil in H|].
        right. simpl. by apply list_elem_of_further.
    + destruct (IH (c0 :: cur) Hp Hc) as [H|H].
      * apply elem_of_cons in H as [->|H]; [|by left].
        right. simpl. apply list_elem_of_here.
      * right. simpl. by apply list_elem_of_further.
Qed.

(** No word of a text contains a filtered character. *)
Lemma word_no_filter text w :
  w ∈ Text.text_to_word_sequence text ->
  Forall (fun c => Text.is_filter c = false) (chars w).
Proof.
  unfold Text.text_to_word_sequence, Text.split. intros Hw.
  apply list_elem_of_filter in Hw as [_ Hw].
  apply Forall_forall. intros c Hc.
  destruct (split_go_chars _ _ _ _ Hw Hc) as [H|H]; [by apply elem_of_nil in H|].
  pose proof (translate_no_filter (Text.lower text)) as Hf.
  rewrite Forall_forall in Hf. by apply Hf.
Qed.

Lemma OOV_not_a_word text : "<OOV>" ∉ Text.text_to_word_sequence text.
Proof.
  intros Hw. apply word_no_filter in Hw.
  inversion Hw as [|? ? Hc _]. discriminate Hc.
Qed.

(** ** Word counts *)

Lemma count_word_keys_old w wc :
  w ∈ map fst wc -> map fst (Tokenizer.count_word w wc) = map fst wc.
Proof.
  induction wc as [|[w' n] wc IH]; simpl; intros Hin.
  - by apply elem_of_nil in Hin.
  - destruct (String.eqb_spec w w') as [->|Hne]; [done|]. simpl. f_equal.
    apply IH. apply elem_of_cons in Hin as [?|?]; [done|assumption].
Qed.

Lemma count_word_keys_new w wc :
  w ∉ map fst wc -> map fst (Tokenizer.count_word w wc) = map fst wc ++ [w].
Proof.
  induction wc as [|[w' n] wc IH]; simpl; intros Hin; [done|].
  destruct (String.eqb_spec w w') as [->|Hne].
  - exfalso. apply Hin, list_elem_of_here.
  - simpl. f_equal. apply IH. intros H. apply Hin. by apply list_elem_of_further.
Qed.

Lemma count_words_keys ws wc :
  NoDup (map fst wc) ->
  NoDup (map fst (fold_left (fun acc w => Tokenizer.count_word w acc) ws wc)) /\
  forall w, w ∈ map fst (fold_left (fun acc w => Tokenizer.count_word w acc) ws wc)
            <-> w ∈ map fst wc \/ w ∈ ws.
Proof.
  revert wc. induction ws as [|w0 ws IH]; intros wc Hnd; simpl.
  - split; [done|]. intros w. split; [by left|].
    intros [H|H]; [done|by apply elem_of_nil in H].
  - destruct (decide (w0 ∈ map fst wc)) as [Hin|Hnin].
    + destruct (IH (Tokenizer.count_word w0 wc)) as [H1 H2].
      { by rewrite count_word_keys_old. }
      split; [done|]. intros w. rewrite H2, count_word_keys_old by done.
      rewrite elem_of_cons. split; [tauto|].
      intros [?|[->|?]]; tauto.
    + destruct (IH (Tokenizer.count_word w0 wc)) as [H1 H2].
      { rewrite count_word_keys_new by done.
        apply NoDup_app. split; [done|]. split.
        - intros x Hx Hx'. apply list_elem_of_singleton in Hx'. by subst.
        - apply NoDup_singleton. }
      split; [done|]. intros w. rewrite H2, count_word_keys_new by done.
      rewrite elem_of_app, list_elem_of_singleton, elem_of_cons. tauto.
Qed.

Lemma count_texts_words texts wc :
  fold_left Tokenizer.count_text texts wc =
  fold_left (fun acc w => Tokenizer.count_word w acc) (corpus_words texts) wc.
Proof.
  revert wc. induction texts as [|t texts IH]; intros wc; simpl; [done|].
  unfold corpus_words in *. simpl. rewrite fold_left_app. apply IH.
Qed.

Lemma sort_desc_Permutation l : Tokenizer.sort_desc l ≡ₚ l.
Proof.
  induction l as [|x l IH]; simpl; [done|].
  rewrite <- IH at 2.
  generalize (Tokenizer.sort_desc l). clear. intros l.
  induction l as [|y l IH]; simpl; [done|].
  destruct (snd y <=? snd x); [done|].
  rewrite IH. apply perm_swap.
Qed.

(** ** The fitted word index *)

Lemma combine_range_fst {A} (l : list A) k :
  map fst (combine l (map Z.of_nat (seq k (length l)))) = l.
Proof.
  revert k. induction l as [|x l IH]; intros k; simpl; [done|]. by rewrite IH.
Qed.

Lemma combine_range_elem {A} (l : list A) k x i :
  (x, i) ∈ combine l (map Z.of_nat (seq k (length l))) <->
  exists n, l !! n = Some x /\ i = Z.of_nat (k + n).
Proof.
  revert k. induction l as [|y l IH]; intros k; simpl.
  - split; [intros H; by apply elem_of_nil in H|]. by intros (n & H & _).
  - rewrite elem_of_cons, IH. split.
    + intros [H|(n & Hn & ->)].
      * injection H as -> ->. exists 0%nat. split; [done|]. f_equal. lia.
      * exists (S n). split; [done|]. f_equal. lia.
    + intros ([|n] & Hn & ->); simpl in Hn.
      * injection Hn as ->. left. f_equal. f_equal. lia.
      * right. exists n. split; [done|]. f_equal. lia.
Qed.

Lemma fitted_word_counts_keys texts :
  NoDup (map fst (Tokenizer.word_counts (fitted texts))) /\
  forall w, w ∈ map fst (Tokenizer.word_counts (fitted texts)) <-> w ∈ corpus_words texts.
Proof.
  unfold fitted, Tokenizer.fit_on_texts. simpl.
  rewrite count_texts_words.
  destruct (count_words_keys (corpus_words texts) []) as [H1 H2]; [constructor|].
  split; [done|]. intros w. rewrite H2. split; [|tauto].
  intros [H|H]; [by apply elem_of_nil in H|done].
Qed.

Lemma fitted_word_index texts :
  Tokenizer.word_index (fitted texts) =
  dict_of_list (combine (fitted_voc texts)
                  (map Z.of_nat (seq 1 (length (fitted_voc texts))))).
Proof. reflexivity. Qed.

Lemma OOV_not_in_corpus texts : "<OOV>" ∉ corpus_words texts.
Proof.
  unfold corpus_words. intros H.
  apply list_elem_of_In, in_flat_map in H as (t & _ & H).
  by apply list_elem_of_In, OOV_not_a_word in H.
Qed.

Lemma fitted_voc_NoDup texts : NoDup (fitted_voc texts).
Proof.
  destruct (fitted_word_counts_keys texts) as [Hnd Hin].
  assert (map fst (Tokenizer.sort_desc (Tokenizer.word_counts (fitted texts)))
          ≡ₚ map fst (Tokenizer.word_counts (fitted texts))) as Hp.
  { apply (fmap_Permutation fst), sort_desc_Permutation. }
  unfold fitted_voc. apply NoDup_cons. split.
  - intros H. rewrite Hp in H.
    by apply (OOV_not_in_corpus texts), Hin.
  - by rewrite Hp.
Qed.

Lemma fitted_voc_length texts :
  length (fitted_voc texts) = S (length (remove_dups (corpus_words texts))).
Proof.
  destruct (fitted_word_counts_keys texts) as [Hnd Hin].
  unfold fitted_voc. simpl. f_equal.
  rewrite length_map, (Permutation_length (sort_desc_Permutation _)).
  rewrite <- (length_map fst).
  apply Permutation_length, NoDup_Permutation; [done|apply NoDup_remove_dups|].
  intros w. by rewrite Hin, elem_of_remove_dups.
Qed.

(** The word index has one entry per distinct word of the corpus, and one
    for the out-of-vocabulary token. *)
Lemma fitted_len_word_index texts :
  Tokenizer.len_word_index (fitted texts) =
  Z.of_nat (length (remove_dups (corpus_words texts))) + 1.
Proof.
  unfold Tokenizer.len_word_index. rewrite fitted_word_index, dict_of_list_size.
  - rewrite length_combine, length_map, length_seq, Nat.min_id, fitted_voc_length. lia.
  - rewrite combine_range_fst. apply fitted_voc_NoDup.
Qed.

Lemma fitted_word_index_lookup texts w i :
  Tokenizer.word_index (fitted texts) !! w = Some i <->
  exists n, fitted_voc texts !! n = Some w /\ i = Z.of_nat (S n).
Proof.
  rewrite fitted_word_index. split.
  - intros H. apply dict_of_list_lookup_Some in H.
    by apply combine_range_elem in H.
  - intros H. apply dict_of_list_lookup.
    + rewrite combine_range_fst. apply fitted_voc_NoDup.
    + by apply combine_range_elem.
Qed.

Lemma fitted_oov_index texts :
  Tokenizer.word_index (fitted texts) !! "<OOV>" = Some 1.
Proof. apply fitted_word_index_lookup. by exists 0%nat. Qed.

Lemma fitted_oov_token texts : Tokenizer.oov_token (fitted texts) = Some "<OOV>".
Proof. reflexivity. Qed.

Lemma fitted_num_words texts :
  Tokenizer.num_words (fitted texts) = Some (Train.max_vocab_size Train.CONFIG).
Proof. reflexivity. Qed.




(** ** A corpus with as many distinct words as the cap *)












(** ** Vocabulary size *)

Lemma preprocess_data_fitted df :
  exists y,
    Train.preprocess_data df =
      Ok (pad_sequences
            (Tokenizer.texts_to_sequences (fitted (Train.df_text df)) (Train.df_text df))
            (Train.max_sequence_length Train.CONFIG) post post,
          y, fitted (Train.df_text df), LabelEncoder.fit (Train.df_intent df)).
Proof.
  destruct (preprocess_data_Ok df) as (y & _ & H). eexists. exact H.
Qed.





(** ** Computations *)

Lemma bind_Ok {A B} (m : M A) (k : A -> M B) w a w' :
  m w = (Ok a, w') -> bind m k w = k a w'.
Proof. intros H. unfold bind. by rewrite H. Qed.

Lemma bind_Raise {A B} (m : M A) (k : A -> M B) w e w' :
  m w = (Raise e, w') -> bind m k w = (Raise e, w').
Proof. intros H. unfold bind. by rewrite H. Qed.

Lemma run_emit ev w : emit ev w = (Ok tt, with_trace w [ev]).
Proof. reflexivity. Qed.

Lemma run_print line w : print line w = (Ok tt, with_trace w [EvPrint line]).
Proof. reflexivity. Qed.

Lemma run_makedirs path w :
  files w !! path = None ->
  makedirs path w =
  (Ok tt, mk_world (files w) ({[path]} ∪ dirs w) (trace w ++ [EvMakedirs path])).
Proof.
  intros H. unfold makedirs. rewrite (bind_Ok _ _ _ _ _ (run_emit _ _)).
  cbn [with_trace files dirs trace]. by rewrite H.
Qed.

Lemma run_makedirs_exists path w f :
  files w !! path = Some f ->
  makedirs path w =
  (Raise (Exception "FileExistsError" path), with_trace w [EvMakedirs path]).
Proof.
  intros H. unfold makedirs. rewrite (bind_Ok _ _ _ _ _ (run_emit _ _)).
  cbn [with_trace files dirs trace]. by rewrite H.
Qed.

Lemma run_write_file path f w :
  dir_exists w (dirname path) = true ->
  write_file path f w =
  (Ok tt, mk_world (<[path := f]> (files w)) (dirs w)
            (trace w ++ [EvOpenWrite path; EvWrite path f])).
Proof.
  intros H. unfold write_file, open_write, write.
  rewrite (bind_Ok _ _ w tt
             (mk_world (<[path := FEmpty]> (files w)) (dirs w)
                (trace w ++ [EvOpenWrite path]))).
  - rewrite (bind_Ok _ _ _ _ _ (run_emit _ _)).
    cbn [with_trace files dirs trace].
    by rewrite insert_insert_eq, <- app_assoc.
  - rewrite (bind_Ok _ _ _ _ _ (run_emit _ _)).
    unfold dir_exists in *. cbn [with_trace files dirs trace]. by rewrite H.
Qed.

Lemma run_read_file path f w :
  files w !! path = Some f ->
  read_file path w = (Ok f, with_trace w [EvRead path]).
Proof.
  intros H. unfold read_file. rewrite (bind_Ok _ _ _ _ _ (run_emit _ _)).
  cbn [with_trace files dirs trace]. by rewrite H.
Qed.

Lemma run_load_model path m w :
  files w !! path = Some (FModel m) ->
  Exporter.load_model path w = (Ok m, with_trace w [EvLoadModel path]).
Proof.
  intros H. unfold Exporter.load_model. rewrite (bind_Ok _ _ _ _ _ (run_emit _ _)).
  cbn [with_trace files dirs trace]. by rewrite H.
Qed.

Lemma run_load_model_absent path w :
  files w !! path = None ->
  Exporter.load_model path w =
  (Raise (Exception "OSError" path), with_trace w [EvLoadModel path]).
Proof.
  intros H. unfold Exporter.load_model. rewrite (bind_Ok _ _ _ _ _ (run_emit _ _)).
  cbn [with_trace files dirs trace]. by rewrite H.
Qed.

(** ** Export without the trained model *)

(** C6: when the trained-model file is absent at the configured path the
    export aborts with an exception, and the run has opened or written no
    file: every file, the metadata file among them, is exactly as it was
    before the run (absent if it was absent, the earlier complete file if
    there was one). *)
Theorem export_aborts_without_model (tfl : tflite) (w : world) :
  files w !! Exporter.model_path Exporter.CONFIG = None ->
  exists e w' evs,
    Exporter.export_tflite_model tfl w = (Raise e, w') /\
    files w' = files w /\
    files w' !! Exporter.model_metadata_path Exporter.CONFIG
      = files w !! Exporter.model_metadata_path Exporter.CONFIG /\
    trace w' = trace w ++ evs /\
    Forall (fun ev => is_write ev = false) evs.
Proof.
  intros Hm. unfold Exporter.export_tflite_model.
  destruct (files w !! "assets") as [f|] eqn:Ha.
  - rewrite (bind_Raise _ _ _ _ _ (run_makedirs_exists _ _ _ Ha)).
    eexists _, _, _. split; [reflexivity|].
    cbn [with_trace files trace]. repeat split. by repeat constructor.
  - rewrite (bind_Ok _ _ _ _ _ (run_makedirs _ _ Ha)).
    rewrite (bind_Ok _ _ _ _ _ (run_print _ _)).
    rewrite (bind_Raise _ _ _ (Exception "OSError" (Exporter.model_path Exporter.CONFIG))
               (with_trace
                  (with_trace
                     (mk_world (files w) ({["assets"]} ∪ dirs w)
                        (trace w ++ [EvMakedirs "assets"]))
                     [EvPrint [PStr "Loading trained model..."]])
                  [EvLoadModel (Exporter.model_path Exporter.CONFIG)])).
    + eexists _, _, _. split; [reflexivity|].
      cbn [with_trace files trace]. split; [done|]. split; [done|].
      split; [by rewrite <- !app_assoc|]. by repeat constructor.
    + by apply run_load_model_absent.
Qed.

(** ** Confinement: which files and events a computation can touch *)

Section Confined.
Context (S : string -> Prop) (E : event -> Prop).

Lemma confined_unchanged {A} (m : M A) :
  (forall w, snd (m w) = w) -> confined S E m.
Proof.
  intros H w. rewrite H. split; [done|]. split; [done|].
  exists []. by rewrite app_nil_r.
Qed.

Lemma confined_ret {A} (a : A) : confined S E (ret a).
Proof. by apply confined_unchanged. Qed.

Lemma confined_raise {A} e : confined S E (@raise A e).
Proof. by apply confined_unchanged. Qed.

Lemma confined_lift {A} (r : res A) : confined S E (lift r).
Proof. by apply confined_unchanged. Qed.

Lemma confined_emit ev : E ev -> confined S E (emit ev).
Proof.
  intros H w. cbn. split; [done|]. split; [done|].
  exists [ev]. split; [done|]. by constructor.
Qed.

Lemma confined_print line : E (EvPrint line) -> confined S E (print line).
Proof. apply confined_emit. Qed.

Lemma confined_step {A} (m : M A) w r w1 w2 :
  confined S E m -> m w = (r, w1) ->
  (forall p, ~ S p -> files w2 !! p = files w1 !! p) ->
  dirs w1 ⊆ dirs w2 ->
  (exists evs, trace w2 = trace w1 ++ evs /\ Forall E evs) ->
  (forall p, ~ S p -> files w2 !! p = files w !! p) /\
  dirs w ⊆ dirs w2 /\
  exists evs, trace w2 = trace w ++ evs /\ Forall E evs.
Proof.
  intros Hm Hw Hf Hd (evs2 & Ht2 & He2).
  destruct (Hm w) as (Hf1 & Hd1 & evs1 & Ht1 & He1). rewrite Hw in *. simpl in *.
  split; [|split].
  - intros p Hp. by rewrite Hf, Hf1.
  - set_solver.
  - exists (evs1 ++ evs2). rewrite Ht2, Ht1, app_assoc. split; [done|].
    by apply Forall_app.
Qed.

Lemma confined_bind {A B} (m : M A) (k : A -> M B) :
  confined S E m -> (forall a, confined S E (k a)) -> confined S E (bind m k).
Proof.
  intros Hm Hk w. unfold bind. destruct (m w) as [[a|e] w1] eqn:Hw.
  - destruct (Hk a w1) as (Hf & Hd & Ht). by eapply confined_step.
  - simpl. eapply confined_step; [done..|]. exists []. by rewrite app_nil_r.
Qed.

Lemma confined_try_except {A} (body : M A) (handler : exn -> M A) :
  confined S E body -> (forall e, confined S E (handler e)) ->
  confined S E (try_except body handler).
Proof.
  intros Hm Hk w. unfold try_except. destruct (body w) as [[a|e] w1] eqn:Hw.
  - simpl. eapply confined_step; [done..|]. exists []. by rewrite app_nil_r.
  - destruct (is_Exception e).
    + destruct (Hk e w1) as (Hf & Hd & Ht). by eapply confined_step.
    + simpl. eapply confined_step; [done..|]. exists []. by rewrite app_nil_r.
Qed.

Lemma confined_for_each {A} (l : list A) (body : A -> M unit) :
  (forall x, confined S E (body x)) -> confined S E (for_each l body).
Proof.
  intros H. induction l as [|x l IH]; simpl.
  - apply confined_ret.
  - apply confined_bind; [apply H|]. intros _. apply IH.
Qed.

Lemma confined_makedirs path : E (EvMakedirs path) -> confined S E (makedirs path).
Proof.
  intros He. unfold makedirs. apply confined_bind; [by apply confined_emit|].
  intros _ w. destruct (files w !! path); simpl.
  - split; [done|]. split; [done|]. exists []. by rewrite app_nil_r.
  - split; [done|]. split; [set_solver|]. exists []. by rewrite app_nil_r.
Qed.

Lemma confined_open_write path :
  S path -> E (EvOpenWrite path) -> confined S E (open_write path).
Proof.
  intros Hs He. unfold open_write. apply confined_bind; [by apply confined_emit|].
  intros _ w. destruct (dir_exists w (dirname path)); simpl.
  - split; [|split; [done|exists []; by rewrite app_nil_r]].
    intros p Hp. apply lookup_insert_ne. by intros ->.
  - split; [done|]. split; [done|]. exists []. by rewrite app_nil_r.
Qed.

Lemma confined_write path f :
  S path -> E (EvWrite path f) -> confined S E (write path f).
Proof.
  intros Hs He. unfold write. apply confined_bind; [by apply confined_emit|].
  intros _ w. simpl.
  split; [|split; [done|exists []; by rewrite app_nil_r]].
  intros p Hp. apply lookup_insert_ne. by intros ->.
Qed.

Lemma confined_write_file path f :
  S path -> E (EvOpenWrite path) -> E (EvWrite path f) ->
  confined S E (write_file path f).
Proof.
  intros. unfold write_file. apply confined_bind; [by apply confined_open_write|].
  intros _. by apply confined_write.
Qed.

Lemma confined_read_file path : E (EvRead path) -> confined S E (read_file path).
Proof.
  intros He. unfold read_file. apply confined_bind; [by apply confined_emit|].
  intros _. apply confined_unchanged. intros w. by destruct (files w !! path).
Qed.

Lemma confined_load_model path :
  E (EvLoadModel path) -> confined S E (Exporter.load_model path).
Proof.
  intros He. unfold Exporter.load_model.
  apply confined_bind; [by apply confined_emit|].
  intros _. apply confined_unchanged. intros w.
  by destruct (files w !! path) as [[]|].
Qed.

End Confined.

Lemma confined_weaken {A} (S S' : string -> Prop) (E E' : event -> Prop) (m : M A) :
  (forall p, S p -> S' p) -> (forall ev, E ev -> E' ev) ->
  confined S E m -> confined S' E' m.
Proof.
  intros HS HE Hm w. destruct (Hm w) as (Hf & Hd & evs & Ht & He).
  split; [|split; [done|]].
  - intros p Hp. apply Hf. intros H. by apply Hp, HS.
  - exists evs. split; [done|]. eapply Forall_impl; [done|]. apply HE.
Qed.

Ltac confine_with tac :=
  repeat first
    [ tac
    | apply confined_lift | apply confined_ret | apply confined_raise
    | apply confined_print | apply confined_emit
    | apply confined_makedirs | apply confined_write_file
    | apply confined_read_file | apply confined_load_model
    | apply confined_for_each; intros ?
    | apply confined_try_except; [|intros ?]
    | apply confined_bind; [|intros ?]
    | solve [apply confined_unchanged; intros ?; repeat case_match; reflexivity]
    | match goal with
      | |- confined _ _ (let '(_, _) := ?x in _) => destruct x
      | |- confined _ _ (if ?b then _ else _) => destruct b
      end ].

Ltac confine := confine_with fail.

(** ** The validator *)

Lemma confined_infer_text S tfl model_path artifact ind outd tok class_names text :
  confined S set_tensor_float32
    (Exporter.infer_text tfl model_path artifact ind outd tok class_names text).
Proof. unfold Exporter.infer_text. confine; exact I || reflexivity. Qed.

Lemma confined_test_inference S tfl model_path tok class_names :
  confined S set_tensor_float32
    (Exporter.test_inference tfl model_path tok class_names).
Proof.
  unfold Exporter.test_inference.
  apply confined_bind; [by apply confined_emit|]. intros _.
  apply confined_bind.
  { apply confined_unchanged. intros w. by destruct (files w !! model_path). }
  intros artifact. apply confined_bind; [apply confined_lift|]. intros _.
  apply confined_bind; [by apply confined_print|]. intros _.
  apply confined_for_each. intros text. apply confined_infer_text.
Qed.


Lemma with_trace_app w evs1 evs2 :
  with_trace (with_trace w evs1) evs2 = with_trace w (evs1 ++ evs2).
Proof. unfold with_trace. cbn. by rewrite app_assoc. Qed.

Lemma with_trace_nil w : with_trace w [] = w.
Proof. destruct w. unfold with_trace. cbn. by rewrite app_nil_r. Qed.

(** When the interpreter answers, the loop body for one text sets the
    float32 cast of the padded sequence as input and returns. *)
Lemma run_infer_text tfl model_path artifact tok class_names text w :
  is_ok (infer tfl artifact tok class_names text) = true ->
  exists index evs,
    Exporter.infer_text tfl model_path artifact
      (get_input_details tfl artifact) (get_output_details tfl artifact)
      tok class_names text w = (Ok tt, with_trace w evs) /\
    EvSetTensor model_path index
      (astype float32
         (pad_sequences (Tokenizer.texts_to_sequences tok [text])
            (Exporter.max_sequence_length Exporter.CONFIG) post post)) ∈ evs.
Proof.
  unfold infer, Exporter.infer_text. intros H.
  destruct (index_or_raise (get_input_details tfl artifact) 0) as [i0|] eqn:E0;
    [|discriminate]. cbn [res_bind] in H.
  destruct (set_tensor tfl artifact (td_index i0) _) as [[]|] eqn:E1;
    [|discriminate]. cbn [res_bind] in H.
  destruct (invoke tfl artifact (td_index i0) _) as [[]|] eqn:E2;
    [|discriminate]. cbn [res_bind] in H.
  destruct (index_or_raise (get_output_details tfl artifact) 0) as [o0|] eqn:E3;
    [|discriminate]. cbn [res_bind] in H.
  destruct (get_tensor tfl artifact (td_index i0) _ (td_index o0)) as [rows|] eqn:E4;
    [|discriminate]. cbn [res_bind] in H.
  destruct (index_or_raise rows 0) as [output|] eqn:E5; [|discriminate].
  cbn [res_bind] in H.
  destruct (argmax_max output) as [am|] eqn:E6; [|discriminate].
  cbn [res_bind] in H.
  destruct (index_or_raise class_names (fst am)) as [cls|] eqn:E7; [|discriminate].
  exists (td_index i0). eexists.
  unfold bind, lift, print, emit. cbn [fst snd]. rewrite E1, E2, E4, E5, E6, E7.
  cbn [files dirs trace]. split.
  - unfold with_trace. f_equal. f_equal. rewrite <- !app_assoc. reflexivity.
  - cbn. apply list_elem_of_here.
Qed.

Lemma run_for_each {A} (l : list A) (body : A -> M unit) (Q : A -> event -> Prop) :
  (forall x w, x ∈ l ->
     exists evs, body x w = (Ok tt, with_trace w evs) /\ exists ev, ev ∈ evs /\ Q x ev) ->
  forall w, exists evs,
    for_each l body w = (Ok tt, with_trace w evs) /\
    forall x, x ∈ l -> exists ev, ev ∈ evs /\ Q x ev.
Proof.
  induction l as [|x l IH]; intros H w.
  - exists []. rewrite with_trace_nil. split; [done|].
    intros x Hx. by apply elem_of_nil in Hx.
  - destruct (H x w) as (evs1 & H1 & ev1 & Hev1 & HQ1); [apply list_elem_of_here|].
    destruct (IH (fun y w' Hy => H y w' (list_elem_of_further _ _ _ Hy))
                (with_trace w evs1)) as (evs2 & H2 & HQ2).
    exists (evs1 ++ evs2). cbn [for_each].
    rewrite (bind_Ok _ _ _ _ _ H1), H2, with_trace_app. split; [done|].
    intros y Hy. apply elem_of_cons in Hy as [->|Hy].
    + exists ev1. split; [|done]. apply elem_of_app. by left.
    + destruct (HQ2 y Hy) as (ev & Hev & HQ). exists ev. split; [|done].
      apply elem_of_app. by right.
Qed.

(** When the interpreter accepts the artifact at [model_path], the
    validator returns, having changed nothing but the trace; for every
    test text it has set the float32 cast of the padded sequence. *)
Lemma run_test_inference tfl model_path artifact tok class_names w :
  files w !! model_path = Some artifact ->
  interpreter_ok tfl artifact tok class_names = true ->
  exists evs,
    Exporter.test_inference tfl model_path tok class_names w
      = (Ok tt, with_trace w evs) /\
    forall text, text ∈ Exporter.test_texts ->
      exists ev, ev ∈ evs /\
        exists index,
          ev = EvSetTensor model_path index
                 (astype float32
                    (pad_sequences (Tokenizer.texts_to_sequences tok [text])
                       (Exporter.max_sequence_length Exporter.CONFIG) post post)).
Proof.
  intros Hf Hok. unfold interpreter_ok in Hok.
  apply andb_prop in Hok as [Ha Hall].
  destruct (allocate_tensors tfl artifact) as [[]|] eqn:Ealloc; [|discriminate].
  rewrite forallb_forall in Hall.
  destruct (run_for_each Exporter.test_texts
              (Exporter.infer_text tfl model_path artifact
                 (get_input_details tfl artifact) (get_output_details tfl artifact)
                 tok class_names)
              (fun text ev => exists index,
                   ev = EvSetTensor model_path index
                          (astype float32
                             (pad_sequences (Tokenizer.texts_to_sequences tok [text])
                                (Exporter.max_sequence_length Exporter.CONFIG) post post)))
              ) with
    (with_trace
       (with_trace w [EvInterpreter model_path])
       [EvPrint [PStr "Testing "; PStr model_path; PStr ":"]])
    as (evs & Hrun & HQ).
  { intros text w' Hin.
    destruct (run_infer_text tfl model_path artifact tok class_names text w')
      as (index & evs & Hr & Hev).
    { apply Hall. by apply list_elem_of_In. }
    exists evs. split; [done|]. exists (EvSetTensor model_path index
      (astype float32
         (pad_sequences (Tokenizer.texts_to_sequences tok [text])
            (Exporter.max_sequence_length Exporter.CONFIG) post post))).
    split; [done|]. by exists index. }
  eexists. unfold Exporter.test_inference.
  rewrite (bind_Ok _ _ _ _ _ (run_emit _ _)).
  rewrite (bind_Ok _ _ _ artifact (with_trace w [EvInterpreter model_path])).
  2:{ cbn [with_trace files]. by rewrite Hf. }
  rewrite (bind_Ok _ _ _ tt (with_trace w [EvInterpreter model_path])).
  2:{ unfold lift. by rewrite Ealloc. }
  rewrite (bind_Ok _ _ _ _ _ (run_print _ _)).
  rewrite Hrun, !with_trace_app. split; [reflexivity|].
  intros text Hin. destruct (HQ text Hin) as (ev & Hev & Hidx).
  exists ev. split; [|done]. rewrite !elem_of_app. tauto.
Qed.

(** ** The export run *)

Lemma bind_lift_Ok {A B} (r : res A) (k : A -> M B) w a :
  r = Ok a -> bind (lift r) k w = k a w.
Proof. intros ->. reflexivity. Qed.

Lemma bind_lift_Raise {A B} (r : res A) (k : A -> M B) w e :
  r = Raise e -> bind (lift r) k w = (Raise e, w).
Proof. intros ->. reflexivity. Qed.

Lemma run_load_tokenizer_and_labels w tok j classes :
  files w !! Exporter.tokenizer_path Exporter.CONFIG = Some (FTokenizer tok) ->
  files w !! Exporter.label_encoder_path Exporter.CONFIG = Some (FJson j) ->
  Exporter.json_get j "classes" = Ok classes ->
  Exporter.load_tokenizer_and_labels w =
  (Ok (tok, classes),
   with_trace w [EvRead (Exporter.tokenizer_path Exporter.CONFIG);
                 EvRead (Exporter.label_encoder_path Exporter.CONFIG)]).
Proof.
  intros Ht Hl Hj. unfold Exporter.load_tokenizer_and_labels.
  rewrite (bind_Ok _ _ _ _ _ (run_read_file _ _ _ Ht)).
  rewrite (bind_lift_Ok _ _ _ tok) by reflexivity.
  rewrite (bind_Ok _ _ _ (FJson j)
             (with_trace (with_trace w [EvRead (Exporter.tokenizer_path Exporter.CONFIG)])
                [EvRead (Exporter.label_encoder_path Exporter.CONFIG)])).
  2:{ by apply run_read_file. }
  rewrite (bind_lift_Ok _ _ _ j) by reflexivity.
  rewrite (bind_lift_Ok _ _ _ classes) by done.
  by rewrite with_trace_app.
Qed.

Lemma dir_exists_assets (w : world) path :
  "assets" ∈ dirs w -> dirname path = "assets" ->
  dir_exists w (dirname path) = true.
Proof.
  intros Hd ->. unfold dir_exists.
  destruct (decide ("assets" = "")) as [?|_]; [discriminate|].
  by apply bool_decide_eq_true.
Qed.

(** Up to the writing of the full-precision artifact the run is
    determined by the three input files and the first conversion. *)
Lemma export_after_float tfl w m tok j classes b :
  files w !! "assets" = None ->
  files w !! Exporter.model_path Exporter.CONFIG = Some (FModel m) ->
  files w !! Exporter.tokenizer_path Exporter.CONFIG = Some (FTokenizer tok) ->
  files w !! Exporter.label_encoder_path Exporter.CONFIG = Some (FJson j) ->
  Exporter.json_get j "classes" = Ok classes ->
  convert tfl (Exporter.converter_float32 m) = Ok b ->
  Exporter.export_tflite_model tfl w =
  export_rest tfl m tok classes b (export_prefix_world w b).
Proof.
  intros Ha Hm Ht Hl Hj Hc. unfold Exporter.export_tflite_model.
  rewrite (bind_Ok _ _ _ _ _ (run_makedirs _ _ Ha)).
  rewrite (bind_Ok _ _ _ _ _ (run_print _ _)).
  erewrite bind_Ok; [|by apply run_load_model].
  erewrite bind_Ok; [|by apply (run_load_tokenizer_and_labels _ tok j classes)].
  cbv beta iota.
  rewrite (bind_Ok _ _ _ _ _ (run_print _ _)).
  rewrite (bind_Ok _ _ _ _ _ (run_emit _ _)).
  rewrite (bind_lift_Ok _ _ _ b) by done.
  erewrite bind_Ok.
  2:{ apply run_write_file, dir_exists_assets; [|reflexivity].
      cbn [with_trace dirs]. set_solver. }
  unfold export_rest, export_finish, export_prefix_world, export_prefix_events,
    with_trace.
  cbn [files dirs trace]. rewrite <- !app_assoc. reflexivity.
Qed.

Lemma confined_export_finish S tfl tok classes :
  S (Exporter.model_metadata_path Exporter.CONFIG) ->
  confined S (fun _ => True) (export_finish tfl tok classes).
Proof.
  intros HS. unfold export_finish.
  confine_with ltac:(
    eapply confined_weaken; [| |apply (confined_test_inference S)]; [done|done]);
    exact I || exact HS.
Qed.

Lemma confined_export_rest tfl m tok classes b :
  confined (fun p => p = Exporter.tflite_quantized_path Exporter.CONFIG \/
                     p = Exporter.model_metadata_path Exporter.CONFIG)
    (fun _ => True) (export_rest tfl m tok classes b).
Proof.
  unfold export_rest, Exporter.quantize_int8, Exporter.quantize_dynamic.
  confine_with ltac:(apply confined_export_finish); exact I || tauto.
Qed.


Lemma run_try_except_caught {A} (body : M A) handler w e w' :
  body w = (Raise e, w') -> is_Exception e = true ->
  try_except body handler w = handler e w'.
Proof. intros H He. unfold try_except. by rewrite H, He. Qed.

Lemma run_try_except_uncaught {A} (body : M A) handler w e w' :
  body w = (Raise e, w') -> is_Exception e = false ->
  try_except body handler w = (Raise e, w').
Proof. intros H He. unfold try_except. by rewrite H, He. Qed.

Lemma run_quantize_int8_Raise tfl m tok b w e :
  convert tfl (Exporter.converter_quantized m tok) = Raise e ->
  Exporter.quantize_int8 tfl m tok b w = (Raise e, with_trace w [EvConvert ConvInt8]).
Proof.
  intros H. unfold Exporter.quantize_int8.
  rewrite (bind_Ok _ _ _ _ _ (run_emit _ _)).
  by rewrite (bind_lift_Raise _ _ _ e).
Qed.

Ltac norm_world := unfold with_trace; cbn [files dirs trace].

Ltac find_event :=
  repeat first [ apply list_elem_of_here | apply list_elem_of_further ].

(** C1: when the integer-only conversion raises an exception, the
    exception is caught and printed, the dynamic-range conversion is run
    in its place and its result is what the quantized-artifact path holds
    at the end, and the export run returns normally (the input files, the
    two other conversions and the interpreter being in order). *)
Theorem quantization_failure_falls_back
    (tfl : tflite) (w : world) (m : keras_model) (tok : Tokenizer.t)
    (j : json) (class_names : list json) (b q : bytes) (e : exn) :
  files w !! "assets" = None ->
  files w !! Exporter.model_path Exporter.CONFIG = Some (FModel m) ->
  files w !! Exporter.tokenizer_path Exporter.CONFIG = Some (FTokenizer tok) ->
  files w !! Exporter.label_encoder_path Exporter.CONFIG = Some (FJson j) ->
  Exporter.json_get j "classes" = Ok (JList class_names) ->
  convert tfl (Exporter.converter_float32 m) = Ok b ->
  convert tfl (Exporter.converter_quantized m tok) = Raise e ->
  is_Exception e = true ->
  convert tfl (Exporter.converter_dynamic m) = Ok q ->
  interpreter_ok tfl (FBytes b) tok class_names = true ->
  interpreter_ok tfl (FBytes q) tok class_names = true ->
  exists w' evs,
    Exporter.export_tflite_model tfl w = (Ok tt, w') /\
    files w' !! Exporter.tflite_quantized_path Exporter.CONFIG = Some (FBytes q) /\
    trace w' = trace w ++ evs /\
    EvPrint [PStr "Quantization failed: "; PExn e] ∈ evs /\
    EvConvert ConvDynamic ∈ evs /\
    EvWrite (Exporter.tflite_quantized_path Exporter.CONFIG) (FBytes q) ∈ evs.
Proof.
  intros Ha Hm Ht Hl Hj Hb He Hexc Hq Hib Hiq.
  rewrite (export_after_float tfl w m tok j (JList class_names) b) by done.
  unfold export_rest, export_prefix_world.
  rewrite (bind_Ok _ _ _ _ _ (run_print _ _)); norm_world.
  rewrite (bind_Ok _ _ _ _ _ (run_print _ _)); norm_world.
  rewrite (bind_Ok _ _ _ _ _ (run_print _ _)); norm_world.
  erewrite bind_Ok.
  2:{ erewrite run_try_except_caught;
        [|by apply run_quantize_int8_Raise|exact Hexc].
      norm_world. unfold Exporter.quantize_dynamic.
      rewrite (bind_Ok _ _ _ _ _ (run_print _ _)); norm_world.
      rewrite (bind_Ok _ _ _ _ _ (run_print _ _)); norm_world.
      rewrite (bind_Ok _ _ _ _ _ (run_emit _ _)); norm_world.
      rewrite (bind_lift_Ok _ _ _ q) by done.
      erewrite bind_Ok.
      2:{ apply run_write_file, dir_exists_assets; [|reflexivity].
          cbn [dirs]. set_solver. }
      norm_world.
      rewrite (bind_Ok _ _ _ _ _ (run_print _ _)); norm_world.
      apply run_print. }
  norm_world. unfold export_finish.
  rewrite (bind_lift_Ok _ _ _ class_names) by reflexivity.
  erewrite bind_Ok.
  2:{ apply run_write_file, dir_exists_assets; [|reflexivity].
      cbn [dirs]. set_solver. }
  norm_world.
  rewrite (bind_Ok _ _ _ _ _ (run_print _ _)); norm_world.
  rewrite (bind_Ok _ _ _ _ _ (run_print _ _)); norm_world.
  match goal with |- context [bind _ _ ?w0] => set (w1 := w0) end.
  destruct (run_test_inference tfl (Exporter.tflite_model_path Exporter.CONFIG)
              (FBytes b) tok class_names w1) as (evs1 & Hrun1 & _); [|done|].
  { subst w1. norm_world.
    rewrite !lookup_insert_ne by done. apply lookup_insert_eq. }
  rewrite (bind_Ok _ _ _ _ _ Hrun1).
  destruct (run_test_inference tfl (Exporter.tflite_quantized_path Exporter.CONFIG)
              (FBytes q) tok class_names (with_trace w1 evs1)) as (evs2 & Hrun2 & _);
    [|done|].
  { subst w1. norm_world.
    rewrite lookup_insert_ne by done. apply lookup_insert_eq. }
  rewrite (bind_Ok _ _ _ _ _ Hrun2).
  rewrite run_print.
  eexists _, _. split; [reflexivity|].
  subst w1. norm_world.
  split; [|split; [|split; [|split]]].
  - rewrite lookup_insert_ne by done. apply lookup_insert_eq.
  - rewrite <- !app_assoc. reflexivity.
  - unfold export_prefix_events. cbn [app]. find_event.
  - unfold export_prefix_events. cbn [app]. find_event.
  - unfold export_prefix_events. cbn [app]. find_event.
Qed.

(** C9: once the first conversion has returned, the full-precision
    artifact is written whole to assets/model.tflite before any quantized
    conversion is attempted, and nothing the run does afterwards touches
    it: it is on disk at the end of the run whatever the outcome, in
    particular when the integer quantization and the fallback conversion
    both raise, in which case the run ends with an exception. *)
Theorem float_artifact_written_first
    (tfl : tflite) (w : world) (m : keras_model) (tok : Tokenizer.t)
    (j classes : json) (b : bytes) :
  files w !! "assets" = None ->
  files w !! Exporter.model_path Exporter.CONFIG = Some (FModel m) ->
  files w !! Exporter.tokenizer_path Exporter.CONFIG = Some (FTokenizer tok) ->
  files w !! Exporter.label_encoder_path Exporter.CONFIG = Some (FJson j) ->
  Exporter.json_get j "classes" = Ok classes ->
  convert tfl (Exporter.converter_float32 m) = Ok b ->
  exists r w' post,
    Exporter.export_tflite_model tfl w = (r, w') /\
    files w' !! Exporter.tflite_model_path Exporter.CONFIG = Some (FBytes b) /\
    trace w' = trace w ++ export_prefix_events b ++ post /\
    EvWrite (Exporter.tflite_model_path Exporter.CONFIG) (FBytes b)
      ∈ export_prefix_events b /\
    Forall (fun ev => is_quantized_convert ev = false) (export_prefix_events b) /\
    (forall e1 e2,
        convert tfl (Exporter.converter_quantized m tok) = Raise e1 ->
        convert tfl (Exporter.converter_dynamic m) = Raise e2 ->
        r = Raise (if is_Exception e1 then e2 else e1)).
Proof.
  intros Ha Hm Ht Hl Hj Hb.
  rewrite (export_after_float tfl w m tok j classes b) by done.
  destruct (confined_export_rest tfl m tok classes b (export_prefix_world w b))
    as (Hf & _ & post & Htr & _).
  destruct (export_rest tfl m tok classes b (export_prefix_world w b))
    as [r w'] eqn:Hrun.
  cbn [snd] in Hf, Htr.
  exists r, w', post. split; [reflexivity|].
  split; [|split; [|split; [|split]]].
  - rewrite Hf.
    + unfold export_prefix_world. cbn [files]. apply lookup_insert_eq.
    + intros [H|H]; discriminate H.
  - rewrite Htr. unfold export_prefix_world. cbn [trace].
    by rewrite app_assoc.
  - unfold export_prefix_events. find_event.
  - unfold export_prefix_events. repeat constructor.
  - intros e1 e2 H1 H2. unfold export_rest in Hrun.
    rewrite (bind_Ok _ _ _ _ _ (run_print _ _)) in Hrun.
    rewrite (bind_Ok _ _ _ _ _ (run_print _ _)) in Hrun.
    rewrite (bind_Ok _ _ _ _ _ (run_print _ _)) in Hrun.
    destruct (is_Exception e1) eqn:Hexc.
    + erewrite bind_Raise in Hrun; [by injection Hrun as <- _|].
      erewrite run_try_except_caught;
        [|by apply run_quantize_int8_Raise|exact Hexc].
      unfold Exporter.quantize_dynamic.
      rewrite (bind_Ok _ _ _ _ _ (run_print _ _)).
      rewrite (bind_Ok _ _ _ _ _ (run_print _ _)).
      rewrite (bind_Ok _ _ _ _ _ (run_emit _ _)).
      by rewrite (bind_lift_Raise _ _ _ e2).
    + erewrite bind_Raise in Hrun; [by injection Hrun as <- _|].
      erewrite run_try_except_uncaught;
        [reflexivity|by apply run_quantize_int8_Raise|exact Hexc].
Qed.


(** ** The properties at concrete runs *)

(** The label weather of the embedded data set round-trips. *)
Lemma label_round_trip_witness :
  exists X y tokenizer label_encoder i class_names,
    Train.preprocess_data Train.load_data = Ok (X, y, tokenizer, label_encoder) /\
    LabelEncoder.encode label_encoder "weather" = Some i /\
    py_index (LabelEncoder.classes_ label_encoder) i = Some "weather" /\
    Exporter.json_get (Train.label_encoder_json label_encoder) "classes"
      = Ok (JList class_names) /\
    py_index class_names i = Some (JStr "weather").
Proof.
  apply (label_round_trip Train.load_data "weather").
  apply list_elem_of_In. vm_compute. tauto.
Defined.

(** The export of a world without the trained model leaves the earlier
    metadata file as it was. *)
Lemma export_aborts_without_model_witness :
  exists e w' evs,
    Exporter.export_tflite_model (answering convert_all) untrained_world = (Raise e, w') /\
    files w' = files untrained_world /\
    files w' !! Exporter.model_metadata_path Exporter.CONFIG
      = files untrained_world !! Exporter.model_metadata_path Exporter.CONFIG /\
    trace w' = trace untrained_world ++ evs /\
    Forall (fun ev => is_write ev = false) evs.
Proof.
  apply (export_aborts_without_model (answering convert_all) untrained_world).
  vm_compute. reflexivity.
Defined.

(** An export whose integer quantization fails ends normally with the
    dynamic-range artifact in place. *)
Lemma quantization_failure_falls_back_witness :
  exists w' evs,
    Exporter.export_tflite_model (answering convert_int8_fails) trained_world
      = (Ok tt, w') /\
    files w' !! Exporter.tflite_quantized_path Exporter.CONFIG
      = Some (FBytes [Byte.x01; Byte.x02]) /\
    trace w' = trace trained_world ++ evs /\
    EvPrint [PStr "Quantization failed: ";
             PExn (Exception "ConverterError" "Quantization not yet supported")] ∈ evs /\
    EvConvert ConvDynamic ∈ evs /\
    EvWrite (Exporter.tflite_quantized_path Exporter.CONFIG)
      (FBytes [Byte.x01; Byte.x02]) ∈ evs.
Proof.
  apply (quantization_failure_falls_back (answering convert_int8_fails) trained_world
           tiny_model tiny_tokenizer
           (JObj [("classes", JList [JStr "greeting"])]) [JStr "greeting"]
           [Byte.x01; Byte.x02; Byte.x03; Byte.x04] [Byte.x01; Byte.x02]
           (Exception "ConverterError" "Quantization not yet supported"));
    vm_compute; reflexivity.
Defined.

(** An export whose two quantized conversions fail ends with an exception
    and the full-precision artifact on disk. *)
Lemma float_artifact_written_first_witness :
  exists r w' post,
    Exporter.export_tflite_model (answering convert_only_float) trained_world = (r, w') /\
    files w' !! Exporter.tflite_model_path Exporter.CONFIG
      = Some (FBytes [Byte.x01; Byte.x02; Byte.x03; Byte.x04]) /\
    trace w' = trace trained_world
                 ++ export_prefix_events [Byte.x01; Byte.x02; Byte.x03; Byte.x04] ++ post /\
    EvWrite (Exporter.tflite_model_path Exporter.CONFIG)
      (FBytes [Byte.x01; Byte.x02; Byte.x03; Byte.x04])
      ∈ export_prefix_events [Byte.x01; Byte.x02; Byte.x03; Byte.x04] /\
    Forall (fun ev => is_quantized_convert ev = false)
      (export_prefix_events [Byte.x01; Byte.x02; Byte.x03; Byte.x04]) /\
    (forall e1 e2,
        convert (answering convert_only_float)
          (Exporter.converter_quantized tiny_model tiny_tokenizer) = Raise e1 ->
        convert (answering convert_only_float)
          (Exporter.converter_dynamic tiny_model) = Raise e2 ->
        r = Raise (if is_Exception e1 then e2 else e1)).
Proof.
  apply (float_artifact_written_first (answering convert_only_float) trained_world
           tiny_model tiny_tokenizer
           (JObj [("classes", JList [JStr "greeting"])]) (JList [JStr "greeting"])
           [Byte.x01; Byte.x02; Byte.x03; Byte.x04]);
    vm_compute; reflexivity.
Defined.


(** ** The training loop *)

Lemma bind_ext {A B} (m : M A) (k k' : A -> M B) w :
  (forall a w1, k a w1 = k' a w1) -> bind m k w = bind m k' w.
Proof. intros H. unfold bind. destruct (m w) as [[a|e] w1]; [apply H|done]. Qed.

Lemma bind_assoc {A B C} (m : M A) (f : A -> M B) (g : B -> M C) w :
  bind (bind m f) g w = bind m (fun x => bind (f x) g) w.
Proof. unfold bind. by destruct (m w) as [[a|e] w1]. Qed.

Lemma bind_inv_Ok {A B} (m : M A) (k : A -> M B) w b w' :
  bind m k w = (Ok b, w') ->
  exists a w1, m w = (Ok a, w1) /\ k a w1 = (Ok b, w').
Proof.
  unfold bind. destruct (m w) as [[a|e] w1]; [|discriminate].
  intros H. by exists a, w1.
Qed.

Section Loop.
Context (S : string -> Prop) (E : event -> Prop).

(** A callback touches only the file it checkpoints to. *)
Lemma confined_cb_on_epoch_end cb st epoch logs model stop :
  (forall filepath m b1 b2, cb = ModelCheckpoint filepath m b1 b2 ->
     S filepath /\ E (EvModelSave filepath) /\ E (EvOpenWrite filepath) /\
     forall f, E (EvWrite filepath f)) ->
  confined S E (cb_on_epoch_end cb st epoch logs model stop).
Proof.
  intros H. destruct cb as [m p r|filepath m sbo swo|m f p l], st as [s|best|];
    cbn [cb_on_epoch_end]; try apply confined_ret.
  - destruct (es_on_epoch_end m p r s epoch logs (km_weights model)) as [[s' stop'] w'].
    apply confined_ret.
  - destruct (H filepath m sbo swo eq_refl) as (HS & H1 & H2 & H3).
    assert (confined S E (model_save filepath swo model)) as Hsave.
    { unfold model_save. apply confined_bind; [by apply confined_emit|].
      intros _. by apply confined_write_file. }
    destruct sbo; [destruct (monitor_op m (get_log m logs) best)|].
    + apply confined_bind; [done|]. intros _. apply confined_ret.
    + apply confined_ret.
    + apply confined_bind; [done|]. intros _. apply confined_ret.
Qed.

Lemma confined_callbacks_on_epoch_end cbs sts epoch logs model stop :
  (forall filepath m b1 b2, ModelCheckpoint filepath m b1 b2 ∈ cbs ->
     S filepath /\ E (EvModelSave filepath) /\ E (EvOpenWrite filepath) /\
     forall f, E (EvWrite filepath f)) ->
  confined S E (callbacks_on_epoch_end cbs sts epoch logs model stop).
Proof.
  revert sts model stop.
  induction cbs as [|cb cbs IH]; intros sts model stop H; cbn [callbacks_on_epoch_end].
  - apply confined_ret.
  - destruct sts as [|st sts]; [apply confined_ret|].
    apply confined_bind.
    + apply confined_cb_on_epoch_end. intros filepath m b1 b2 ->.
      apply (H filepath m b1 b2), list_elem_of_here.
    + intros [[st' model'] stop']. apply confined_bind.
      * apply IH. intros filepath m b1 b2 Hin.
        apply (H filepath m b1 b2). by apply list_elem_of_further.
      * intros [[sts'' model''] stop'']. apply confined_ret.
Qed.

Lemma confined_fit_loop eng cbs d remaining epoch model sts history :
  (forall z, E (EvEpoch z)) ->
  (forall filepath m b1 b2, ModelCheckpoint filepath m b1 b2 ∈ cbs ->
     S filepath /\ E (EvModelSave filepath) /\ E (EvOpenWrite filepath) /\
     forall f, E (EvWrite filepath f)) ->
  confined S E (fit_loop eng cbs d remaining epoch model sts history).
Proof.
  intros He H. revert epoch model sts history.
  induction remaining as [|n IH]; intros epoch model sts history; cbn [fit_loop].
  - apply confined_ret.
  - apply confined_bind; [by apply confined_emit|]. intros _.
    apply confined_bind; [apply confined_lift|]. intros [w logs].
    apply confined_bind; [by apply confined_callbacks_on_epoch_end|].
    intros [[sts' model'] stop]. destruct stop; [apply confined_ret|apply IH].
Qed.

End Loop.

(** ** Persisting after training *)





Lemma persists_after_fit_ext {A} (m m' : M A) :
  (forall w, m w = m' w) -> persists_after_fit m' -> persists_after_fit m.
Proof. intros H Hm w. rewrite H. apply Hm. Qed.


(** The run of [train_model], with the preprocessing of the embedded data
    carried out. *)
Lemma train_model_run eng w :
  exists y,
    Train.train_model eng w =
    (makedirs "models" ;;;
     print [PStr "Loading data..."] ;;;
     print [PStr "Loaded "; PInt (Z.of_nat (length (Train.df_text Train.load_data)));
            PStr " samples with ";
            PInt (Z.of_nat (length (remove_dups (Train.df_intent Train.load_data))));
            PStr " unique intents"] ;;;
     print [PStr "Preprocessing data..."] ;;;
     train_from_split eng
       (pad_sequences
          (Tokenizer.texts_to_sequences (fitted (Train.df_text Train.load_data))
             (Train.df_text Train.load_data))
          (Train.max_sequence_length Train.CONFIG) post post)
       y (fitted (Train.df_text Train.load_data))
       (LabelEncoder.fit (Train.df_intent Train.load_data))) w.
Proof.
  destruct (preprocess_data_fitted Train.load_data) as (y & Hy).
  exists y. unfold Train.train_model.
  apply bind_ext. intros _ w1. apply bind_ext. intros _ w2.
  apply bind_ext. intros _ w3. apply bind_ext. intros _ w4.
  rewrite (bind_lift_Ok _ _ _ _ Hy). reflexivity.
Qed.


(** ** What a normal return leaves on disk *)

Lemma writes_last_write_file p f : writes_last p f (write_file p f).
Proof.
  intros w r w'. unfold write_file, open_write, write, bind, emit.
  cbn [files dirs trace]. destruct (dir_exists _ _); [|discriminate].
  intros H. injection H as _ <-. cbn [files]. apply lookup_insert_eq.
Qed.









(** ** Early stopping *)

Lemma fold_left_ext_in {A B} (f g : A -> B -> A) (l : list B) (a : A) :
  (forall x b, In b l -> f x b = g x b) -> fold_left f l a = fold_left g l a.
Proof.
  revert a. induction l as [|b l IH]; intros a H; [done|]. cbn [fold_left].
  rewrite H by (by left). apply IH. intros x b' Hb. apply H. by right.
Qed.

Lemma best_loss_snoc l v :
  best_loss (l ++ [v]) = if PrimFloat.ltb v (best_loss l) then v else best_loss l.
Proof. unfold best_loss. by rewrite fold_left_app. Qed.

Lemma stale_at_last l v :
  stale_at (l ++ [v]) (length l) = negb (PrimFloat.ltb v (best_loss l)).
Proof.
  unfold stale_at. rewrite list_lookup_middle by done. by rewrite take_app_length.
Qed.

Lemma stale_at_prefix l k e :
  (e < length l)%nat -> stale_at (l ++ k) e = stale_at l e.
Proof.
  intros H. unfold stale_at. rewrite lookup_app_l by done.
  by rewrite take_app_le by lia.
Qed.

Lemma trailing_snoc l v :
  trailing (l ++ [v]) = if PrimFloat.ltb v (best_loss l) then O else S (trailing l).
Proof.
  unfold trailing. rewrite length_app. cbn [length].
  rewrite Nat.add_1_r, seq_S, fold_left_app.
  cbn [fold_left Nat.add]. rewrite stale_at_last.
  destruct (PrimFloat.ltb v (best_loss l)); cbn [negb]; [done|].
  f_equal. apply fold_left_ext_in. intros t e He. apply in_seq in He.
  by rewrite stale_at_prefix by lia.
Qed.

Lemma best_epoch_snoc l v :
  best_epoch (l ++ [v])
  = if PrimFloat.ltb v (best_loss l) then length l else best_epoch l.
Proof.
  unfold best_epoch. rewrite length_app. cbn [length].
  rewrite Nat.add_1_r, seq_S, fold_left_app.
  cbn [fold_left Nat.add]. rewrite stale_at_last.
  destruct (PrimFloat.ltb v (best_loss l)); cbn [negb]; [done|].
  apply fold_left_ext_in. intros t e He. apply in_seq in He.
  by rewrite stale_at_prefix by lia.
Qed.

(** The best epoch is one of the epochs run. *)
Lemma best_epoch_lt l : l <> [] -> (best_epoch l < length l)%nat.
Proof.
  induction l as [|v l IH] using rev_ind; [done|]. intros _.
  rewrite best_epoch_snoc, length_app. cbn [length].
  destruct (PrimFloat.ltb v (best_loss l)); [lia|].
  destruct l as [|v' l']; [cbn; lia|]. specialize (IH ltac:(done)). lia.
Qed.

(** The run ends with at least [k] epochs without improvement exactly when
    each of its last [k] epochs failed to improve. *)
Lemma trailing_ge l k :
  (k <= trailing l)%nat <->
  (k <= length l)%nat /\
  forall i, (length l - k <= i < length l)%nat -> stale_at l i = true.
Proof.
  revert k. induction l as [|v l IH] using rev_ind; intros k.
  - cbn. split; [intros H; split; [lia|intros i Hi; lia]|intros [H _]; lia].
  - rewrite trailing_snoc, length_app. cbn [length].
    destruct (PrimFloat.ltb v (best_loss l)) eqn:Hv.
    + split.
      * intros H. assert (k = 0)%nat as -> by lia. split; [lia|]. intros i Hi. lia.
      * intros [H1 H2]. destruct k as [|k]; [lia|].
        specialize (H2 (length l) ltac:(lia)).
        rewrite stale_at_last, Hv in H2. discriminate.
    + destruct k as [|k]; [split; [intros _; split; [lia|intros; lia]|lia]|].
      rewrite <- Nat.succ_le_mono, IH. split.
      * intros [H1 H2]. split; [lia|]. intros i Hi.
        destruct (decide (i = length l)) as [->|Hne].
        -- by rewrite stale_at_last, Hv.
        -- rewrite stale_at_prefix by lia. apply H2. lia.
      * intros [H1 H2]. split; [lia|]. intros i Hi.
        rewrite <- (stale_at_prefix l [v]) by lia. apply H2. lia.
Qed.

Lemma trailing_le_length l : (trailing l <= length l)%nat.
Proof. by apply (trailing_ge l (trailing l)). Qed.

Lemma stale_window_last n l :
  l <> [] -> stale_window n l (length l - 1) = true <-> (n <= trailing l)%nat.
Proof.
  intros Hl. assert (0 < length l)%nat as Hlen by (destruct l; [done|cbn; lia]).
  unfold stale_window. replace (S (length l - 1)) with (length l) by lia.
  rewrite andb_true_iff, Nat.leb_le, forallb_forall, trailing_ge.
  split; intros [H1 H2]; (split; [done|]); intros i Hi; apply H2.
  - apply in_seq. lia.
  - apply in_seq in Hi. lia.
Qed.

Lemma stale_window_prefix n l k e :
  (e < length l)%nat -> stale_window n (l ++ k) e = stale_window n l e.
Proof.
  intros He. unfold stale_window. destruct (n <=? S e)%nat eqn:Hn; [|done].
  cbn [andb]. apply Nat.leb_le in Hn. apply eq_true_iff_eq.
  rewrite !forallb_forall.
  split; intros H i Hi; specialize (H i Hi); apply in_seq in Hi.
  - by rewrite stale_at_prefix in H by lia.
  - by rewrite stale_at_prefix by lia.
Qed.

Lemma model_at_prefix model ws k e :
  (e <= length ws)%nat -> model_at model (ws ++ k) e = model_at model ws e.
Proof.
  intros He. destruct e as [|e]; [done|]. cbn [model_at].
  by rewrite lookup_app_l by lia.
Qed.

Lemma set_weights_model_at model ws e w :
  set_weights (model_at model ws e) w = set_weights model w.
Proof. destruct e as [|e]; [done|]. cbn [model_at]. by destruct (ws !! e). Qed.

Lemma model_at_last model ws w :
  model_at model (ws ++ [w]) (length (ws ++ [w])) = set_weights model w.
Proof.
  rewrite length_app. cbn [length]. rewrite Nat.add_1_r. cbn [model_at].
  by rewrite list_lookup_middle.
Qed.

Lemma es_inv_init : es_inv [] [] (mk_es 0 infinity None 0 0).
Proof. repeat split. cbn. lia. Qed.

(** One call of [EarlyStopping.on_epoch_end] as the trainer configures it:
    training stops exactly when ten epochs in a row have failed to improve,
    the weights then set are those of the best epoch, and otherwise the
    weights stay. *)
Lemma es_on_epoch_end_step ws losses s logs wn :
  length ws = length losses ->
  es_inv ws losses s ->
  exists s' wt,
    es_on_epoch_end m_val_loss 10 true s (Z.of_nat (length losses)) logs wn
      = (s', (10 <=? trailing (losses ++ [log_val_loss logs]))%nat, wt) /\
    if (10 <=? trailing (losses ++ [log_val_loss logs]))%nat
    then (ws ++ [wn]) !! best_epoch (losses ++ [log_val_loss logs]) = Some wt
    else wt = wn /\ es_inv (ws ++ [wn]) (losses ++ [log_val_loss logs]) s'.
Proof.
  intros Hlen (Hb & Hw & Ht & Hbw). destruct s as [wait best bw bep sep].
  cbn [es_best es_wait es_best_weights] in *. subst wait best bw.
  unfold es_on_epoch_end, es_inv.
  cbn [get_log monitor_op es_best es_wait es_best_weights es_best_epoch
       es_stopped_epoch andb].
  rewrite trailing_snoc, best_epoch_snoc, best_loss_snoc.
  pose proof (trailing_le_length losses) as Hle.
  assert (match ws !! best_epoch losses with
          | Some bw => Some bw
          | None => Some wn
          end = (ws ++ [wn]) !! best_epoch losses) as Hbest.
  { destruct losses as [|v0 losses'].
    - destruct ws; [done|discriminate].
    - pose proof (best_epoch_lt (v0 :: losses') ltac:(done)) as Hlt.
      rewrite <- Hlen in Hlt. rewrite lookup_app_l by done.
      by destruct (lookup_lt_is_Some_2 _ _ Hlt) as (bw & ->). }
  destruct (PrimFloat.ltb (log_val_loss logs) (best_loss losses)) eqn:Hv.
  - eexists _, _. split; [reflexivity|]. cbn [Nat.leb].
    split; [done|]. cbn [es_best es_wait es_best_weights].
    repeat split; [lia|]. by rewrite list_lookup_middle.
  - destruct (decide (trailing losses = 9%nat)) as [H9|H9].
    + rewrite H9. change (10 <=? Z.of_nat 9 + 1) with true.
      assert ((0 <? Z.of_nat (length losses)) = true) as -> by (apply Z.ltb_lt; lia).
      cbn [andb]. change (10 <=? 10)%nat with true.
      eexists _, _. split; [reflexivity|].
      rewrite <- Hbest. by destruct (ws !! best_epoch losses).
    + assert ((10 <=? Z.of_nat (trailing losses) + 1) = false) as ->
        by (apply Z.leb_gt; lia).
      assert ((10 <=? S (trailing losses))%nat = false) as ->
        by (apply Nat.leb_gt; lia).
      cbn [andb]. eexists _, _. split; [reflexivity|]. split; [done|].
      cbn [es_best es_wait es_best_weights].
      repeat split; [lia|lia|]. rewrite <- Hbest.
      by destruct (ws !! best_epoch losses).
Qed.

(** The trainer's callbacks at the end of an epoch: the checkpoint leaves
    the model as it is, so the model and the stop flag are those of
    [EarlyStopping]. *)
Lemma run_train_callbacks s best epoch logs model w r w' s' stop wt :
  callbacks_on_epoch_end Train.callbacks [ESState s; MCState best; RLState]
    epoch logs model false w = (Ok r, w') ->
  es_on_epoch_end m_val_loss 10 true s epoch logs (km_weights model) = (s', stop, wt) ->
  exists best', r = ([ESState s'; MCState best'; RLState], set_weights model wt, stop).
Proof.
  unfold Train.callbacks. cbn [callbacks_on_epoch_end cb_on_epoch_end].
  intros H Hes. rewrite Hes in H.
  apply bind_inv_Ok in H as ([[st1 m1] stop1] & w1 & H1 & H).
  injection H1 as <- <- <- <-. cbn [orb] in H.
  apply bind_inv_Ok in H as ([[sts2 m2] stop2] & w2 & H2 & H).
  injection H as <- <-.
  apply bind_inv_Ok in H2 as ([[st3 m3] stop3] & w3 & H3 & H2).
  apply bind_inv_Ok in H2 as ([[sts4 m4] stop4] & w4 & H4 & H2).
  injection H2 as <- <- <- <-.
  apply bind_inv_Ok in H4 as ([[st5 m5] stop5] & w5 & H5 & H4).
  injection H5 as <- <- <- <-. injection H4 as <- <- <- <-.
  destruct (monitor_op m_val_accuracy (get_log m_val_accuracy logs) best).
  - apply bind_inv_Ok in H3 as ([] & w6 & _ & H3). injection H3 as <- <- <- <-.
    by eexists.
  - injection H3 as <- <- <- <-. by eexists.
Qed.

Lemma epoch_of_snoc eng model d ws history wn logs :
  length ws = length history ->
  (forall e, (e < length history)%nat -> epoch_of eng model d ws history e) ->
  train_epoch eng (model_at model ws (length ws)) Train.callbacks d
    (Z.of_nat (length history)) history = Ok (wn, logs) ->
  forall e, (e < length (history ++ [logs]))%nat ->
    epoch_of eng model d (ws ++ [wn]) (history ++ [logs]) e.
Proof.
  intros Hlen Hold Hnew e He. rewrite length_app in He. cbn [length] in He.
  destruct (decide (e = length history)) as [->|Hne].
  - exists wn, logs. rewrite <- Hlen at 1. rewrite !list_lookup_middle by done.
    rewrite take_app_length, model_at_prefix by lia. by rewrite <- Hlen at 1.
  - destruct (Hold e ltac:(lia)) as (w0 & logs0 & Hw & Hl & Hrun).
    exists w0, logs0. rewrite !lookup_app_l by lia.
    by rewrite take_app_le, model_at_prefix by lia.
Qed.

Lemma fit_loop_S eng cbs d n epoch model sts history :
  fit_loop eng cbs d (S n) epoch model sts history
  = (emit (EvEpoch epoch) ;;;
     step <- lift (train_epoch eng model cbs d epoch history) ;;
     let '(w, logs) := step in
     r <- callbacks_on_epoch_end cbs sts epoch logs (set_weights model w) false ;;
     let '(sts', model', stop) := r in
     if stop : bool then ret (model', history ++ [logs])
     else fit_loop eng cbs d n (epoch + 1) model' sts' (history ++ [logs])).
Proof. reflexivity. Qed.

(** The training loop with the trainer's callbacks, from any point between
    two epochs on. *)
Lemma fit_loop_early_stopping eng d model0 remaining :
  forall ws history s best model w model' history' w',
  length ws = length history ->
  model = model_at model0 ws (length ws) ->
  es_inv ws (map log_val_loss history) s ->
  (forall e, (e < length history)%nat -> epoch_of eng model0 d ws history e) ->
  (forall e, (e < length history)%nat ->
     stale_window 10 (map log_val_loss history) e = false) ->
  fit_loop eng Train.callbacks d remaining (Z.of_nat (length history)) model
    [ESState s; MCState best; RLState] history w = (Ok (model', history'), w') ->
  exists ws',
    length ws' = length history' /\
    (length history' <= length history + remaining)%nat /\
    (forall e, (e < length history')%nat -> epoch_of eng model0 d ws' history' e) /\
    (forall e, (S e < length history')%nat ->
       stale_window 10 (map log_val_loss history') e = false) /\
    ((length history' < length history + remaining)%nat ->
       stale_window 10 (map log_val_loss history') (length history' - 1) = true) /\
    (stale_window 10 (map log_val_loss history') (length history' - 1) = true ->
       ws' !! best_epoch (map log_val_loss history') = Some (km_weights model')).
Proof.
  induction remaining as [|n IH];
    intros ws history s best model w model' history' w' Hlen Hmodel Hinv Hep Hno Hrun.
  - injection Hrun as <- <- <-. exists ws.
    split; [done|]. split; [lia|]. split; [done|].
    split; [intros e He; apply Hno; lia|]. split; [lia|].
    intros Hst. destruct history as [|l0 history]; [discriminate Hst|].
    rewrite Hno in Hst; [done|]. cbn [length]. lia.
  - rewrite fit_loop_S in Hrun.
    apply bind_inv_Ok in Hrun as ([] & w1 & _ & Hrun).
    apply bind_inv_Ok in Hrun as ([wn logs] & w2 & Hstep & Hrun).
    assert (train_epoch eng model Train.callbacks d (Z.of_nat (length history)) history
            = Ok (wn, logs)) as Hepoch.
    { unfold lift in Hstep.
      destruct (train_epoch eng model Train.callbacks d _ history); by inversion Hstep. }
    apply bind_inv_Ok in Hrun as ([[sts' model1] stop] & w3 & Hcb & Hrun).
    destruct (es_on_epoch_end_step ws (map log_val_loss history) s logs wn)
      as (s' & wt & Hes & Hcase); [by rewrite length_map|done|].
    rewrite length_map in Hes.
    remember (10 <=? trailing (map log_val_loss history ++ [log_val_loss logs]))%nat
      as stop0 eqn:Hstop.
    destruct (run_train_callbacks _ _ _ _ _ _ _ _ _ _ _ Hcb Hes) as (best' & Heq).
    injection Heq as -> -> ->.
    assert (map log_val_loss (history ++ [logs])
            = map log_val_loss history ++ [log_val_loss logs]) as Hmap
      by (by rewrite map_app).
    assert (forall e, (e < length history)%nat ->
              stale_window 10 (map log_val_loss (history ++ [logs])) e = false) as Hno'.
    { intros e He. rewrite Hmap, stale_window_prefix by (by rewrite length_map).
      by apply Hno. }
    assert (stale_window 10 (map log_val_loss (history ++ [logs]))
              (length (history ++ [logs]) - 1) = true
            <-> (10 <= trailing (map log_val_loss history ++ [log_val_loss logs]))%nat)
      as Hlast.
    { rewrite <- Hmap, <- (length_map log_val_loss (history ++ [logs])).
      apply stale_window_last. rewrite Hmap. by destruct (map log_val_loss history). }
    assert (forall e, (e < length (history ++ [logs]))%nat ->
              epoch_of eng model0 d (ws ++ [wn]) (history ++ [logs]) e) as Hep'.
    { apply epoch_of_snoc; [done|done|]. by rewrite <- Hmodel. }
    assert (length (ws ++ [wn]) = length (history ++ [logs])) as Hlen'
      by (rewrite !length_app; cbn [length]; lia).
    symmetry in Hstop. destruct stop0.
    + injection Hrun as <- <- <-. apply Nat.leb_le in Hstop. exists (ws ++ [wn]).
      split; [done|]. rewrite length_app. cbn [length].
      split; [lia|]. split; [by rewrite length_app in Hep'|].
      split; [intros e He; apply Hno'; lia|].
      rewrite length_app in Hlast. cbn [length] in Hlast.
      split; [intros _; by apply Hlast|].
      intros _. by rewrite Hmap.
    + destruct Hcase as (-> & Hinv'). apply Nat.leb_gt in Hstop.
      replace (Z.of_nat (length history) + 1)
        with (Z.of_nat (length (history ++ [logs]))) in Hrun
        by (rewrite length_app; cbn [length]; lia).
      assert (set_weights (set_weights model wn) wn
              = model_at model0 (ws ++ [wn]) (length (ws ++ [wn]))) as Hmodel'.
      { rewrite model_at_last, Hmodel. cbn [km_weights set_weights].
        by rewrite <- (set_weights_model_at model0 ws (length ws) wn). }
      assert (forall e, (e < length (history ++ [logs]))%nat ->
                stale_window 10 (map log_val_loss (history ++ [logs])) e = false)
        as Hno''.
      { intros e He. rewrite length_app in He. cbn [length] in He.
        destruct (decide (e = length history)) as [->|Hne]; [|apply Hno'; lia].
        destruct (stale_window 10 (map log_val_loss (history ++ [logs]))
                    (length history)) eqn:Hst; [|done].
        replace (length history) with (length (history ++ [logs]) - 1)%nat in Hst
          by (rewrite length_app; cbn [length]; lia).
        apply Hlast in Hst. lia. }
      rewrite <- Hmap in Hinv'.
      destruct (IH _ _ _ _ _ _ _ _ _ Hlen' Hmodel' Hinv' Hep' Hno'' Hrun)
        as (ws' & H1 & H2 & H3 & H4 & H5 & H6).
      rewrite length_app in H2, H5. cbn [length] in H2, H5.
      exists ws'. split; [done|]. split; [lia|]. split; [done|].
      split; [done|]. split; [intros Hlt; apply H5; lia|done].
Qed.

(** C7: in a run of [model.fit] as the trainer calls it (at most 100
    epochs, EarlyStopping on the validation loss with patience 10 and
    restore_best_weights), where [ws] are the weights the engine produced
    epoch by epoch: training never goes on past an epoch that closes ten
    consecutive epochs without improvement of the validation loss, it ends
    before the 100th epoch only at such an epoch, and when it ends at such
    an epoch the model returned holds the weights of the epoch of the best
    validation loss. *)
Theorem early_stopping_patience (eng : engine) (model : keras_model) (d : fit_data)
    (w : world) (model' : keras_model) (history : list epoch_logs) :
  fst (fit eng model d (Train.epochs Train.CONFIG) Train.callbacks w)
    = Ok (model', history) ->
  exists ws,
    length ws = length history /\
    (length history <= 100)%nat /\
    (forall e, (e < length history)%nat -> epoch_of eng model d ws history e) /\
    (forall e, (S e < length history)%nat ->
       stale_window 10 (map log_val_loss history) e = false) /\
    ((length history < 100)%nat ->
       stale_window 10 (map log_val_loss history) (length history - 1) = true) /\
    (stale_window 10 (map log_val_loss history) (length history - 1) = true ->
       ws !! best_epoch (map log_val_loss history) = Some (km_weights model')).
Proof.
  destruct (fit _ _ _ _ _ w) as [r w'] eqn:Hfit. cbn [fst]. intros ->.
  unfold fit in Hfit.
  apply bind_inv_Ok in Hfit as ([] & w1 & _ & Hfit).
  apply bind_inv_Ok in Hfit as ([model1 history1] & w2 & Hloop & Hfit).
  apply bind_inv_Ok in Hfit as ([] & w3 & _ & Hfit).
  injection Hfit as <- <- <-.
  change (Z.to_nat (Train.epochs Train.CONFIG)) with 100%nat in Hloop.
  change (map cb_init Train.callbacks)
    with [ESState (mk_es 0 infinity None 0 0); MCState neg_infinity; RLState] in Hloop.
  destruct (fit_loop_early_stopping eng d model 100 [] [] _ _ model _ _ _ _
              eq_refl eq_refl es_inv_init
              ltac:(intros e He; cbn [length] in He; lia)
              ltac:(intros e He; cbn [length] in He; lia) Hloop)
    as (ws & H1 & H2 & H3 & H4 & H5 & H6).
  exists ws. cbn [length Nat.add] in H2, H5. done.
Qed.

(** With an engine whose validation loss never changes, training ends with
    epoch 10: epochs 1 to 10 fail to improve on epoch 0. *)
Lemma early_stopping_patience_witness :
  exists ws,
    length ws = length (repeat (mk_logs 1 0 1 0) 11) /\
    (length (repeat (mk_logs 1 0 1 0) 11) <= 100)%nat /\
    (forall e, (e < length (repeat (mk_logs 1 0 1 0) 11))%nat ->
       epoch_of steady_engine tiny_model no_data ws (repeat (mk_logs 1 0 1 0) 11) e) /\
    (forall e, (S e < length (repeat (mk_logs 1 0 1 0) 11))%nat ->
       stale_window 10 (map log_val_loss (repeat (mk_logs 1 0 1 0) 11)) e = false) /\
    ((length (repeat (mk_logs 1 0 1 0) 11) < 100)%nat ->
       stale_window 10 (map log_val_loss (repeat (mk_logs 1 0 1 0) 11))
         (length (repeat (mk_logs 1 0 1 0) 11) - 1) = true) /\
    (stale_window 10 (map log_val_loss (repeat (mk_logs 1 0 1 0) 11))
       (length (repeat (mk_logs 1 0 1 0) 11) - 1) = true ->
     ws !! best_epoch (map log_val_loss (repeat (mk_logs 1 0 1 0) 11))
       = Some (km_weights tiny_model)).
Proof.
  apply (early_stopping_patience steady_engine tiny_model no_data trained_world
           tiny_model (repeat (mk_logs 1 0 1 0) 11)).
  vm_compute. reflexivity.
Defined.

(** ** The ids of the fitted tokenizer *)

Lemma fitted_voc_lookup_word texts n w :
  fitted_voc texts !! n = Some w ->
  (n = 0%nat /\ w = "<OOV>") \/
  (exists p c, n = S p /\
     Tokenizer.sort_desc (Tokenizer.word_counts (fitted texts)) !! p = Some (w, c) /\
     w ∈ corpus_words texts).
Proof.
  destruct n as [|p]; unfold fitted_voc; cbn [lookup list_lookup].
  - intros [= <-]. by left.
  - intros H. right.
    change (map fst ?l !! p) with ((fst <$> l) !! p) in H.
    apply list_lookup_fmap_Some in H as ([w' c] & -> & H).
    exists p, c. split; [done|]. split; [done|].
    apply (fitted_word_counts_keys texts).
    apply list_elem_of_lookup_2 in H. rewrite sort_desc_Permutation in H.
    change (map fst ?l) with (fst <$> l). apply list_elem_of_fmap.
    by exists (w', c).
Qed.

Lemma fitted_word_index_corpus texts w :
  w ∈ corpus_words texts ->
  exists n, Tokenizer.word_index (fitted texts) !! w = Some (Z.of_nat (S (S n))).
Proof.
  intros Hw. apply (fitted_word_counts_keys texts) in Hw.
  assert (w ∈ fitted_voc texts) as Hin.
  { unfold fitted_voc. right.
    change (map fst ?l) with (fst <$> l) in *.
    by rewrite sort_desc_Permutation. }
  apply list_elem_of_lookup_1 in Hin as (n & Hn).
  destruct (fitted_voc_lookup_word _ _ _ Hn) as [[-> ->]|(p & c & -> & _ & _)].
  - apply (fitted_word_counts_keys texts) in Hw. by apply OOV_not_in_corpus in Hw.
  - exists p. apply fitted_word_index_lookup. by exists (S p).
Qed.

Lemma fitted_word_index_unseen texts w :
  w ∉ corpus_words texts -> w <> "<OOV>" ->
  Tokenizer.word_index (fitted texts) !! w = None.
Proof.
  intros Hw Hne. destruct (Tokenizer.word_index (fitted texts) !! w) as [i|] eqn:Hi; [|done].
  apply fitted_word_index_lookup in Hi as (n & Hn & _).
  by destruct (fitted_voc_lookup_word _ _ _ Hn) as [[_ ->]|(p & c & _ & _ & Hin)].
Qed.

Lemma fitted_word_index_le texts w i :
  Tokenizer.word_index (fitted texts) !! w = Some i ->
  1 <= i <= Tokenizer.len_word_index (fitted texts).
Proof.
  intros Hi. apply fitted_word_index_lookup in Hi as (n & Hn & ->).
  apply lookup_lt_Some in Hn.
  rewrite fitted_len_word_index. rewrite fitted_voc_length in Hn. lia.
Qed.

(** X1: with the out-of-vocabulary token configured, the fitted tokenizer
    drops no word: a text gets exactly one id per word.  A word that is
    not in the training corpus gets the id 1 of the out-of-vocabulary
    token; a word of the corpus has an id of at least 2 and gets it,
    unless that id has reached the cap, which turns it into 1. *)
Theorem one_id_per_word (texts : list string) (text : string) :
  length (Tokenizer.text_to_sequence (fitted texts) text)
    = length (Text.text_to_word_sequence text) /\
  (forall w, w ∉ corpus_words texts ->
     Tokenizer.word_to_ids (fitted texts) w = [1]) /\
  (forall w, w ∈ corpus_words texts ->
     exists i, Tokenizer.word_index (fitted texts) !! w = Some i /\ 2 <= i /\
       Tokenizer.word_to_ids (fitted texts) w
         = [if Train.max_vocab_size Train.CONFIG <=? i then 1 else i]).
Proof.
  assert (forall w, length (Tokenizer.word_to_ids (fitted texts) w) = 1%nat) as Hone.
  { intros w. unfold Tokenizer.word_to_ids.
    rewrite fitted_oov_token, fitted_num_words, fitted_oov_index.
    destruct (Tokenizer.word_index (fitted texts) !! w) as [i|]; [|done].
    by destruct (_ && _). }
  split; [|split].
  - unfold Tokenizer.text_to_sequence.
    induction (Text.text_to_word_sequence text) as [|w ws IH]; [done|].
    cbn [flat_map]. rewrite length_app, Hone, IH. done.
  - intros w Hw. unfold Tokenizer.word_to_ids.
    rewrite fitted_oov_token, fitted_num_words, fitted_oov_index.
    destruct (decide (w = "<OOV>")) as [->|Hne].
    + by rewrite fitted_oov_index.
    + by rewrite fitted_word_index_unseen.
  - intros w Hw. destruct (fitted_word_index_corpus _ _ Hw) as (n & Hn).
    exists (Z.of_nat (S (S n))). split; [done|]. split; [lia|].
    unfold Tokenizer.word_to_ids.
    rewrite fitted_oov_token, fitted_num_words, fitted_oov_index, Hn.
    change (Train.max_vocab_size Train.CONFIG) with 10000.
    by destruct (10000 <=? Z.of_nat (S (S n))).
Qed.

(** X2: the ids of the fitted word index are exactly 1, ..., len(word_index),
    each given to one word only. *)
Theorem word_index_ids_dense (texts : list string) :
  (forall i, (exists w, Tokenizer.word_index (fitted texts) !! w = Some i) <->
             1 <= i <= Tokenizer.len_word_index (fitted texts)) /\
  (forall w1 w2 i,
     Tokenizer.word_index (fitted texts) !! w1 = Some i ->
     Tokenizer.word_index (fitted texts) !! w2 = Some i -> w1 = w2).
Proof.
  split.
  - intros i. split.
    + intros (w & Hw). by apply fitted_word_index_le in Hw.
    + intros Hi. rewrite fitted_len_word_index in Hi.
      destruct (lookup_lt_is_Some_2 (fitted_voc texts) (Z.to_nat (i - 1))) as (w & Hw).
      { rewrite fitted_voc_length. lia. }
      exists w. apply fitted_word_index_lookup. exists (Z.to_nat (i - 1)).
      split; [done|]. lia.
  - intros w1 w2 i H1 H2.
    apply fitted_word_index_lookup in H1 as (n1 & Hn1 & ->).
    apply fitted_word_index_lookup in H2 as (n2 & Hn2 & Heq).
    assert (n1 = n2) as -> by lia. congruence.
Qed.



(** ** Word counts and the order of the ids *)

Lemma count_of_count_word w wc w' :
  count_of (Tokenizer.count_word w wc) w'
  = if String.eqb w' w then count_of wc w + 1 else count_of wc w'.
Proof.
  induction wc as [|[w0 n] wc IH]; cbn [Tokenizer.count_word count_of].
  - by destruct (String.eqb w' w).
  - destruct (String.eqb_spec w w0) as [Heq|Hne]; cbn [count_of]; [|rewrite IH];
      repeat match goal with
             | |- context [String.eqb ?a ?b] => destruct (String.eqb_spec a b)
             end;
      subst; congruence.
Qed.

Lemma count_of_fold ws wc w :
  count_of (fold_left (fun acc w => Tokenizer.count_word w acc) ws wc) w
  = count_of wc w + Z.of_nat (count_occ String.string_dec ws w).
Proof.
  revert wc. induction ws as [|w0 ws IH]; intros wc; cbn [fold_left count_occ]; [lia|].
  rewrite IH, count_of_count_word.
  destruct (String.string_dec w0 w) as [->|Hne].
  - rewrite String.eqb_refl. lia.
  - destruct (String.eqb_spec w w0) as [->|_]; [done|lia].
Qed.

Lemma count_of_elem wc w c :
  NoDup (map fst wc) -> (w, c) ∈ wc -> count_of wc w = c.
Proof.
  induction wc as [|[w0 n] wc IH]; intros Hnd Hin; [by apply elem_of_nil in Hin|].
  cbn [map fst] in Hnd. apply NoDup_cons in Hnd as [Hn0 Hnd]. cbn [count_of].
  apply elem_of_cons in Hin as [[= -> ->]|Hin].
  - by rewrite String.eqb_refl.
  - destruct (String.eqb_spec w w0) as [->|_]; [|by apply IH].
    exfalso. apply Hn0. change (map fst wc) with (fst <$> wc).
    apply list_elem_of_fmap. by exists (w0, c).
Qed.

(** The counts [fit_on_texts] keeps are the occurrences in the corpus. *)
Lemma fitted_word_counts_elem texts w c :
  (w, c) ∈ Tokenizer.word_counts (fitted texts) -> c = occurrences texts w.
Proof.
  intros Hin. destruct (fitted_word_counts_keys texts) as [Hnd _].
  rewrite <- (count_of_elem _ _ _ Hnd Hin).
  unfold fitted, Tokenizer.fit_on_texts, occurrences.
  cbn [Tokenizer.word_counts Tokenizer.new].
  by rewrite count_texts_words, count_of_fold.
Qed.

Lemma insert_desc_elem x l y :
  y ∈ Tokenizer.insert_desc x l <-> y = x \/ y ∈ l.
Proof.
  induction l as [|z l IH]; cbn [Tokenizer.insert_desc].
  - rewrite list_elem_of_singleton, elem_of_nil. tauto.
  - destruct (snd z <=? snd x); rewrite !elem_of_cons; [tauto|].
    rewrite IH. tauto.
Qed.

Lemma insert_desc_sorted x l :
  StronglySorted by_decreasing_count l ->
  StronglySorted by_decreasing_count (Tokenizer.insert_desc x l).
Proof.
  induction 1 as [|z l Hl IH Hz]; cbn [Tokenizer.insert_desc].
  - repeat constructor.
  - destruct (Z.leb_spec (snd z) (snd x)) as [Hle|Hlt].
    + constructor; [by constructor|]. constructor; [done|].
      eapply Forall_impl; [exact Hz|]. unfold by_decreasing_count. intros y Hy.
      cbn beta in Hy. lia.
    + constructor; [done|]. apply Forall_forall. intros y Hy.
      apply insert_desc_elem in Hy as [->|Hy].
      * unfold by_decreasing_count. lia.
      * rewrite Forall_forall in Hz. by apply Hz.
Qed.

Lemma sort_desc_sorted l : StronglySorted by_decreasing_count (Tokenizer.sort_desc l).
Proof.
  induction l as [|x l IH]; cbn [Tokenizer.sort_desc fold_right]; [constructor|].
  by apply insert_desc_sorted.
Qed.

Lemma StronglySorted_lookup_lt {A} (R : A -> A -> Prop) l i j x y :
  StronglySorted R l -> l !! i = Some x -> l !! j = Some y -> (i < j)%nat -> R x y.
Proof.
  intros Hl. revert i j. induction Hl as [|z l Hl IH Hz]; intros i j Hi Hj Hlt.
  - discriminate Hi.
  - destruct j as [|j]; [lia|]. cbn [lookup list_lookup] in Hj. destruct i as [|i].
    + injection Hi as <-. rewrite Forall_forall in Hz.
      by apply Hz, (list_elem_of_lookup_2 _ j).
    + apply (IH i j); [done|done|lia].
Qed.

(** X4: [fit_on_texts] numbers the words by decreasing count: a word that
    occurs more often in the corpus than another word of the corpus has
    the smaller id, and both ids come after the id 1 of the
    out-of-vocabulary token. *)
Theorem frequent_words_get_smaller_ids (texts : list string) (w1 w2 : string) :
  0 < occurrences texts w2 < occurrences texts w1 ->
  exists i1 i2,
    Tokenizer.word_index (fitted texts) !! w1 = Some i1 /\
    Tokenizer.word_index (fitted texts) !! w2 = Some i2 /\
    2 <= i1 < i2.
Proof.
  intros [Hpos Hlt].
  assert (forall w, 0 < occurrences texts w ->
            exists p, Tokenizer.word_index (fitted texts) !! w = Some (Z.of_nat (S (S p))) /\
              Tokenizer.sort_desc (Tokenizer.word_counts (fitted texts)) !! p
                = Some (w, occurrences texts w)) as Hpos_ix.
  { intros w Hw.
    assert (w ∈ corpus_words texts) as Hin.
    { apply list_elem_of_In, (count_occ_In String.string_dec).
      unfold occurrences in Hw. lia. }
    destruct (fitted_word_index_corpus _ _ Hin) as (p & Hp). exists p. split; [done|].
    apply fitted_word_index_lookup in Hp as (n & Hn & Heq).
    assert (n = S p) as -> by lia.
    destruct (fitted_voc_lookup_word _ _ _ Hn) as [[? _]|(p' & c & [= <-] & Hsd & _)];
      [done|].
    rewrite Hsd. do 2 f_equal. apply fitted_word_counts_elem.
    rewrite <- (sort_desc_Permutation (Tokenizer.word_counts (fitted texts))).
    by apply list_elem_of_lookup_2 in Hsd. }
  destruct (Hpos_ix w1 ltac:(lia)) as (p1 & H1 & Hs1).
  destruct (Hpos_ix w2 Hpos) as (p2 & H2 & Hs2).
  exists (Z.of_nat (S (S p1))), (Z.of_nat (S (S p2))).
  split; [done|]. split; [done|]. split; [lia|].
  destruct (Nat.lt_trichotomy p1 p2) as [Hp|[->|Hp]]; [lia| |].
  - rewrite Hs1 in Hs2. injection Hs2 as -> _. lia.
  - pose proof (StronglySorted_lookup_lt _ _ _ _ _ _
                  (sort_desc_sorted _) Hs2 Hs1 Hp) as Hle.
    unfold by_decreasing_count in Hle. cbn [snd] in Hle. lia.
Qed.

(** In a corpus where "play" occurs twice and "music" once, "play" has the
    id 2 and "music" the id 3. *)
Lemma frequent_words_get_smaller_ids_witness :
  exists i1 i2,
    Tokenizer.word_index (fitted ["Play music"; "Play"]) !! "play" = Some i1 /\
    Tokenizer.word_index (fitted ["Play music"; "Play"]) !! "music" = Some i2 /\
    2 <= i1 < i2.
Proof.
  apply (frequent_words_get_smaller_ids ["Play music"; "Play"] "play" "music").
  vm_compute. split; reflexivity.
Defined.

(** ** Labels *)



(** X6: the label encoder depends on the set of labels only, not on their
    order or on how often each occurs: tables with the same labels get the
    same class list, hence the same code for each label. *)
Theorem label_encoding_order_independent (labels labels' : list string) :
  (forall L, L ∈ labels <-> L ∈ labels') ->
  LabelEncoder.fit labels = LabelEncoder.fit labels' /\
  forall L, LabelEncoder.encode (LabelEncoder.fit labels) L
            = LabelEncoder.encode (LabelEncoder.fit labels') L.
Proof.
  intros Hsame.
  assert (LabelEncoder.fit labels = LabelEncoder.fit labels') as Heq.
  { unfold LabelEncoder.fit. f_equal.
    apply (Sorted_unique String.le); [apply unique_Sorted|apply unique_Sorted|].
    apply NoDup_Permutation; [apply unique_NoDup|apply unique_NoDup|].
    intros L. by rewrite !unique_elem_of. }
  split; [done|]. intros L. by rewrite Heq.
Qed.

(** The intents in another order, one of them repeated. *)
Lemma label_encoding_order_independent_witness :
  LabelEncoder.fit ["time"; "weather"; "time"] = LabelEncoder.fit ["weather"; "time"] /\
  forall L, LabelEncoder.encode (LabelEncoder.fit ["time"; "weather"; "time"]) L
            = LabelEncoder.encode (LabelEncoder.fit ["weather"; "time"]) L.
Proof.
  apply (label_encoding_order_independent ["time"; "weather"; "time"] ["weather"; "time"]).
  intros L. rewrite !elem_of_cons, !elem_of_nil. tauto.
Defined.

(** ** The representative dataset *)




(** ** The predicted class *)




(** ** Edge cases of the two scripts *)



Lemma confined_test_inference_export S tfl model_path tok class_names :
  model_path = Exporter.tflite_model_path Exporter.CONFIG \/
  model_path = Exporter.tflite_quantized_path Exporter.CONFIG ->
  confined S export_event (Exporter.test_inference tfl model_path tok class_names).
Proof.
  intros Hp. unfold Exporter.test_inference, Exporter.infer_text.
  confine; exact I || exact Hp.
Qed.

Lemma confined_export_paths tfl :
  confined export_paths export_event (Exporter.export_tflite_model tfl).
Proof.
  unfold Exporter.export_tflite_model, Exporter.load_tokenizer_and_labels,
    Exporter.quantize_int8, Exporter.quantize_dynamic.
  confine_with ltac:(apply confined_test_inference_export);
    first [ exact I | reflexivity | cbn [export_event]; unfold export_paths; auto ].
Qed.

(** X10: whatever the converter and the interpreter do, an export run
    changes no file but its three output files, so it leaves the three
    training artifacts as they are; it removes no directory; and all it
    does besides printing and converting is to create assets, load the
    model, read the tokenizer and label files, write its three files and
    run the interpreter on the two artifacts. *)
Theorem export_leaves_other_files (tfl : tflite) (w : world) :
  (forall p, ~ export_paths p ->
     files (snd (Exporter.export_tflite_model tfl w)) !! p = files w !! p) /\
  files (snd (Exporter.export_tflite_model tfl w)) !! Exporter.model_path Exporter.CONFIG
    = files w !! Exporter.model_path Exporter.CONFIG /\
  files (snd (Exporter.export_tflite_model tfl w)) !! Exporter.tokenizer_path Exporter.CONFIG
    = files w !! Exporter.tokenizer_path Exporter.CONFIG /\
  files (snd (Exporter.export_tflite_model tfl w))
    !! Exporter.label_encoder_path Exporter.CONFIG
    = files w !! Exporter.label_encoder_path Exporter.CONFIG /\
  dirs w ⊆ dirs (snd (Exporter.export_tflite_model tfl w)) /\
  exists evs,
    trace (snd (Exporter.export_tflite_model tfl w)) = trace w ++ evs /\
    Forall export_event evs.
Proof.
  destruct (confined_export_paths tfl w) as (Hf & Hd & He).
  split; [done|].
  repeat (split; [apply Hf; unfold export_paths; intros [H|[H|H]]; discriminate H|]).
  done.
Qed.

(** ** Quantization *)

Lemma run_quantize_dynamic tfl m e q w :
  convert tfl (Exporter.converter_dynamic m) = Ok q ->
  "assets" ∈ dirs w ->
  Exporter.quantize_dynamic tfl m e w =
  (Ok tt,
   mk_world
     (<[Exporter.tflite_quantized_path Exporter.CONFIG := FBytes q]> (files w))
     (dirs w)
     (trace w ++
      [ EvPrint [PStr "Quantization failed: "; PExn e];
        EvPrint [PStr "Using dynamic range quantization instead..."];
        EvConvert ConvDynamic;
        EvOpenWrite (Exporter.tflite_quantized_path Exporter.CONFIG);
        EvWrite (Exporter.tflite_quantized_path Exporter.CONFIG) (FBytes q);
        EvPrint [PStr "Dynamic quantized model saved to: ";
                 PStr (Exporter.tflite_quantized_path Exporter.CONFIG)];
        EvPrint [PStr "Dynamic quantized model size: ";
                 PRatio (Exporter.len_bytes q) 1024; PStr " KB"] ])).
Proof.
  intros Hq Hd. unfold Exporter.quantize_dynamic.
  rewrite (bind_Ok _ _ _ _ _ (run_print _ _)); norm_world.
  rewrite (bind_Ok _ _ _ _ _ (run_print _ _)); norm_world.
  rewrite (bind_Ok _ _ _ _ _ (run_emit _ _)); norm_world.
  rewrite (bind_lift_Ok _ _ _ q) by done.
  erewrite bind_Ok.
  2:{ apply run_write_file, dir_exists_assets; [done|reflexivity]. }
  norm_world.
  rewrite (bind_Ok _ _ _ _ _ (run_print _ _)); norm_world.
  rewrite run_print. norm_world. by rewrite <- !app_assoc.
Qed.

Lemma run_quantize_int8_written tfl m tok b q w :
  convert tfl (Exporter.converter_quantized m tok) = Ok q ->
  "assets" ∈ dirs w ->
  Exporter.quantize_int8 tfl m tok b w =
  (if Exporter.len_bytes q =? 0
   then Raise (Exception "ZeroDivisionError" "division by zero")
   else Ok tt,
   mk_world
     (<[Exporter.tflite_quantized_path Exporter.CONFIG := FBytes q]> (files w))
     (dirs w)
     (trace w ++
      [ EvConvert ConvInt8;
        EvOpenWrite (Exporter.tflite_quantized_path Exporter.CONFIG);
        EvWrite (Exporter.tflite_quantized_path Exporter.CONFIG) (FBytes q);
        EvPrint [PStr "Quantized model saved to: ";
                 PStr (Exporter.tflite_quantized_path Exporter.CONFIG)];
        EvPrint [PStr "Quantized model size: ";
                 PRatio (Exporter.len_bytes q) 1024; PStr " KB"] ] ++
      if Exporter.len_bytes q =? 0 then []
      else [ EvPrint [PStr "Compression ratio: ";
                      PRatio (Exporter.len_bytes b) (Exporter.len_bytes q);
                      PStr "x"] ])).
Proof.
  intros Hq Hd. unfold Exporter.quantize_int8.
  rewrite (bind_Ok _ _ _ _ _ (run_emit _ _)); norm_world.
  rewrite (bind_lift_Ok _ _ _ q) by done.
  erewrite bind_Ok.
  2:{ apply run_write_file, dir_exists_assets; [done|reflexivity]. }
  norm_world.
  rewrite (bind_Ok _ _ _ _ _ (run_print _ _)); norm_world.
  rewrite (bind_Ok _ _ _ _ _ (run_print _ _)); norm_world.
  destruct (Exporter.len_bytes q =? 0).
  - unfold bind, raise. norm_world. by rewrite <- !app_assoc, app_nil_r.
  - unfold bind at 1, ret. rewrite run_print. norm_world. by rewrite <- !app_assoc.
Qed.

(** The metadata and the validation, when the interpreter accepts both
    artifacts. *)
Lemma run_export_finish tfl tok class_names b q w :
  "assets" ∈ dirs w ->
  files w !! Exporter.tflite_model_path Exporter.CONFIG = Some (FBytes b) ->
  files w !! Exporter.tflite_quantized_path Exporter.CONFIG = Some (FBytes q) ->
  interpreter_ok tfl (FBytes b) tok class_names = true ->
  interpreter_ok tfl (FBytes q) tok class_names = true ->
  exists evs,
    export_finish tfl tok (JList class_names) w =
    (Ok tt,
     mk_world
       (<[Exporter.model_metadata_path Exporter.CONFIG :=
            FJson (Exporter.metadata tok class_names)]> (files w))
       (dirs w) (trace w ++ evs)).
Proof.
  intros Hd Hb Hq Hib Hiq. unfold export_finish.
  rewrite (bind_lift_Ok _ _ _ class_names) by reflexivity.
  erewrite bind_Ok.
  2:{ apply run_write_file, dir_exists_assets; [done|reflexivity]. }
  norm_world.
  rewrite (bind_Ok _ _ _ _ _ (run_print _ _)); norm_world.
  rewrite (bind_Ok _ _ _ _ _ (run_print _ _)); norm_world.
  match goal with |- context [bind _ _ ?w0] => set (w1 := w0) end.
  destruct (run_test_inference tfl (Exporter.tflite_model_path Exporter.CONFIG)
              (FBytes b) tok class_names w1) as (evs1 & Hrun1 & _); [|done|].
  { subst w1. norm_world. by rewrite lookup_insert_ne. }
  rewrite (bind_Ok _ _ _ _ _ Hrun1).
  destruct (run_test_inference tfl (Exporter.tflite_quantized_path Exporter.CONFIG)
              (FBytes q) tok class_names (with_trace w1 evs1)) as (evs2 & Hrun2 & _);
    [|done|].
  { subst w1. norm_world. by rewrite lookup_insert_ne. }
  rewrite (bind_Ok _ _ _ _ _ Hrun2), run_print.
  subst w1. norm_world. eexists. by rewrite <- !app_assoc.
Qed.

(** X11: the clause [except Exception] does not catch an interrupt: when
    the integer-only conversion raises KeyboardInterrupt (or another
    exception outside [Exception]), the export run ends with it at once;
    the fallback conversion is not tried, and neither the quantized
    artifact nor the metadata is written. *)
Theorem interrupt_is_not_caught
    (tfl : tflite) (w : world) (m : keras_model) (tok : Tokenizer.t)
    (j classes : json) (b : bytes) (name : string) :
  files w !! "assets" = None ->
  files w !! Exporter.model_path Exporter.CONFIG = Some (FModel m) ->
  files w !! Exporter.tokenizer_path Exporter.CONFIG = Some (FTokenizer tok) ->
  files w !! Exporter.label_encoder_path Exporter.CONFIG = Some (FJson j) ->
  Exporter.json_get j "classes" = Ok classes ->
  convert tfl (Exporter.converter_float32 m) = Ok b ->
  convert tfl (Exporter.converter_quantized m tok) = Raise (BaseException name) ->
  exists w',
    Exporter.export_tflite_model tfl w = (Raise (BaseException name), w') /\
    files w' = <[Exporter.tflite_model_path Exporter.CONFIG := FBytes b]> (files w) /\
    trace w' =
      trace w ++ export_prefix_events b ++
      [ EvPrint [PStr "Float32 model saved to: ";
                 PStr (Exporter.tflite_model_path Exporter.CONFIG)];
        EvPrint [PStr "Float32 model size: "; PRatio (Exporter.len_bytes b) 1024;
                 PStr " KB"];
        EvPrint [PStr "Converting to TensorFlow Lite (quantized)..."];
        EvConvert ConvInt8 ].
Proof.
  intros Ha Hm Ht Hl Hj Hb Hq.
  rewrite (export_after_float tfl w m tok j classes b) by done.
  unfold export_rest, export_prefix_world.
  rewrite (bind_Ok _ _ _ _ _ (run_print _ _)); norm_world.
  rewrite (bind_Ok _ _ _ _ _ (run_print _ _)); norm_world.
  rewrite (bind_Ok _ _ _ _ _ (run_print _ _)); norm_world.
  erewrite bind_Raise.
  2:{ eapply run_try_except_uncaught; [by apply run_quantize_int8_Raise|done]. }
  norm_world. eexists. split; [reflexivity|]. cbn [files trace].
  split; [done|]. by rewrite <- !app_assoc.
Qed.

Lemma interrupt_is_not_caught_witness :
  exists w',
    Exporter.export_tflite_model (answering convert_interrupted) trained_world
      = (Raise (BaseException "KeyboardInterrupt"), w') /\
    files w' = <[Exporter.tflite_model_path Exporter.CONFIG :=
                   FBytes [Byte.x01; Byte.x02; Byte.x03; Byte.x04]]> (files trained_world) /\
    trace w' =
      trace trained_world ++ export_prefix_events [Byte.x01; Byte.x02; Byte.x03; Byte.x04] ++
      [ EvPrint [PStr "Float32 model saved to: ";
                 PStr (Exporter.tflite_model_path Exporter.CONFIG)];
        EvPrint [PStr "Float32 model size: ";
                 PRatio (Exporter.len_bytes [Byte.x01; Byte.x02; Byte.x03; Byte.x04]) 1024;
                 PStr " KB"];
        EvPrint [PStr "Converting to TensorFlow Lite (quantized)..."];
        EvConvert ConvInt8 ].
Proof.
  apply (interrupt_is_not_caught (answering convert_interrupted) trained_world
           tiny_model tiny_tokenizer
           (JObj [("classes", JList [JStr "greeting"])]) (JList [JStr "greeting"])
           [Byte.x01; Byte.x02; Byte.x03; Byte.x04] "KeyboardInterrupt");
    reflexivity.
Defined.

(** X12: an integer-only conversion that returns an empty artifact makes
    the compression ratio divide by zero after the empty file has been
    written; the ZeroDivisionError is caught like a failed conversion, and
    the fallback artifact replaces the empty file. *)
Theorem empty_quantized_artifact_falls_back
    (tfl : tflite) (w : world) (m : keras_model) (tok : Tokenizer.t)
    (j : json) (class_names : list json) (b q : bytes) :
  files w !! "assets" = None ->
  files w !! Exporter.model_path Exporter.CONFIG = Some (FModel m) ->
  files w !! Exporter.tokenizer_path Exporter.CONFIG = Some (FTokenizer tok) ->
  files w !! Exporter.label_encoder_path Exporter.CONFIG = Some (FJson j) ->
  Exporter.json_get j "classes" = Ok (JList class_names) ->
  convert tfl (Exporter.converter_float32 m) = Ok b ->
  convert tfl (Exporter.converter_quantized m tok) = Ok [] ->
  convert tfl (Exporter.converter_dynamic m) = Ok q ->
  interpreter_ok tfl (FBytes b) tok class_names = true ->
  interpreter_ok tfl (FBytes q) tok class_names = true ->
  exists w' pre post,
    Exporter.export_tflite_model tfl w = (Ok tt, w') /\
    files w' !! Exporter.tflite_quantized_path Exporter.CONFIG = Some (FBytes q) /\
    trace w' =
      trace w ++ pre ++
      EvPrint [PStr "Quantization failed: ";
               PExn (Exception "ZeroDivisionError" "division by zero")] :: post /\
    EvWrite (Exporter.tflite_quantized_path Exporter.CONFIG) (FBytes []) ∈ pre /\
    EvConvert ConvDynamic ∈ post /\
    EvWrite (Exporter.tflite_quantized_path Exporter.CONFIG) (FBytes q) ∈ post.
Proof.
  intros Ha Hm Ht Hl Hj Hb He Hq Hib Hiq.
  rewrite (export_after_float tfl w m tok j (JList class_names) b) by done.
  unfold export_rest, export_prefix_world.
  rewrite (bind_Ok _ _ _ _ _ (run_print _ _)); norm_world.
  rewrite (bind_Ok _ _ _ _ _ (run_print _ _)); norm_world.
  rewrite (bind_Ok _ _ _ _ _ (run_print _ _)); norm_world.
  match goal with |- context [bind (try_except _ _) _ ?w0] => set (w0' := w0) end.
  assert ("assets" ∈ dirs w0') as Hd by (subst w0'; cbn [dirs]; set_solver).
  pose proof (run_quantize_int8_written tfl m tok b [] w0' He Hd) as Hbody.
  cbn [Exporter.len_bytes length Z.of_nat Z.eqb] in Hbody.
  erewrite bind_Ok.
  2:{ rewrite (run_try_except_caught _ _ _ _ _ Hbody eq_refl).
      by apply (run_quantize_dynamic _ _ _ q). }
  clear Hbody Hd. subst w0'. norm_world.
  match goal with |- context [export_finish _ _ _ ?w0] => set (w1 := w0) end.
  destruct (run_export_finish tfl tok class_names b q w1) as (evs & Hfin);
    [| | |done|done|].
  { subst w1. cbn [dirs]. set_solver. }
  { subst w1. cbn [files]. rewrite !lookup_insert_ne by done; apply lookup_insert_eq. }
  { subst w1. cbn [files]. by rewrite lookup_insert_eq. }
  rewrite Hfin. subst w1. norm_world.
  eexists.
  exists (export_prefix_events b ++
          [ EvPrint [PStr "Float32 model saved to: ";
                     PStr (Exporter.tflite_model_path Exporter.CONFIG)];
            EvPrint [PStr "Float32 model size: "; PRatio (Exporter.len_bytes b) 1024;
                     PStr " KB"];
            EvPrint [PStr "Converting to TensorFlow Lite (quantized)..."];
            EvConvert ConvInt8;
            EvOpenWrite (Exporter.tflite_quantized_path Exporter.CONFIG);
            EvWrite (Exporter.tflite_quantized_path Exporter.CONFIG) (FBytes []);
            EvPrint [PStr "Quantized model saved to: ";
                     PStr (Exporter.tflite_quantized_path Exporter.CONFIG)];
            EvPrint [PStr "Quantized model size: ";
                     PRatio (Exporter.len_bytes []) 1024; PStr " KB"] ]).
  exists ([ EvPrint [PStr "Using dynamic range quantization instead..."];
            EvConvert ConvDynamic;
            EvOpenWrite (Exporter.tflite_quantized_path Exporter.CONFIG);
            EvWrite (Exporter.tflite_quantized_path Exporter.CONFIG) (FBytes q);
            EvPrint [PStr "Dynamic quantized model saved to: ";
                     PStr (Exporter.tflite_quantized_path Exporter.CONFIG)];
            EvPrint [PStr "Dynamic quantized model size: ";
                     PRatio (Exporter.len_bytes q) 1024; PStr " KB"] ] ++ evs).
  split; [reflexivity|]. cbn [files trace].
  split; [rewrite lookup_insert_ne by done; apply lookup_insert_eq|].
  split; [by rewrite <- !app_assoc|].
  split; [apply elem_of_app; right; find_event|].
  split; cbn [app]; find_event.
Qed.

Lemma empty_quantized_artifact_falls_back_witness :
  exists w' pre post,
    Exporter.export_tflite_model (answering convert_int8_empty) trained_world
      = (Ok tt, w') /\
    files w' !! Exporter.tflite_quantized_path Exporter.CONFIG
      = Some (FBytes [Byte.x01; Byte.x02]) /\
    trace w' =
      trace trained_world ++ pre ++
      EvPrint [PStr "Quantization failed: ";
               PExn (Exception "ZeroDivisionError" "division by zero")] :: post /\
    EvWrite (Exporter.tflite_quantized_path Exporter.CONFIG) (FBytes []) ∈ pre /\
    EvConvert ConvDynamic ∈ post /\
    EvWrite (Exporter.tflite_quantized_path Exporter.CONFIG)
      (FBytes [Byte.x01; Byte.x02]) ∈ post.
Proof.
  apply (empty_quantized_artifact_falls_back (answering convert_int8_empty)
           trained_world tiny_model tiny_tokenizer
           (JObj [("classes", JList [JStr "greeting"])]) [JStr "greeting"]
           [Byte.x01; Byte.x02; Byte.x03; Byte.x04] [Byte.x01; Byte.x02]);
    reflexivity.
Defined.



(** X14: a label-encoder file that lacks the key 'classes' ends the export
    run with KeyError once the model and the tokenizer have been loaded:
    nothing is converted and no file is written. *)
Theorem export_aborts_without_classes_key
    (tfl : tflite) (w : world) (m : keras_model) (tok : Tokenizer.t)
    (fields : list (string * json)) :
  files w !! "assets" = None ->
  files w !! Exporter.model_path Exporter.CONFIG = Some (FModel m) ->
  files w !! Exporter.tokenizer_path Exporter.CONFIG = Some (FTokenizer tok) ->
  files w !! Exporter.label_encoder_path Exporter.CONFIG = Some (FJson (JObj fields)) ->
  dict_of_list fields !! "classes" = None ->
  exists w',
    Exporter.export_tflite_model tfl w = (Raise (Exception "KeyError" "classes"), w') /\
    files w' = files w /\
    trace w' =
      trace w ++
      [ EvMakedirs "assets";
        EvPrint [PStr "Loading trained model..."];
        EvLoadModel (Exporter.model_path Exporter.CONFIG);
        EvRead (Exporter.tokenizer_path Exporter.CONFIG);
        EvRead (Exporter.label_encoder_path Exporter.CONFIG) ].
Proof.
  intros Ha Hm Ht Hl Hk. unfold Exporter.export_tflite_model.
  rewrite (bind_Ok _ _ _ _ _ (run_makedirs _ _ Ha)).
  rewrite (bind_Ok _ _ _ _ _ (run_print _ _)); norm_world.
  erewrite bind_Ok; [|by apply run_load_model]. norm_world.
  erewrite bind_Raise.
  2:{ unfold Exporter.load_tokenizer_and_labels.
      erewrite bind_Ok; [|by apply run_read_file]. norm_world.
      rewrite (bind_lift_Ok _ _ _ tok) by reflexivity.
      erewrite bind_Ok; [|by apply run_read_file]. norm_world.
      rewrite (bind_lift_Ok _ _ _ (JObj fields)) by reflexivity.
      apply bind_lift_Raise. cbn [Exporter.json_get]. by rewrite Hk. }
  eexists. split; [reflexivity|]. cbn [files trace].
  split; [done|]. by rewrite <- !app_assoc.
Qed.

Lemma export_aborts_without_classes_key_witness :
  exists w',
    Exporter.export_tflite_model (answering convert_all) mislabelled_world
      = (Raise (Exception "KeyError" "classes"), w') /\
    files w' = files mislabelled_world /\
    trace w' =
      trace mislabelled_world ++
      [ EvMakedirs "assets";
        EvPrint [PStr "Loading trained model..."];
        EvLoadModel (Exporter.model_path Exporter.CONFIG);
        EvRead (Exporter.tokenizer_path Exporter.CONFIG);
        EvRead (Exporter.label_encoder_path Exporter.CONFIG) ].
Proof.
  apply (export_aborts_without_classes_key (answering convert_all) mislabelled_world
           tiny_model tiny_tokenizer [("labels", JList [JStr "greeting"])]);
    reflexivity.
Defined.

(** ** The training run, step by step *)

Lemma dir_exists_models (w : world) path :
  "models" ∈ dirs w -> dirname path = "models" ->
  dir_exists w (dirname path) = true.
Proof.
  intros Hd ->. unfold dir_exists.
  destruct (decide ("models" = "")) as [?|_]; [discriminate|].
  by apply bool_decide_eq_true.
Qed.

Lemma confined_fit_train eng model d epochs :
  confined train_paths train_event (fit eng model d epochs Train.callbacks).
Proof.
  unfold fit. apply confined_bind; [by apply confined_emit|]. intros _.
  apply confined_bind.
  - apply confined_fit_loop; [done|].
    intros filepath m b1 b2 Hin.
    assert (filepath = Train.model_save_path Train.CONFIG) as ->.
    { unfold Train.callbacks in Hin.
      repeat (apply elem_of_cons in Hin as [Hin|Hin]; [by inversion Hin|]).
      by apply elem_of_nil in Hin. }
    cbn [train_event]. unfold train_paths. auto.
  - intros r. apply confined_bind; [by apply confined_emit|]. intros _.
    apply confined_ret.
Qed.

Lemma confined_ext {A} (S : string -> Prop) (E : event -> Prop) (m m' : M A) :
  (forall w, m w = m' w) -> confined S E m' -> confined S E m.
Proof. intros H Hm w. rewrite H. apply Hm. Qed.

Lemma confined_train_from_split eng X y tok le :
  confined train_paths train_event (train_from_split eng X y tok le).
Proof.
  unfold train_from_split, train_finish, Train.summary.
  confine_with ltac:(
    idtac;
    lazymatch goal with
    | |- confined _ _ (fit _ _ _ _ _) => apply confined_fit_train
    end);
    first [ exact I | reflexivity | cbn [train_event]; unfold train_paths; auto ].
Qed.

Lemma confined_train_paths eng :
  confined train_paths train_event (Train.train_model eng).
Proof.
  destruct (preprocess_data_fitted Train.load_data) as (y & Hy).
  apply (confined_ext _ _ _
    (makedirs "models" ;;;
     print [PStr "Loading data..."] ;;;
     print [PStr "Loaded "; PInt (Z.of_nat (length (Train.df_text Train.load_data)));
            PStr " samples with ";
            PInt (Z.of_nat (length (remove_dups (Train.df_intent Train.load_data))));
            PStr " unique intents"] ;;;
     print [PStr "Preprocessing data..."] ;;;
     train_from_split eng
       (pad_sequences
          (Tokenizer.texts_to_sequences (fitted (Train.df_text Train.load_data))
             (Train.df_text Train.load_data))
          (Train.max_sequence_length Train.CONFIG) post post)
       y (fitted (Train.df_text Train.load_data))
       (LabelEncoder.fit (Train.df_intent Train.load_data)))).
  - intros w. unfold Train.train_model.
    apply bind_ext. intros _ w1. apply bind_ext. intros _ w2.
    apply bind_ext. intros _ w3. apply bind_ext. intros _ w4.
    rewrite (bind_lift_Ok _ _ _ _ Hy). reflexivity.
  - apply confined_bind; [by apply confined_makedirs|]. intros _.
    apply confined_bind; [by apply confined_print|]. intros _.
    apply confined_bind; [by apply confined_print|]. intros _.
    apply confined_bind; [by apply confined_print|]. intros _.
    apply confined_train_from_split.
Qed.

(** X15: whatever the engine does, a training run changes no file but the
    model checkpoint, the tokenizer file, the label-encoder file and the
    training history, so it leaves the exported artifacts as they are; it
    removes no directory; it reads no file and runs neither the converter
    nor the interpreter. *)
Theorem train_model_leaves_other_files (eng : engine) (w : world) :
  (forall p, ~ train_paths p ->
     files (snd (Train.train_model eng w)) !! p = files w !! p) /\
  files (snd (Train.train_model eng w)) !! Exporter.tflite_model_path Exporter.CONFIG
    = files w !! Exporter.tflite_model_path Exporter.CONFIG /\
  files (snd (Train.train_model eng w)) !! Exporter.tflite_quantized_path Exporter.CONFIG
    = files w !! Exporter.tflite_quantized_path Exporter.CONFIG /\
  files (snd (Train.train_model eng w)) !! Exporter.model_metadata_path Exporter.CONFIG
    = files w !! Exporter.model_metadata_path Exporter.CONFIG /\
  dirs w ⊆ dirs (snd (Train.train_model eng w)) /\
  exists evs,
    trace (snd (Train.train_model eng w)) = trace w ++ evs /\
    Forall train_event evs.
Proof.
  destruct (confined_train_paths eng w) as (Hf & Hd & He).
  split; [done|].
  repeat (split; [apply Hf; unfold train_paths; intros [H|[H|[H|H]]]; discriminate H|]).
  done.
Qed.

(** The run up to the split of the data. *)
Lemma run_train_prefix eng w :
  files w !! "models" = None ->
  exists y,
    Train.train_model eng w =
    train_from_split eng
      (pad_sequences
         (Tokenizer.texts_to_sequences (fitted (Train.df_text Train.load_data))
            (Train.df_text Train.load_data))
         (Train.max_sequence_length Train.CONFIG) post post)
      y (fitted (Train.df_text Train.load_data))
      (LabelEncoder.fit (Train.df_intent Train.load_data))
      (mk_world (files w) ({["models"]} ∪ dirs w)
         (trace w ++
          [ EvMakedirs "models";
            EvPrint [PStr "Loading data..."];
            EvPrint [PStr "Loaded ";
                     PInt (Z.of_nat (length (Train.df_text Train.load_data)));
                     PStr " samples with ";
                     PInt (Z.of_nat (length (remove_dups
                                               (Train.df_intent Train.load_data))));
                     PStr " unique intents"];
            EvPrint [PStr "Preprocessing data..."] ])).
Proof.
  intros Hm. destruct (train_model_run eng w) as (y & ->). exists y.
  rewrite (bind_Ok _ _ _ _ _ (run_makedirs _ _ Hm)).
  rewrite (bind_Ok _ _ _ _ _ (run_print _ _)); norm_world.
  rewrite (bind_Ok _ _ _ _ _ (run_print _ _)); norm_world.
  rewrite (bind_Ok _ _ _ _ _ (run_print _ _)); norm_world.
  by rewrite <- !app_assoc.
Qed.

(** From the split to the call of [model.fit]. *)
Lemma run_train_from_split eng X y tok le w X_train X_val y_train y_val :
  train_test_split eng X y (Train.validation_split Train.CONFIG) 42
    = Ok (X_train, X_val, y_train, y_val) ->
  train_from_split eng X y tok le w =
  bind (fit eng
          (Train.create_model eng (Train.vocab_size tok)
             (Z.of_nat (length (LabelEncoder.classes_ le))))
          (mk_fit_data X_train y_train X_val y_val (Train.batch_size Train.CONFIG))
          (Train.epochs Train.CONFIG) Train.callbacks)
       (train_finish eng X_val y_val tok le)
       (with_trace w
          [ EvPrint [PStr "Training samples: "; PInt (Train.len_rows X_train)];
            EvPrint [PStr "Validation samples: "; PInt (Train.len_rows X_val)];
            EvPrint [PStr "Creating model..."];
            EvPrint [PStr "Model: ";
                     PInt (Z.of_nat (length (km_layers
                       (Train.create_model eng (Train.vocab_size tok)
                          (Z.of_nat (length (LabelEncoder.classes_ le)))))))];
            EvPrint [PStr "Training model..."] ]).
Proof.
  intros Hs. unfold train_from_split, Train.summary.
  rewrite (bind_lift_Ok _ _ _ _ Hs). cbv beta iota.
  rewrite (bind_Ok _ _ _ _ _ (run_print _ _)).
  rewrite (bind_Ok _ _ _ _ _ (run_print _ _)), with_trace_app.
  rewrite (bind_Ok _ _ _ _ _ (run_print _ _)), with_trace_app.
  rewrite (bind_Ok _ _ _ _ _ (run_print _ _)), with_trace_app.
  rewrite (bind_Ok _ _ _ _ _ (run_print _ _)), with_trace_app.
  reflexivity.
Qed.

(** X16: when the data cannot be split, the training run ends with the
    exception of the split; by then it has created the directory models
    and printed three lines, and it has written no file and not begun to
    train. *)
Theorem split_failure_writes_nothing (eng : engine) (w : world) (e : exn) :
  files w !! "models" = None ->
  (forall X y, train_test_split eng X y (Train.validation_split Train.CONFIG) 42
               = Raise e) ->
  exists w',
    Train.train_model eng w = (Raise e, w') /\
    files w' = files w /\
    dirs w' = {["models"]} ∪ dirs w /\
    trace w' =
      trace w ++
      [ EvMakedirs "models";
        EvPrint [PStr "Loading data..."];
        EvPrint [PStr "Loaded "; PInt 47; PStr " samples with "; PInt 7;
                 PStr " unique intents"];
        EvPrint [PStr "Preprocessing data..."] ].
Proof.
  intros Hm Hs. destruct (run_train_prefix eng w Hm) as (y & ->).
  unfold train_from_split. rewrite (bind_lift_Raise _ _ _ e) by apply Hs.
  eexists. split; [reflexivity|]. cbn [files dirs trace]. done.
Qed.

Lemma split_failure_writes_nothing_witness :
  exists w',
    Train.train_model unsplittable_engine empty_world
      = (Raise (Exception "ValueError" "test_size"), w') /\
    files w' = files empty_world /\
    dirs w' = {["models"]} ∪ dirs empty_world /\
    trace w' =
      trace empty_world ++
      [ EvMakedirs "models";
        EvPrint [PStr "Loading data..."];
        EvPrint [PStr "Loaded "; PInt 47; PStr " samples with "; PInt 7;
                 PStr " unique intents"];
        EvPrint [PStr "Preprocessing data..."] ].
Proof.
  apply (split_failure_writes_nothing unsplittable_engine empty_world
           (Exception "ValueError" "test_size")); reflexivity.
Defined.

(** The callbacks of the trainer cannot fail once the directory models
    exists. *)
Lemma run_train_callbacks_ok s best epoch logs model w :
  "models" ∈ dirs w ->
  exists s' best' m' stop w',
    callbacks_on_epoch_end Train.callbacks [ESState s; MCState best; RLState]
      epoch logs model false w
    = (Ok ([ESState s'; MCState best'; RLState], m', stop), w') /\
    dirs w' = dirs w.
Proof.
  intros Hd. unfold Train.callbacks. cbn [callbacks_on_epoch_end cb_on_epoch_end].
  destruct (es_on_epoch_end m_val_loss 10 true s epoch logs (km_weights model))
    as [[s' stop] wt].
  rewrite (bind_Ok _ _ w (ESState s', set_weights model wt, false || stop) w eq_refl).
  cbv beta iota.
  destruct (monitor_op m_val_accuracy (get_log m_val_accuracy logs) best).
  - unfold model_save.
    rewrite !bind_assoc, (bind_Ok _ _ _ _ _ (run_emit _ _)); norm_world.
    rewrite ?bind_assoc.
    erewrite bind_Ok.
    2:{ apply run_write_file, dir_exists_models; [done|reflexivity]. }
    eexists _, _, _, _, _. split; [reflexivity|]. done.
  - eexists _, _, _, _, _. split; [reflexivity|]. done.
Qed.

Lemma fit_loop_returns eng d remaining :
  (forall m cbs d e h, is_ok (train_epoch eng m cbs d e h) = true) ->
  forall epoch model s best history w,
  "models" ∈ dirs w ->
  exists r w',
    fit_loop eng Train.callbacks d remaining epoch model
      [ESState s; MCState best; RLState] history w = (Ok r, w') /\
    dirs w' = dirs w.
Proof.
  intros Hep. induction remaining as [|n IH]; intros epoch model s best history w Hd.
  - by eexists _, _.
  - rewrite fit_loop_S.
    rewrite (bind_Ok _ _ _ _ _ (run_emit _ _)).
    specialize (Hep model Train.callbacks d epoch history).
    destruct (train_epoch eng model Train.callbacks d epoch history)
      as [[wn logs]|] eqn:Hstep; [|discriminate Hep].
    rewrite (bind_lift_Ok _ _ _ _ eq_refl). cbv beta iota.
    destruct (run_train_callbacks_ok s best epoch logs (set_weights model wn)
                (with_trace w [EvEpoch epoch]) Hd)
      as (s' & best' & m' & stop & w1 & Hcb & Hd1).
    rewrite (bind_Ok _ _ _ _ _ Hcb). cbv beta iota.
    destruct stop.
    + by eexists _, _.
    + destruct (IH (epoch + 1) m' s' best' (history ++ [logs]) w1) as (r & w2 & Hr & Hd2).
      { by rewrite Hd1. }
      exists r, w2. split; [done|]. by rewrite Hd2, Hd1.
Qed.

(** [model.fit] returns when no epoch of the engine fails. *)
Lemma fit_returns eng model d epochs w :
  (forall m cbs d e h, is_ok (train_epoch eng m cbs d e h) = true) ->
  "models" ∈ dirs w ->
  exists r w',
    fit eng model d epochs Train.callbacks w = (Ok r, w') /\
    dirs w' = dirs w /\
    forall p, p <> Train.model_save_path Train.CONFIG -> files w' !! p = files w !! p.
Proof.
  intros Hep Hd. unfold fit.
  rewrite (bind_Ok _ _ _ _ _ (run_emit _ _)).
  change (map cb_init Train.callbacks)
    with [ESState (mk_es 0 infinity None 0 0); MCState neg_infinity; RLState].
  destruct (fit_loop_returns eng d (Z.to_nat epochs) Hep 0 model
              (mk_es 0 infinity None 0 0) neg_infinity [] (with_trace w [EvFitBegin]) Hd)
    as (r & w1 & Hr & Hd1).
  rewrite (bind_Ok _ _ _ _ _ Hr), (bind_Ok _ _ _ _ _ (run_emit _ _)).
  exists r, (with_trace w1 [EvFitEnd]). split; [reflexivity|]. split; [done|].
  intros p Hp.
  destruct (confined_fit_loop (fun p => p = Train.model_save_path Train.CONFIG)
              (fun _ => True) eng Train.callbacks d (Z.to_nat epochs) 0 model
              [ESState (mk_es 0 infinity None 0 0); MCState neg_infinity; RLState] [])
    with (w := with_trace w [EvFitBegin]) as (Hf & _).
  - done.
  - intros filepath m b1 b2 Hin.
    assert (filepath = Train.model_save_path Train.CONFIG) as ->.
    { unfold Train.callbacks in Hin.
      repeat (apply elem_of_cons in Hin as [Hin|Hin]; [by inversion Hin|]).
      by apply elem_of_nil in Hin. }
    done.
  - rewrite Hr in Hf. cbn [snd with_trace files] in *. by apply Hf.
Qed.

(** What [train_model] does after [model.fit]: the outcome turns on the
    evaluation only. *)
Lemma run_train_finish eng X_val y_val tok le model history w :
  "models" ∈ dirs w ->
  exists evs,
    train_finish eng X_val y_val tok le (model, history) w =
    match evaluate eng model X_val y_val with
    | Ok _ =>
        (Ok tt,
         mk_world
           (<["models/training_history.json" := FJson (Train.history_json history)]>
              (<[Train.label_encoder_save_path Train.CONFIG :=
                   FJson (Train.label_encoder_json le)]>
                 (<[Train.tokenizer_save_path Train.CONFIG := FTokenizer tok]>
                    (files w))))
           (dirs w) (trace w ++ evs))
    | Raise e =>
        (Raise e,
         mk_world
           (<[Train.label_encoder_save_path Train.CONFIG :=
                FJson (Train.label_encoder_json le)]>
              (<[Train.tokenizer_save_path Train.CONFIG := FTokenizer tok]> (files w)))
           (dirs w) (trace w ++ evs))
    end.
Proof.
  intros Hd. unfold train_finish.
  rewrite (bind_Ok _ _ _ _ _ (run_print _ _)); norm_world.
  erewrite bind_Ok.
  2:{ apply run_write_file, dir_exists_models; [done|reflexivity]. }
  norm_world.
  rewrite (bind_Ok _ _ _ _ _ (run_print _ _)); norm_world.
  erewrite bind_Ok.
  2:{ apply run_write_file, dir_exists_models; [done|reflexivity]. }
  norm_world.
  rewrite (bind_Ok _ _ _ _ _ (run_print _ _)); norm_world.
  rewrite (bind_Ok _ _ _ _ _ (run_emit _ _)); norm_world.
  destruct (evaluate eng model X_val y_val) as [[val_loss val_accuracy]|e].
  - rewrite (bind_lift_Ok _ _ _ _ eq_refl). cbv beta iota.
    rewrite (bind_Ok _ _ _ _ _ (run_print _ _)); norm_world.
    rewrite (bind_Ok _ _ _ _ _ (run_print _ _)); norm_world.
    erewrite bind_Ok.
    2:{ apply run_write_file, dir_exists_models; [done|reflexivity]. }
    norm_world.
    rewrite (bind_Ok _ _ _ _ _ (run_print _ _)); norm_world.
    rewrite (bind_Ok _ _ _ _ _ (run_print _ _)); norm_world.
    rewrite (bind_Ok _ _ _ _ _ (run_print _ _)); norm_world.
    rewrite run_print. norm_world. rewrite <- !app_assoc. by eexists.
  - rewrite (bind_lift_Raise _ _ _ e eq_refl). rewrite <- !app_assoc. by eexists.
Qed.

(** The whole run, when the data can be split and no epoch fails. *)
Lemma run_train_model eng w :
  files w !! "models" = None ->
  (forall X y ts rs, is_ok (train_test_split eng X y ts rs) = true) ->
  (forall m cbs d e h, is_ok (train_epoch eng m cbs d e h) = true) ->
  exists model history X_val y_val fs evs,
    (forall p, p <> Train.model_save_path Train.CONFIG -> fs !! p = files w !! p) /\
    Train.train_model eng w =
    match evaluate eng model X_val y_val with
    | Ok _ =>
        (Ok tt,
         mk_world
           (<["models/training_history.json" := FJson (Train.history_json history)]>
              (<[Train.label_encoder_save_path Train.CONFIG :=
                   FJson (Train.label_encoder_json
                            (LabelEncoder.fit (Train.df_intent Train.load_data)))]>
                 (<[Train.tokenizer_save_path Train.CONFIG :=
                      FTokenizer (fitted (Train.df_text Train.load_data))]> fs)))
           ({["models"]} ∪ dirs w) (trace w ++ evs))
    | Raise e =>
        (Raise e,
         mk_world
           (<[Train.label_encoder_save_path Train.CONFIG :=
                FJson (Train.label_encoder_json
                         (LabelEncoder.fit (Train.df_intent Train.load_data)))]>
              (<[Train.tokenizer_save_path Train.CONFIG :=
                   FTokenizer (fitted (Train.df_text Train.load_data))]> fs))
           ({["models"]} ∪ dirs w) (trace w ++ evs))
    end.
Proof.
  intros Hm Hsplit Hep. destruct (run_train_prefix eng w Hm) as (y & ->).
  match goal with |- context [train_from_split eng ?X y ?tok ?le ?w0] =>
    set (w1 := w0);
    specialize (Hsplit X y (Train.validation_split Train.CONFIG) 42);
    destruct (train_test_split eng X y (Train.validation_split Train.CONFIG) 42)
      as [[[[X_train X_val] y_train] y_val]|] eqn:Hs; [|discriminate Hsplit];
    rewrite (run_train_from_split eng X y tok le w1 _ _ _ _ Hs)
  end.
  match goal with |- context [bind (fit eng ?model ?d ?epochs _) _ ?w0] =>
    destruct (fit_returns eng model d epochs w0 Hep)
      as ([model' history] & w2 & Hfit & Hd2 & Hf2)
  end.
  { subst w1. cbn [with_trace dirs]. apply elem_of_union; left. by apply elem_of_singleton. }
  rewrite (bind_Ok _ _ _ _ _ Hfit).
  destruct (run_train_finish eng X_val y_val (fitted (Train.df_text Train.load_data))
              (LabelEncoder.fit (Train.df_intent Train.load_data)) model' history w2)
    as (evs & ->).
  { rewrite Hd2. subst w1. cbn [with_trace dirs].
    apply elem_of_union; left. by apply elem_of_singleton. }
  destruct (confined_fit_train eng
              (Train.create_model eng
                 (Train.vocab_size (fitted (Train.df_text Train.load_data)))
                 (Z.of_nat (length (LabelEncoder.classes_
                    (LabelEncoder.fit (Train.df_intent Train.load_data))))))
              (mk_fit_data X_train y_train X_val y_val (Train.batch_size Train.CONFIG))
              (Train.epochs Train.CONFIG)
              (with_trace w1
                 [ EvPrint [PStr "Training samples: "; PInt (Train.len_rows X_train)];
                   EvPrint [PStr "Validation samples: "; PInt (Train.len_rows X_val)];
                   EvPrint [PStr "Creating model..."];
                   EvPrint [PStr "Model: ";
                            PInt (Z.of_nat (length (km_layers
                              (Train.create_model eng
                                 (Train.vocab_size (fitted (Train.df_text Train.load_data)))
                                 (Z.of_nat (length (LabelEncoder.classes_
                                    (LabelEncoder.fit
                                       (Train.df_intent Train.load_data)))))))))];
                   EvPrint [PStr "Training model..."] ]))
    as (_ & _ & evs2 & Ht2 & _).
  rewrite Hfit in Ht2. cbn [snd] in Ht2.
  exists model', history, X_val, y_val, (files w2).
  rewrite Hd2, Ht2. subst w1. cbn [with_trace files dirs trace] in *.
  rewrite <- !app_assoc. eexists. split; [exact Hf2|].
  destruct (evaluate eng model' X_val y_val); reflexivity.
Qed.

(** ** The training run, end to end *)



(** A training run that returns normally has gone through [model.fit], and
    has then written its three files over what [model.fit] left. *)
Lemma train_model_inv eng w r w' :
  Train.train_model eng w = (Ok r, w') ->
  exists d w1 model' history w2,
    files w1 = files w /\
    fit eng
      (Train.create_model eng (Train.vocab_size (fitted (Train.df_text Train.load_data)))
         (Z.of_nat (length (LabelEncoder.classes_
                              (LabelEncoder.fit (Train.df_intent Train.load_data))))))
      d (Train.epochs Train.CONFIG) Train.callbacks w1
      = (Ok (model', history), w2) /\
    files w' =
      <["models/training_history.json" := FJson (Train.history_json history)]>
        (<[Train.label_encoder_save_path Train.CONFIG :=
             FJson (Train.label_encoder_json
                      (LabelEncoder.fit (Train.df_intent Train.load_data)))]>
           (<[Train.tokenizer_save_path Train.CONFIG :=
                FTokenizer (fitted (Train.df_text Train.load_data))]> (files w2))).
Proof.
  intros Hrun.
  destruct (files w !! "models") as [f|] eqn:Hm.
  { destruct (train_model_run eng w) as (y & Heq). rewrite Heq in Hrun.
    rewrite (bind_Raise _ _ _ _ _ (run_makedirs_exists _ _ _ Hm)) in Hrun.
    discriminate Hrun. }
  destruct (run_train_prefix eng w Hm) as (y & Heq). rewrite Heq in Hrun. clear Heq.
  match type of Hrun with
  | train_from_split eng ?X y ?tok ?le ?w0 = _ =>
      set (w1 := w0) in Hrun;
      destruct (train_test_split eng X y (Train.validation_split Train.CONFIG) 42)
        as [[[[X_train X_val] y_train] y_val]|e] eqn:Hs
  end.
  2:{ unfold train_from_split in Hrun.
      rewrite (bind_lift_Raise _ _ _ _ Hs) in Hrun. discriminate Hrun. }
  rewrite (run_train_from_split eng _ y _ _ w1 _ _ _ _ Hs) in Hrun.
  apply bind_inv_Ok in Hrun as ([model' history] & w2 & Hfit & Hfin).
  destruct (run_train_finish eng X_val y_val (fitted (Train.df_text Train.load_data))
              (LabelEncoder.fit (Train.df_intent Train.load_data)) model' history w2)
    as (evs & Heq).
  { match type of Hfit with
    | fit eng ?m ?d ?n _ ?w0 = _ =>
        destruct (confined_fit_train eng m d n w0) as (_ & Hd & _)
    end.
    rewrite Hfit in Hd. cbn [snd] in Hd. apply Hd.
    subst w1. cbn [with_trace dirs]. apply elem_of_union; left.
    by apply elem_of_singleton. }
  rewrite Heq in Hfin.
  destruct (evaluate eng model' X_val y_val); [|discriminate Hfin].
  injection Hfin as _ <-.
  eexists _, _, model', history, w2.
  split; [|split; [exact Hfit|reflexivity]]. reflexivity.
Qed.



(** X18: if [model.evaluate] raises after a training that did not fail,
    the run ends with that exception; the tokenizer and the label-encoder
    files are written by then, and the history file is left as it was. *)
Theorem evaluation_failure_keeps_vocabulary (eng : engine) (w : world) (e : exn) :
  files w !! "models" = None ->
  (forall X y ts rs, is_ok (train_test_split eng X y ts rs) = true) ->
  (forall m cbs d e h, is_ok (train_epoch eng m cbs d e h) = true) ->
  (forall m X y, evaluate eng m X y = Raise e) ->
  exists w',
    Train.train_model eng w = (Raise e, w') /\
    files w' !! Train.tokenizer_save_path Train.CONFIG
      = Some (FTokenizer (fitted (Train.df_text Train.load_data))) /\
    files w' !! Train.label_encoder_save_path Train.CONFIG
      = Some (FJson (Train.label_encoder_json
                       (LabelEncoder.fit (Train.df_intent Train.load_data)))) /\
    files w' !! "models/training_history.json"
      = files w !! "models/training_history.json".
Proof.
  intros Hm Hsplit Hep Hev.
  destruct (run_train_model eng w Hm Hsplit Hep)
    as (model & history & X_val & y_val & fs & evs & Hfs & ->).
  rewrite (Hev model X_val y_val).
  eexists. split; [reflexivity|]. cbn [files].
  split; [by rewrite !lookup_insert_ne by done; apply lookup_insert_eq|].
  split; [apply lookup_insert_eq|].
  rewrite !lookup_insert_ne by done. by apply Hfs.
Qed.

Lemma evaluation_failure_keeps_vocabulary_witness :
  exists w',
    Train.train_model unevaluating_engine empty_world
      = (Raise (Exception "InvalidArgumentError" "evaluate"), w') /\
    files w' !! Train.tokenizer_save_path Train.CONFIG
      = Some (FTokenizer (fitted (Train.df_text Train.load_data))) /\
    files w' !! Train.label_encoder_save_path Train.CONFIG
      = Some (FJson (Train.label_encoder_json
                       (LabelEncoder.fit (Train.df_intent Train.load_data)))) /\
    files w' !! "models/training_history.json"
      = files empty_world !! "models/training_history.json".
Proof.
  apply (evaluation_failure_keeps_vocabulary unevaluating_engine empty_world
           (Exception "InvalidArgumentError" "evaluate"));
    [reflexivity | intros; reflexivity | intros; reflexivity | intros; reflexivity].
Defined.



(** ** The checkpoint *)

Lemma best_accuracy_snoc l v :
  best_accuracy (l ++ [v])
  = if PrimFloat.ltb (best_accuracy l) v then v else best_accuracy l.
Proof. unfold best_accuracy. by rewrite fold_left_app. Qed.

Lemma record_at_last l v :
  record_at (l ++ [v]) (length l) = PrimFloat.ltb (best_accuracy l) v.
Proof.
  unfold record_at. rewrite list_lookup_middle by done. by rewrite take_app_length.
Qed.

Lemma record_at_prefix l k e :
  (e < length l)%nat -> record_at (l ++ k) e = record_at l e.
Proof.
  intros H. unfold record_at. rewrite lookup_app_l by done.
  by rewrite take_app_le by lia.
Qed.

Lemma last_record_snoc l v :
  last_record (l ++ [v])
  = if PrimFloat.ltb (best_accuracy l) v then Some (length l) else last_record l.
Proof.
  unfold last_record. rewrite length_app. cbn [length].
  rewrite Nat.add_1_r, seq_S, fold_left_app.
  cbn [fold_left Nat.add]. rewrite record_at_last.
  destruct (PrimFloat.ltb (best_accuracy l) v); [done|].
  apply fold_left_ext_in. intros t e He. apply in_seq in He.
  by rewrite record_at_prefix by lia.
Qed.

Lemma last_record_lt l e : last_record l = Some e -> (e < length l)%nat.
Proof.
  revert e. induction l as [|v l IH] using rev_ind; intros e; [discriminate|].
  rewrite last_record_snoc, length_app. cbn [length].
  destruct (PrimFloat.ltb (best_accuracy l) v).
  - intros [= <-]. lia.
  - intros H. apply IH in H. lia.
Qed.

(** While training goes on, [EarlyStopping] leaves the weights alone. *)
Lemma es_on_epoch_end_continue m patience restore s epoch logs mw s' wt :
  es_on_epoch_end m patience restore s epoch logs mw = (s', false, wt) -> wt = mw.
Proof.
  unfold es_on_epoch_end. cbv zeta.
  match goal with |- (if ?c then _ else _) = _ -> _ => destruct c end;
    intros H; by inversion H.
Qed.

(** The trainer's callbacks at the end of an epoch, with what they leave in
    the checkpoint file: the model as [EarlyStopping] left it, when the
    epoch set a record. *)
Lemma run_train_callbacks_files s best epoch logs model w r w' s' stop wt :
  callbacks_on_epoch_end Train.callbacks [ESState s; MCState best; RLState]
    epoch logs model false w = (Ok r, w') ->
  es_on_epoch_end m_val_loss 10 true s epoch logs (km_weights model) = (s', stop, wt) ->
  r = ([ESState s';
        MCState (if PrimFloat.ltb best (log_val_accuracy logs)
                 then log_val_accuracy logs else best);
        RLState], set_weights model wt, stop) /\
  files w' !! Train.model_save_path Train.CONFIG =
    if PrimFloat.ltb best (log_val_accuracy logs)
    then Some (FModel (set_weights model wt))
    else files w !! Train.model_save_path Train.CONFIG.
Proof.
  unfold Train.callbacks. cbn [callbacks_on_epoch_end cb_on_epoch_end].
  intros H Hes. rewrite Hes in H.
  apply bind_inv_Ok in H as ([[st1 m1] stop1] & w1 & H1 & H).
  injection H1 as <- <- <- <-. cbn [orb] in H.
  apply bind_inv_Ok in H as ([[sts2 m2] stop2] & w2 & H2 & H).
  injection H as <- <-.
  apply bind_inv_Ok in H2 as ([[st3 m3] stop3] & w3 & H3 & H2).
  apply bind_inv_Ok in H2 as ([[sts4 m4] stop4] & w4 & H4 & H2).
  injection H2 as <- <- <- <-.
  apply bind_inv_Ok in H4 as ([[st5 m5] stop5] & w5 & H5 & H4).
  injection H5 as <- <- <- <-. injection H4 as <- <- <- <-.
  cbn [get_log monitor_op] in H3.
  destruct (PrimFloat.ltb best (log_val_accuracy logs)).
  - apply bind_inv_Ok in H3 as ([] & w6 & Hsave & H3). injection H3 as <- <- <- <-.
    split; [done|]. unfold model_save in Hsave.
    apply bind_inv_Ok in Hsave as ([] & w7 & _ & Hsave).
    by apply writes_last_write_file in Hsave.
  - injection H3 as <- <- <- <-. by split.
Qed.

(** The training loop with the trainer's callbacks, from any point between
    two epochs on, with the checkpoint file. *)
Lemma fit_loop_checkpoint eng d model0 before remaining :
  forall ws history s model w model' history' w',
  length ws = length history ->
  model = model_at model0 ws (length ws) ->
  (forall e, (e < length history)%nat -> epoch_of eng model0 d ws history e) ->
  files w !! Train.model_save_path Train.CONFIG
    = checkpoint model0 before ws (map log_val_accuracy history) model ->
  fit_loop eng Train.callbacks d remaining (Z.of_nat (length history)) model
    [ESState s; MCState (best_accuracy (map log_val_accuracy history)); RLState]
    history w = (Ok (model', history'), w') ->
  exists ws',
    length ws' = length history' /\
    (forall e, (e < length history')%nat -> epoch_of eng model0 d ws' history' e) /\
    model' = set_weights model0 (km_weights model') /\
    files w' !! Train.model_save_path Train.CONFIG
      = checkpoint model0 before ws' (map log_val_accuracy history') model'.
Proof.
  induction remaining as [|n IH];
    intros ws history s model w model' history' w' Hlen Hmodel Hep Hfile Hrun.
  - injection Hrun as <- <- <-. exists ws. split; [done|]. split; [done|].
    split; [|done]. rewrite Hmodel.
    destruct (length ws) as [|k]; cbn [model_at]; [by destruct model0|].
    by destruct (ws !! k); [|destruct model0].
  - rewrite fit_loop_S in Hrun.
    apply bind_inv_Ok in Hrun as ([] & w1 & Hemit & Hrun).
    injection Hemit as <-.
    apply bind_inv_Ok in Hrun as ([wn logs] & w2 & Hstep & Hrun).
    assert (train_epoch eng model Train.callbacks d (Z.of_nat (length history)) history
            = Ok (wn, logs) /\
            files w2 = files w) as (Hepoch & Hw2).
    { unfold lift in Hstep.
      destruct (train_epoch eng model Train.callbacks d _ history);
        inversion Hstep; by subst. }
    apply bind_inv_Ok in Hrun as ([[sts' model1] stop] & w3 & Hcb & Hrun).
    destruct (es_on_epoch_end m_val_loss 10 true s (Z.of_nat (length history)) logs
                (km_weights (set_weights model wn))) as [[s' stop0] wt] eqn:Hes.
    destruct (run_train_callbacks_files _ _ _ _ _ _ _ _ _ _ _ Hcb Hes) as (Heq & Hf).
    injection Heq as -> -> ->.
    assert (map log_val_accuracy (history ++ [logs])
            = map log_val_accuracy history ++ [log_val_accuracy logs]) as Hmap
      by (by rewrite map_app).
    assert (forall e, (e < length (history ++ [logs]))%nat ->
              epoch_of eng model0 d (ws ++ [wn]) (history ++ [logs]) e) as Hep'.
    { apply epoch_of_snoc; [done|done|]. by rewrite <- Hmodel. }
    assert (length (ws ++ [wn]) = length (history ++ [logs])) as Hlen'
      by (rewrite !length_app; cbn [length]; lia).
    assert (set_weights (set_weights model wn) wt = set_weights model0 wt) as Hset.
    { rewrite Hmodel. cbn [km_weights set_weights].
      by rewrite <- (set_weights_model_at model0 ws (length ws) wt). }
    assert (files w3 !! Train.model_save_path Train.CONFIG
            = checkpoint model0 before (ws ++ [wn])
                (map log_val_accuracy (history ++ [logs]))
                (set_weights (set_weights model wn) wt)) as Hfile'.
    { rewrite Hf, Hmap. unfold checkpoint. rewrite last_record_snoc.
      destruct (PrimFloat.ltb (best_accuracy (map log_val_accuracy history))
                  (log_val_accuracy logs)).
      - rewrite length_app. cbn [length]. rewrite Nat.add_1_r, Nat.eqb_refl. done.
      - rewrite Hw2, Hfile. unfold checkpoint.
        destruct (last_record (map log_val_accuracy history)) as [e|] eqn:Hlr; [|done].
        apply last_record_lt in Hlr. rewrite length_map in Hlr.
        rewrite length_app, !length_map. cbn [length].
        assert ((S e =? length history + 1)%nat = false) as ->
          by (apply Nat.eqb_neq; lia).
        rewrite model_at_prefix by lia.
        destruct (Nat.eqb_spec (S e) (length history)) as [He|He]; [|done].
        by rewrite He, <- Hlen, Hmodel. }
    destruct stop0.
    + injection Hrun as <- <- <-. exists (ws ++ [wn]).
      split; [done|]. split; [done|]. split; [|done].
      by rewrite Hset.
    + apply es_on_epoch_end_continue in Hes. cbn [km_weights set_weights] in Hes.
      subst wt.
      replace (Z.of_nat (length history) + 1)
        with (Z.of_nat (length (history ++ [logs]))) in Hrun
        by (rewrite length_app; cbn [length]; lia).
      rewrite <- best_accuracy_snoc, <- Hmap in Hrun.
      apply (IH _ _ _ _ _ _ _ _ Hlen') in Hrun; [done| |done|done].
      by rewrite model_at_last.
Qed.

(** [model.fit] as the trainer calls it, with the checkpoint file. *)
Lemma fit_checkpoint eng model d w model' history w' :
  fit eng model d (Train.epochs Train.CONFIG) Train.callbacks w
    = (Ok (model', history), w') ->
  exists ws,
    length ws = length history /\
    (forall e, (e < length history)%nat -> epoch_of eng model d ws history e) /\
    model' = set_weights model (km_weights model') /\
    files w' !! Train.model_save_path Train.CONFIG
      = checkpoint model (files w !! Train.model_save_path Train.CONFIG) ws
          (map log_val_accuracy history) model'.
Proof.
  intros Hfit. unfold fit in Hfit.
  apply bind_inv_Ok in Hfit as ([] & w1 & Hemit & Hfit). injection Hemit as <-.
  apply bind_inv_Ok in Hfit as ([model1 history1] & w2 & Hloop & Hfit).
  apply bind_inv_Ok in Hfit as ([] & w3 & Hemit & Hfit). injection Hemit as <-.
  injection Hfit as <- <- <-.
  change (map cb_init Train.callbacks)
    with [ESState (mk_es 0 infinity None 0 0);
          MCState (best_accuracy (map log_val_accuracy [])); RLState] in Hloop.
  apply (fit_loop_checkpoint eng d model
           (files w !! Train.model_save_path Train.CONFIG) _ [] [] _ model) in Hloop;
    [done|done|done|intros e He; cbn [length] in He; lia|done].
Qed.

(** X20: [ModelCheckpoint] with save_best_only on the validation accuracy
    writes the model file only at the epochs whose accuracy is strictly
    greater than the best before: after [model.fit], where [ws] are the
    weights the engine produced epoch by epoch, the file holds the model
    with the weights of the last such epoch, and is as before the run when
    there was none; when that epoch is the final one, the file holds the
    model that [model.fit] returns, which after an early stop carries the
    weights [EarlyStopping] restored. *)
Theorem checkpoint_holds_best_accuracy (eng : engine) (model : keras_model)
    (d : fit_data) (w : world) (model' : keras_model) (history : list epoch_logs) :
  fst (fit eng model d (Train.epochs Train.CONFIG) Train.callbacks w)
    = Ok (model', history) ->
  exists ws,
    length ws = length history /\
    (forall e, (e < length history)%nat -> epoch_of eng model d ws history e) /\
    files (snd (fit eng model d (Train.epochs Train.CONFIG) Train.callbacks w))
      !! Train.model_save_path Train.CONFIG
    = match last_record (map log_val_accuracy history) with
      | None => files w !! Train.model_save_path Train.CONFIG
      | Some e =>
          Some (FModel (if (S e =? length history)%nat then model'
                        else model_at model ws (S e)))
      end.
Proof.
  destruct (fit _ _ _ _ _ w) as [r w'] eqn:Hfit. cbn [fst snd]. intros ->.
  apply fit_checkpoint in Hfit as (ws & H1 & H2 & _ & H3).
  exists ws. split; [done|]. split; [done|].
  rewrite H3. unfold checkpoint. by rewrite length_map.
Qed.

Lemma checkpoint_holds_best_accuracy_witness :
  exists ws,
    length ws = length (repeat (mk_logs 1 0 1 0) 11) /\
    (forall e, (e < length (repeat (mk_logs 1 0 1 0) 11))%nat ->
       epoch_of steady_engine tiny_model no_data ws (repeat (mk_logs 1 0 1 0) 11) e) /\
    files (snd (fit steady_engine tiny_model no_data (Train.epochs Train.CONFIG)
                  Train.callbacks trained_world))
      !! Train.model_save_path Train.CONFIG
    = match last_record (map log_val_accuracy (repeat (mk_logs 1 0 1 0) 11)) with
      | None => files trained_world !! Train.model_save_path Train.CONFIG
      | Some e =>
          Some (FModel (if (S e =? length (repeat (mk_logs 1 0 1 0) 11))%nat
                        then tiny_model
                        else model_at tiny_model ws (S e)))
      end.
Proof.
  apply (checkpoint_holds_best_accuracy steady_engine tiny_model no_data trained_world
           tiny_model (repeat (mk_logs 1 0 1 0) 11)).
  vm_compute. reflexivity.
Defined.

(** X21: the two scripts agree on their files: after a training run that
    returns normally, [load_tokenizer_and_labels] of the exporter returns
    the fitted tokenizer and the classes of the label encoder. *)
Theorem export_reads_what_training_wrote (eng : engine) (w : world) :
  fst (Train.train_model eng w) = Ok tt ->
  fst (Exporter.load_tokenizer_and_labels (snd (Train.train_model eng w)))
  = Ok (fitted (Train.df_text Train.load_data),
        JList (map JStr (LabelEncoder.classes_
                           (LabelEncoder.fit (Train.df_intent Train.load_data))))).
Proof.
  destruct (Train.train_model eng w) as [r w'] eqn:Hrun. cbn [fst snd]. intros ->.
  apply train_model_inv in Hrun
    as (d & w1 & model' & history & w2 & _ & _ & Hfiles).
  rewrite (run_load_tokenizer_and_labels w'
             (fitted (Train.df_text Train.load_data))
             (Train.label_encoder_json
                (LabelEncoder.fit (Train.df_intent Train.load_data)))
             (JList (map JStr (LabelEncoder.classes_
                                 (LabelEncoder.fit (Train.df_intent Train.load_data)))))).
  - reflexivity.
  - rewrite Hfiles.
    by rewrite !lookup_insert_ne by done; apply lookup_insert_eq.
  - rewrite Hfiles.
    by rewrite !lookup_insert_ne by done; apply lookup_insert_eq.
  - unfold Exporter.json_get, Train.label_encoder_json.
    erewrite dict_of_list_lookup; [reflexivity| |apply elem_of_cons; by left].
    cbn [map fst]. apply NoDup_singleton.
Qed.

Lemma export_reads_what_training_wrote_witness :
  fst (Exporter.load_tokenizer_and_labels
         (snd (Train.train_model steady_engine empty_world)))
  = Ok (fitted (Train.df_text Train.load_data),
        JList (map JStr (LabelEncoder.classes_
                           (LabelEncoder.fit (Train.df_intent Train.load_data))))).
Proof.
  apply (export_reads_what_training_wrote steady_engine empty_world).
  vm_compute. reflexivity.
Defined.

(** No epoch sets a record exactly when no validation accuracy is above
    minus infinity. *)
Lemma best_accuracy_no_record l :
  (forall v, v ∈ l -> PrimFloat.ltb neg_infinity v = false) ->
  best_accuracy l = neg_infinity.
Proof.
  induction l as [|v l IH] using rev_ind; intros H; [done|].
  rewrite best_accuracy_snoc, IH.
  - rewrite H; [done|]. apply elem_of_app. right. by apply elem_of_cons; left.
  - intros v' Hv'. apply H, elem_of_app. by left.
Qed.

Lemma last_record_None l :
  last_record l = None <-> forall v, v ∈ l -> PrimFloat.ltb neg_infinity v = false.
Proof.
  induction l as [|v l IH] using rev_ind.
  - split; [|done]. intros _ v Hv. by apply elem_of_nil in Hv.
  - rewrite last_record_snoc. split.
    + destruct (PrimFloat.ltb (best_accuracy l) v) eqn:Hv; [discriminate|].
      intros Hl. pose proof (proj1 IH Hl) as Hall.
      rewrite (best_accuracy_no_record l Hall) in Hv.
      intros v' Hv'. apply elem_of_app in Hv' as [Hv'|Hv']; [by apply Hall|].
      apply elem_of_cons in Hv' as [->|Hv']; [done|]. by apply elem_of_nil in Hv'.
    + intros Hall.
      assert (forall v', v' ∈ l -> PrimFloat.ltb neg_infinity v' = false) as Hall'
        by (intros v' Hv'; apply Hall, elem_of_app; by left).
      rewrite (best_accuracy_no_record l Hall'), Hall.
      * by apply IH.
      * apply elem_of_app. right. by apply elem_of_cons; left.
Qed.

Lemma km_layers_model_at model ws e :
  km_layers (model_at model ws e) = km_layers model.
Proof. destruct e as [|e]; [done|]. cbn [model_at]. by destruct (ws !! e). Qed.

(** X22: the training script never saves the model itself, the file is
    written by the checkpoint only.  After a run that returns normally: if
    some epoch reported a validation accuracy above minus infinity, the
    model file holds a model with the layers the script created, and
    [load_model] of the exporter returns it; otherwise (every validation
    accuracy is NaN or minus infinity) the model file is as it was before
    the run. *)
Theorem model_file_written_by_checkpoint_only (eng : engine) (w : world) :
  fst (Train.train_model eng w) = Ok tt ->
  exists history,
    files (snd (Train.train_model eng w)) !! "models/training_history.json"
      = Some (FJson (Train.history_json history)) /\
    if existsb (fun l => PrimFloat.ltb neg_infinity (log_val_accuracy l)) history
    then
      exists m,
        fst (Exporter.load_model (Exporter.model_path Exporter.CONFIG)
               (snd (Train.train_model eng w))) = Ok m /\
        km_layers m =
        km_layers
          (Train.create_model eng
             (Train.vocab_size (fitted (Train.df_text Train.load_data)))
             (Z.of_nat (length (LabelEncoder.classes_
                                  (LabelEncoder.fit (Train.df_intent Train.load_data))))))
    else
      files (snd (Train.train_model eng w)) !! Train.model_save_path Train.CONFIG
      = files w !! Train.model_save_path Train.CONFIG.
Proof.
  destruct (Train.train_model eng w) as [r w'] eqn:Hrun. cbn [fst snd]. intros ->.
  apply train_model_inv in Hrun
    as (d & w1 & model' & history & w2 & Hw1 & Hfit & Hfiles).
  apply fit_checkpoint in Hfit as (ws & _ & _ & Hmodel' & Hck).
  assert (files w' !! Train.model_save_path Train.CONFIG
          = files w2 !! Train.model_save_path Train.CONFIG) as Hsame
    by (by rewrite Hfiles, !lookup_insert_ne by done).
  exists history. split; [rewrite Hfiles; apply lookup_insert_eq|].
  unfold checkpoint in Hck.
  destruct (existsb _ history) eqn:Hex.
  - destruct (last_record (map log_val_accuracy history)) as [e|] eqn:Hlr.
    + eexists. split.
      * erewrite run_load_model; [reflexivity|].
        change (Exporter.model_path Exporter.CONFIG)
          with (Train.model_save_path Train.CONFIG).
        rewrite Hsame. exact Hck.
      * destruct (S e =? length (map log_val_accuracy history))%nat.
        -- by rewrite Hmodel'.
        -- apply km_layers_model_at.
    + apply existsb_exists in Hex as (l & Hl & Hv).
      rewrite (proj1 (last_record_None _) Hlr (log_val_accuracy l)) in Hv;
        [discriminate|].
      apply list_elem_of_fmap. exists l. split; [done|]. by apply list_elem_of_In.
  - rewrite Hsame, Hck, Hw1.
    assert (last_record (map log_val_accuracy history) = None) as ->; [|done].
    apply last_record_None. intros v Hv.
    apply list_elem_of_fmap in Hv as (l & -> & Hl).
    destruct (PrimFloat.ltb neg_infinity (log_val_accuracy l)) eqn:Hv; [|done].
    assert (existsb (fun l => PrimFloat.ltb neg_infinity (log_val_accuracy l)) history
            = true) as Hex'
      by (apply existsb_exists; exists l; split; [by apply list_elem_of_In|done]).
    rewrite Hex' in Hex. discriminate.
Qed.

Lemma model_file_written_by_checkpoint_only_witness :
  exists history,
    files (snd (Train.train_model steady_engine empty_world))
      !! "models/training_history.json"
      = Some (FJson (Train.history_json history)) /\
    if existsb (fun l => PrimFloat.ltb neg_infinity (log_val_accuracy l)) history
    then
      exists m,
        fst (Exporter.load_model (Exporter.model_path Exporter.CONFIG)
               (snd (Train.train_model steady_engine empty_world))) = Ok m /\
        km_layers m =
        km_layers
          (Train.create_model steady_engine
             (Train.vocab_size (fitted (Train.df_text Train.load_data)))
             (Z.of_nat (length (LabelEncoder.classes_
                                  (LabelEncoder.fit (Train.df_intent Train.load_data))))))
    else
      files (snd (Train.train_model steady_engine empty_world))
        !! Train.model_save_path Train.CONFIG
      = files empty_world !! Train.model_save_path Train.CONFIG.
Proof.
  apply (model_file_written_by_checkpoint_only steady_engine empty_world).
  vm_compute. reflexivity.
Defined.
